(** * The email agent's workflow graph: state, stages, routers and runs

    A shallow embedding of [backend/graph/state.py], [backend/graph/nodes.py],
    [backend/graph/orchestrator.py], [backend/tools/tool_registry.py],
    [backend/tools/knowledge_updater.py] and the one constant of
    [backend/config.py] the graph reads, followed by the fallback parser of
    [backend/utils/email_parser.py] and the settings service of
    [backend/services/settings_service.py].

    Python values are embedded as follows.
    - A [TypedDict] with [total=False] is a record of optional fields; a
      stage's returned [dict] is a record of the same type in which the keys
      the stage did not mention are [None].
    - [int] is [Z], [str] is [string], pydantic models are records.
    - A call that may raise is a value of [Outcome]; [try]/[except] is
      [try_except].  What the language model, the retrieval chain, a tool,
      the settings service or the template parser answers is not decided
      by the stages: the collaborators are arbitrary functions from what
      they are called with to an [Outcome]. *)

From Stdlib Require Import ZArith String List Bool Lia.
From stdpp Require Import base option list strings gmap.

Local Open Scope string_scope.
Local Open Scope Z_scope.

(** ** Python calls that may raise *)

Module Py.

Inductive Outcome (A : Type) : Type :=
| Returns (a : A)
| Raises (e : string).
Arguments Returns {A} a.
Arguments Raises {A} e.

#[export] Instance outcome_ret : MRet Outcome := fun A a => Returns a.
#[export] Instance outcome_bind : MBind Outcome := fun A B f m =>
  match m with
  | Returns a => f a
  | Raises e => Raises e
  end.

(** [try: body except Exception as e: handler e] *)
Definition try_except {A} (body : Outcome A) (handler : string -> Outcome A)
  : Outcome A :=
  match body with
  | Returns a => Returns a
  | Raises e => handler e
  end.

(** Truth value testing ([if x], [not x], [x and y]). *)
Class Truthy (A : Type) := truthy : A -> bool.

#[export] Instance truthy_bool : Truthy bool := fun b => b.
#[export] Instance truthy_str : Truthy string := fun s =>
  match s with
  | EmptyString => false
  | String _ _ => true
  end.
(** [None] is false; an optional value is as true as what it holds. *)
#[export] Instance truthy_optional {A} `{Truthy A} : Truthy (option A) :=
  fun o => match o with
           | Some a => truthy a
           | None => false
           end.

End Py.
Export Py.

(** ** [graph/state.py] *)

Module state.

Record TriageResult := {
  category : string;
  priority : string;
  should_respond : bool;
  reasoning : string
}.

Record ExtractedData := {
  summary : string;
  has_attachments : bool
}.

Record AttachmentDetails := {
  id : string;
  filename : string;
  mimeType : string
}.

Record EmailDetails := {
  message_id : string;
  thread_id : string;
  sender_email : string;
  subject : string;
  full_content : string;
  original_message_id_header : string;
  attachments : list AttachmentDetails
}.

Record Intent := {
  tool_name : string;
  tool_query : option string
}.

Record Critique := {
  is_acceptable : bool;
  feedback : string
}.

(** Instances of the pydantic models define neither [__bool__] nor
    [__len__]: every instance is true. *)
#[export] Instance truthy_TriageResult : Truthy TriageResult := fun _ => true.
#[export] Instance truthy_ExtractedData : Truthy ExtractedData := fun _ => true.
#[export] Instance truthy_EmailDetails : Truthy EmailDetails := fun _ => true.
#[export] Instance truthy_Intent : Truthy Intent := fun _ => true.
#[export] Instance truthy_Critique : Truthy Critique := fun _ => true.

(** What a tool returns, which is what [tool_output] holds at run time: a
    string, or another object (several tools return lists), given by its
    truth value and by the text a prompt shows for it. *)
Inductive ToolOutput :=
| output_str (s : string)
| output_object (is_true : bool) (text : string).

#[export] Instance truthy_ToolOutput : Truthy ToolOutput := fun o =>
  match o with
  | output_str s => truthy s
  | output_object is_true _ => is_true
  end.

(** The text of a tool output in a prompt. *)
Definition text_of (o : ToolOutput) : string :=
  match o with
  | output_str s => s
  | output_object _ text => text
  end.

(** [class AgentState(TypedDict, total=False)]: every key may be absent. *)
Record AgentState := {
  email_details : option EmailDetails;
  conversation_history : option string;
  triage_result : option TriageResult;
  extracted_data : option ExtractedData;
  intent : option Intent;
  rag_context : option string;
  tool_output : option ToolOutput;
  draft_reply : option string;
  learnable_fact : option string;
  critique_feedback : option string;
  revision_count : option Z;
  requires_review : option bool;
  error_message : option string
}.

(** The dict [{}]. *)
Definition empty : AgentState :=
  {| email_details := None; conversation_history := None;
     triage_result := None; extracted_data := None; intent := None;
     rag_context := None; tool_output := None; draft_reply := None;
     learnable_fact := None; critique_feedback := None;
     revision_count := None; requires_review := None;
     error_message := None |}.

(** The keys of the dict and what they hold, for statements that range
    over all fields at once. *)
Inductive Key :=
| k_email_details | k_conversation_history | k_triage_result
| k_extracted_data | k_intent | k_rag_context | k_tool_output
| k_draft_reply | k_learnable_fact | k_critique_feedback
| k_revision_count | k_requires_review | k_error_message.

Inductive Value :=
| VEmail (e : EmailDetails)
| VTriage (t : TriageResult)
| VExtracted (d : ExtractedData)
| VIntent (i : Intent)
| VStr (s : string)
| VOutput (o : ToolOutput)
| VInt (n : Z)
| VBool (b : bool).

(** [state.get(key)] *)
Definition get (k : Key) (s : AgentState) : option Value :=
  match k with
  | k_email_details => VEmail <$> email_details s
  | k_conversation_history => VStr <$> conversation_history s
  | k_triage_result => VTriage <$> triage_result s
  | k_extracted_data => VExtracted <$> extracted_data s
  | k_intent => VIntent <$> intent s
  | k_rag_context => VStr <$> rag_context s
  | k_tool_output => VOutput <$> tool_output s
  | k_draft_reply => VStr <$> draft_reply s
  | k_learnable_fact => VStr <$> learnable_fact s
  | k_critique_feedback => VStr <$> critique_feedback s
  | k_revision_count => VInt <$> revision_count s
  | k_requires_review => VBool <$> requires_review s
  | k_error_message => VStr <$> error_message s
  end.

(** Dict literals with one or two keys, as the stages return them. *)
Definition with_triage_result (v : TriageResult) (u : AgentState) :=
  {| email_details := email_details u;
     conversation_history := conversation_history u;
     triage_result := Some v; extracted_data := extracted_data u;
     intent := intent u; rag_context := rag_context u;
     tool_output := tool_output u; draft_reply := draft_reply u;
     learnable_fact := learnable_fact u;
     critique_feedback := critique_feedback u;
     revision_count := revision_count u;
     requires_review := requires_review u;
     error_message := error_message u |}.

Definition with_extracted_data (v : ExtractedData) (u : AgentState) :=
  {| email_details := email_details u;
     conversation_history := conversation_history u;
     triage_result := triage_result u; extracted_data := Some v;
     intent := intent u; rag_context := rag_context u;
     tool_output := tool_output u; draft_reply := draft_reply u;
     learnable_fact := learnable_fact u;
     critique_feedback := critique_feedback u;
     revision_count := revision_count u;
     requires_review := requires_review u;
     error_message := error_message u |}.

Definition with_intent (v : Intent) (u : AgentState) :=
  {| email_details := email_details u;
     conversation_history := conversation_history u;
     triage_result := triage_result u; extracted_data := extracted_data u;
     intent := Some v; rag_context := rag_context u;
     tool_output := tool_output u; draft_reply := draft_reply u;
     learnable_fact := learnable_fact u;
     critique_feedback := critique_feedback u;
     revision_count := revision_count u;
     requires_review := requires_review u;
     error_message := error_message u |}.

Definition with_rag_context (v : string) (u : AgentState) :=
  {| email_details := email_details u;
     conversation_history := conversation_history u;
     triage_result := triage_result u; extracted_data := extracted_data u;
     intent := intent u; rag_context := Some v;
     tool_output := tool_output u; draft_reply := draft_reply u;
     learnable_fact := learnable_fact u;
     critique_feedback := critique_feedback u;
     revision_count := revision_count u;
     requires_review := requires_review u;
     error_message := error_message u |}.

Definition with_tool_output (v : ToolOutput) (u : AgentState) :=
  {| email_details := email_details u;
     conversation_history := conversation_history u;
     triage_result := triage_result u; extracted_data := extracted_data u;
     intent := intent u; rag_context := rag_context u;
     tool_output := Some v; draft_reply := draft_reply u;
     learnable_fact := learnable_fact u;
     critique_feedback := critique_feedback u;
     revision_count := revision_count u;
     requires_review := requires_review u;
     error_message := error_message u |}.

Definition with_draft_reply (v : string) (u : AgentState) :=
  {| email_details := email_details u;
     conversation_history := conversation_history u;
     triage_result := triage_result u; extracted_data := extracted_data u;
     intent := intent u; rag_context := rag_context u;
     tool_output := tool_output u; draft_reply := Some v;
     learnable_fact := learnable_fact u;
     critique_feedback := critique_feedback u;
     revision_count := revision_count u;
     requires_review := requires_review u;
     error_message := error_message u |}.

Definition with_learnable_fact (v : string) (u : AgentState) :=
  {| email_details := email_details u;
     conversation_history := conversation_history u;
     triage_result := triage_result u; extracted_data := extracted_data u;
     intent := intent u; rag_context := rag_context u;
     tool_output := tool_output u; draft_reply := draft_reply u;
     learnable_fact := Some v;
     critique_feedback := critique_feedback u;
     revision_count := revision_count u;
     requires_review := requires_review u;
     error_message := error_message u |}.

Definition with_critique_feedback (v : string) (u : AgentState) :=
  {| email_details := email_details u;
     conversation_history := conversation_history u;
     triage_result := triage_result u; extracted_data := extracted_data u;
     intent := intent u; rag_context := rag_context u;
     tool_output := tool_output u; draft_reply := draft_reply u;
     learnable_fact := learnable_fact u;
     critique_feedback := Some v;
     revision_count := revision_count u;
     requires_review := requires_review u;
     error_message := error_message u |}.

Definition with_revision_count (v : Z) (u : AgentState) :=
  {| email_details := email_details u;
     conversation_history := conversation_history u;
     triage_result := triage_result u; extracted_data := extracted_data u;
     intent := intent u; rag_context := rag_context u;
     tool_output := tool_output u; draft_reply := draft_reply u;
     learnable_fact := learnable_fact u;
     critique_feedback := critique_feedback u;
     revision_count := Some v;
     requires_review := requires_review u;
     error_message := error_message u |}.

Definition with_requires_review (v : bool) (u : AgentState) :=
  {| email_details := email_details u;
     conversation_history := conversation_history u;
     triage_result := triage_result u; extracted_data := extracted_data u;
     intent := intent u; rag_context := rag_context u;
     tool_output := tool_output u; draft_reply := draft_reply u;
     learnable_fact := learnable_fact u;
     critique_feedback := critique_feedback u;
     revision_count := revision_count u;
     requires_review := Some v;
     error_message := error_message u |}.

Definition with_error_message (v : string) (u : AgentState) :=
  {| email_details := email_details u;
     conversation_history := conversation_history u;
     triage_result := triage_result u; extracted_data := extracted_data u;
     intent := intent u; rag_context := rag_context u;
     tool_output := tool_output u; draft_reply := draft_reply u;
     learnable_fact := learnable_fact u;
     critique_feedback := critique_feedback u;
     revision_count := revision_count u;
     requires_review := requires_review u;
     error_message := Some v |}.

Definition with_email_details (v : EmailDetails) (u : AgentState) :=
  {| email_details := Some v;
     conversation_history := conversation_history u;
     triage_result := triage_result u; extracted_data := extracted_data u;
     intent := intent u; rag_context := rag_context u;
     tool_output := tool_output u; draft_reply := draft_reply u;
     learnable_fact := learnable_fact u;
     critique_feedback := critique_feedback u;
     revision_count := revision_count u;
     requires_review := requires_review u;
     error_message := error_message u |}.

Definition with_conversation_history (v : string) (u : AgentState) :=
  {| email_details := email_details u;
     conversation_history := Some v;
     triage_result := triage_result u; extracted_data := extracted_data u;
     intent := intent u; rag_context := rag_context u;
     tool_output := tool_output u; draft_reply := draft_reply u;
     learnable_fact := learnable_fact u;
     critique_feedback := critique_feedback u;
     revision_count := revision_count u;
     requires_review := requires_review u;
     error_message := error_message u |}.

(** One key of a partial update against the running state: a mentioned key
    replaces the old value, an unmentioned one keeps it. *)
Definition overwrite {A} (old new : option A) : option A :=
  match new with
  | Some v => Some v
  | None => old
  end.

(** Modelled from the spec: the engine's merge of a stage's partial update
    into the running state, which the graph library performs and the
    repository only declares through the keys of [AgentState]: field-wise
    overwrite, fields the stage did not mention are preserved. *)
Definition merge (s u : AgentState) : AgentState :=
  {| email_details := overwrite (email_details s) (email_details u);
     conversation_history :=
       overwrite (conversation_history s) (conversation_history u);
     triage_result := overwrite (triage_result s) (triage_result u);
     extracted_data := overwrite (extracted_data s) (extracted_data u);
     intent := overwrite (intent s) (intent u);
     rag_context := overwrite (rag_context s) (rag_context u);
     tool_output := overwrite (tool_output s) (tool_output u);
     draft_reply := overwrite (draft_reply s) (draft_reply u);
     learnable_fact := overwrite (learnable_fact s) (learnable_fact u);
     critique_feedback :=
       overwrite (critique_feedback s) (critique_feedback u);
     revision_count := overwrite (revision_count s) (revision_count u);
     requires_review := overwrite (requires_review s) (requires_review u);
     error_message := overwrite (error_message s) (error_message u) |}.

End state.
Export state.

(** ** [config.py] *)

Module config.

Definition MAX_REVISIONS : Z := 2.

End config.

(** ** What the stages call out to *)

Module collaborators.

(** The variables a chain is invoked with, [{"name": value, ...}]. *)
Definition Prompt := list (string * string).

(** [x or d] on an optional string. *)
Definition or_else (x : option string) (d : string) : string :=
  match x with
  | Some s => if truthy s then s else d
  | None => d
  end.

(** [x or d] on an optional tool output, as a prompt shows it. *)
Definition output_or_else (x : option ToolOutput) (d : string) : string :=
  match x with
  | Some o => if truthy o then text_of o else d
  | None => d
  end.

(** [str(b)] *)
Definition str_of_bool (b : bool) : string :=
  if b then "True" else "False".

Record LearnableInfo := {
  is_significant : bool;
  fact : option string
}.
#[export] Instance truthy_LearnableInfo : Truthy LearnableInfo :=
  fun _ => true.

(** A chat model: each [with_structured_output] chain and the plain chain,
    as what [chain.invoke] does with the prompt variables.  A structured
    chain returns an instance or [None]; the plain chain returns a message
    (given by its [content]) or [None]. *)
Record ChatModel := {
  invoke_TriageResult : Prompt -> Outcome (option TriageResult);
  invoke_ExtractedData : Prompt -> Outcome (option ExtractedData);
  invoke_LearnableInfo : Prompt -> Outcome (option LearnableInfo);
  invoke_Intent : Prompt -> Outcome (option Intent);
  invoke_Critique : Prompt -> Outcome (option Critique);
  invoke_message : Prompt -> Outcome (option string)
}.

(** What a tool is invoked with in [execute_tool]. *)
Inductive ToolInput :=
| attachments_input (message_id email_context : string)
    (attachments : list AttachmentDetails)
    (drive_folder_name : option string)
| query_input (tool_query : option string).

(** The dict [get_settings()] returns, as far as the stages read it. *)
Record Settings := {
  default_email_signature : option string;
  drive_folder_name : option string
}.

(** [SettingsService(knowledge_base=None).get_settings()], which a stage
    calls afresh each time: the constructor connects to Firestore and may
    raise; [get_settings] catches its own failures and falls back to the
    defaults. *)
Definition SettingsCall := Outcome Settings.

(** [ChatPromptTemplate.from_messages] on a system prompt the prompt
    library has pasted a text into.  The template text is parsed, so the
    call raises on a pasted text that is no template text (a lone brace);
    each function is given the pasted text. *)
Record PromptTemplates := {
  select_intent_prompt : string -> Outcome unit;
  generate_response_prompt : string -> Outcome unit
}.

End collaborators.
Export collaborators.

(** ** [tools/tool_registry.py] *)

Module tool_registry.

Record BaseTool := { name : string }.

(** The tools the registry imports; [@tool] names each after its function. *)
Definition search_the_web := {| name := "search_the_web" |}.
Definition check_availability := {| name := "check_availability" |}.
Definition create_calendar_event := {| name := "create_calendar_event" |}.
Definition get_pending_drafts_summary :=
  {| name := "get_pending_drafts_summary" |}.
Definition get_high_priority_summary :=
  {| name := "get_high_priority_summary" |}.
Definition get_full_email_content := {| name := "get_full_email_content" |}.
Definition list_attachments := {| name := "list_attachments" |}.
Definition star_email := {| name := "star_email" |}.
Definition delete_email := {| name := "delete_email" |}.
Definition search_gmail := {| name := "search_gmail" |}.
Definition search_google_drive := {| name := "search_google_drive" |}.
Definition draft_a_reply := {| name := "draft_a_reply" |}.
Definition send_email := {| name := "send_email" |}.
Definition knowledge_tool := {| name := "knowledge_tool" |}.
Definition contact_lookup := {| name := "contact_lookup" |}.
Definition process_attachment := {| name := "process_attachment" |}.

(** What an attribute of a registry instance holds. *)
Inductive Attribute :=
| a_none                          (* None *)
| a_object                        (* any other object: a service, a str *)
| a_tool (t : BaseTool)
| a_list (l : list BaseTool)
| a_method.                       (* a bound method of the class *)

#[export] Instance truthy_Attribute : Truthy Attribute := fun a =>
  match a with
  | a_none => false
  | a_list [] => false
  | _ => true
  end.

(** An instance: the attributes it has for being a Python object, whatever
    the class ([__class__], [__doc__], ..., and [__weakref__], which holds
    [None]), each with what it holds, and its instance dict. *)
Record ToolRegistry := {
  object_attributes : gmap string Attribute;
  __dict__ : gmap string Attribute
}.

Definition setattr (self : ToolRegistry) (attr : string) (v : Attribute)
  : ToolRegistry :=
  {| object_attributes := object_attributes self;
     __dict__ := <[attr := v]> (__dict__ self) |}.

Definition _discover_tools : list BaseTool :=
  [ search_the_web;
    check_availability; create_calendar_event;
    get_pending_drafts_summary; get_high_priority_summary;
    get_full_email_content; list_attachments; star_email; delete_email;
    search_gmail; search_google_drive; draft_a_reply; send_email;
    knowledge_tool; contact_lookup;
    process_attachment ].

Definition __init__ (self : ToolRegistry)
    (google_api_service knowledge_base llm : Attribute) : ToolRegistry :=
  let self := setattr self "google_api_service" google_api_service in
  let self := setattr self "knowledge_base" knowledge_base in
  let self := setattr self "llm" llm in
  let self := setattr self "_tools" (a_list _discover_tools) in
  foldl (fun self tool => setattr self (name tool) (a_tool tool))
        self _discover_tools.

(** The names the class body defines. *)
Definition class_attributes : list string :=
  [ "__init__"; "_discover_tools"; "get_all_tools" ].

Definition get_all_tools (self : ToolRegistry) : list BaseTool :=
  match __dict__ self !! "_tools" with
  | Some (a_list l) => l
  | _ => []
  end.

(** [getattr(self, attr, None)]: the instance dict, then the class, then
    [object]. *)
Definition getattr (self : ToolRegistry) (attr : string) : Attribute :=
  match __dict__ self !! attr with
  | Some v => v
  | None =>
      if bool_decide (attr ∈ class_attributes) then a_method
      else default a_none (object_attributes self !! attr)
  end.

(** [hasattr(self, attr)] *)
Definition hasattr (self : ToolRegistry) (attr : string) : bool :=
  bool_decide (is_Some (__dict__ self !! attr))
  || bool_decide (attr ∈ class_attributes)
  || bool_decide (is_Some (object_attributes self !! attr)).

End tool_registry.
Export tool_registry.

(** ** [tools/knowledge_updater.py] *)

Module knowledge_updater.

Definition extract_learnable_info (llm : ChatModel) (email_content : string)
  : Outcome (option LearnableInfo) :=
  try_except
    (result ← invoke_LearnableInfo llm [("content", email_content)];
     if negb (truthy result) then mret None
     else mret result)
    (fun e => mret None).

End knowledge_updater.
Export knowledge_updater.

(** ** [graph/nodes.py] *)

Module nodes.

(** What the retrieval chain built from the retriever and the model
    answers: [rag_chain.invoke(...)["answer"]]. *)
Definition RetrievalChain := Prompt -> Outcome string.

(** [tool_function.invoke(tool_input)], for whatever [getattr] found. *)
Definition ToolCall := Attribute -> ToolInput -> Outcome ToolOutput.

(** Node 1: Triage *)
Definition triage_email (state : AgentState) (llm : ChatModel)
  : Outcome AgentState :=
  match email_details state with
  | None =>
      mret (with_error_message
              "Triage failed: Missing email_details in state." empty)
  | Some email_details =>
      try_except
        (result ← invoke_TriageResult llm
           [ ("history", or_else (conversation_history state) "N/A");
             ("email_content", full_content email_details) ];
         match result with
         | None =>
             mret (with_error_message
                     "Triage failed: LLM API returned no result." empty)
         | Some result => mret (with_triage_result result empty)
         end)
        (fun e => mret (with_error_message ("Triage failed: " +:+ e) empty))
  end.

(** Node 2: Extract Data *)
Definition extract_data (state : AgentState) (llm : ChatModel)
  : Outcome AgentState :=
  match email_details state with
  | None =>
      mret (with_error_message
              "Data extraction failed: Missing email_details in state."
              empty)
  | Some email_details =>
      try_except
        (let has_attachments :=
           match attachments email_details with
           | [] => false
           | _ :: _ => true
           end in
         result ← invoke_ExtractedData llm
           [ ("email_content", full_content email_details);
             ("has_attachments_bool", str_of_bool has_attachments) ];
         match result with
         | None =>
             mret (with_error_message
                     "Data extraction failed: LLM API returned no result."
                     empty)
         | Some result => mret (with_extracted_data result empty)
         end)
        (fun e =>
           mret (with_error_message ("Data extraction failed: " +:+ e)
                   empty))
  end.

(** Node 3: Find Learning Opportunities *)
Definition find_learning_opportunities (state : AgentState)
    (llm : ChatModel) : Outcome AgentState :=
  match email_details state with
  | None => mret empty
  | Some email_details =>
      learnable_info ←
        extract_learnable_info llm (full_content email_details);
      match learnable_info with
      | Some info =>
          if is_significant info && truthy (fact info)
          then mret (with_learnable_fact (default "" (fact info)) empty)
          else mret empty
      | None => mret empty
      end
  end.

(** Node 4: Intent & Tool Selection.  The prompt library pastes the tool
    names into the system prompt (and neither the summary nor the
    attachment flag it is also given); the template is built before the
    [try]. *)
Definition select_intent_and_tool (state : AgentState)
    (templates : PromptTemplates) (llm : ChatModel)
    (tool_registry : ToolRegistry) : Outcome AgentState :=
  match email_details state, extracted_data state with
  | Some email_details, Some extracted_data =>
      let available_tools :=
        String.concat ", " (map name (get_all_tools tool_registry)) in
      _ ← select_intent_prompt templates available_tools;
      try_except
        (result ← invoke_Intent llm
           [ ("available_tools", available_tools);
             ("history", or_else (conversation_history state) "N/A");
             ("full_content", full_content email_details) ];
         match result with
         | None =>
             mret (with_error_message
                     "Intent selection failed: LLM API returned no result."
                     empty)
         | Some result => mret (with_intent result empty)
         end)
        (fun e =>
           mret (with_error_message ("Intent selection failed: " +:+ e)
                   empty))
  | _, _ =>
      mret (with_error_message
              "Intent selection failed: Missing email_details or extracted_data."
              empty)
  end.

(** Node 5: RAG.  [rag_chain] is the chain the stage builds from its model
    and retriever arguments. *)
Definition retrieve_from_knowledge_base (state : AgentState)
    (rag_chain : RetrievalChain) : Outcome AgentState :=
  match extracted_data state with
  | None =>
      mret (with_rag_context "Skipping RAG: Missing extracted_data." empty)
  | Some extracted_data =>
      try_except
        (answer ← rag_chain [ ("input", summary extracted_data) ];
         mret (with_rag_context answer empty))
        (fun e =>
           mret (with_rag_context
                   "Failed to retrieve context from knowledge base." empty))
  end.

(** Node 6: Tool Execution.  [settings_service] is the settings service
    the stage constructs and asks inside its [try], [invoke] what invoking
    the attribute found does; the stage does not use its model and API
    service arguments. *)
Definition execute_tool (state : AgentState)
    (settings_service : SettingsCall) (invoke : ToolCall)
    (tool_registry : ToolRegistry) : Outcome AgentState :=
  match intent state, email_details state with
  | Some intent, Some email_details =>
      let tool_name := tool_name intent in
      let tool_query := tool_query intent in
      let tool_function := getattr tool_registry tool_name in
      if negb (truthy tool_function)
      then mret (with_error_message
                   ("Tool '" +:+ tool_name +:+ "' not found in registry.")
                   empty)
      else
        try_except
          (settings ← settings_service;
           let tool_input :=
             if String.eqb tool_name "analyze_and_save_attachments"
             then attachments_input (message_id email_details)
                    (full_content email_details)
                    (attachments email_details)
                    (drive_folder_name settings)
             else query_input tool_query in
           output ← invoke tool_function tool_input;
           mret (with_tool_output output empty))
          (fun e =>
             mret (with_error_message
                     ("Tool execution for '" +:+ tool_name +:+ "' failed: "
                      +:+ e) empty))
  | _, _ =>
      mret (with_error_message
              "Tool execution failed: Missing intent or email_details."
              empty)
  end.

(** Node 7: Generate Response.  [settings_service] is the settings
    service the stage constructs and asks.  The prompt library pastes the
    signature into the system prompt.  The service is constructed and the
    template built before the [try]: a failure of either leaves the stage
    as an exception. *)
Definition generate_response (state : AgentState)
    (settings_service : SettingsCall) (templates : PromptTemplates)
    (llm : ChatModel) : Outcome AgentState :=
  match extracted_data state with
  | None =>
      mret (with_error_message
              "Response generation failed: Missing extracted_data." empty)
  | Some extracted_data =>
      settings ← settings_service;
      let signature :=
        default "Sincerely,
M Bharadwaj" (default_email_signature settings) in
      _ ← generate_response_prompt templates signature;
      try_except
        (response ← invoke_message llm
           [ ("signature", signature);
             ("summary", summary extracted_data);
             ("history", or_else (conversation_history state) "N/A");
             ("tool_output",
              output_or_else (tool_output state) "No tool was used.");
             ("critique_feedback",
              or_else (critique_feedback state) "N/A") ];
         match response with
         | None =>
             mret (with_error_message
                     "Response generation failed: LLM API returned no result."
                     empty)
         | Some content =>
             mret (with_draft_reply content
                     (with_revision_count
                        (default 0 (revision_count state) + 1) empty))
         end)
        (fun e =>
           mret (with_error_message
                   ("Response generation failed: " +:+ e) empty))
  end.

(** Node 8: Critique and Refine *)
Definition critique_and_refine (state : AgentState) (llm : ChatModel)
  : Outcome AgentState :=
  match extracted_data state with
  | Some extracted_data =>
      if negb (truthy (draft_reply state))
      then mret (with_requires_review true empty)
      else
        try_except
          (critique ← invoke_Critique llm
             [ ("summary", summary extracted_data);
               ("tool_output",
                output_or_else (tool_output state) "No tool was used.");
               ("draft", default "" (draft_reply state)) ];
           match critique with
           | None => mret (with_requires_review true empty)
           | Some critique =>
               if is_acceptable critique
               then mret (with_critique_feedback "None"
                            (with_requires_review true empty))
               else mret (with_critique_feedback (feedback critique)
                            (with_requires_review false empty))
           end)
          (fun e => mret (with_requires_review true empty))
  | None => mret (with_requires_review true empty)
  end.

End nodes.
Export nodes.

(** ** The graph library as the orchestrator uses it *)

Module graph.

(** A stage as the graph holds it.  The collaborators are already bound in
    (the source uses [functools.partial]); the number is the count of stage
    invocations made so far in the run, so that a collaborator may answer
    differently each time it is called. *)
Definition Node := nat -> AgentState -> Outcome AgentState.
Definition Router := AgentState -> string.

(** The terminal marker. *)
Definition END : string := "__end__".

(** Modelled from the spec: the graph definition (section 4.4), which the
    graph library keeps and the repository only fills in: stage name to
    stage function, unconditional edges, conditional edges as a router with
    its branch-key to target map, and one entry stage. *)
Record StateGraph := {
  nodes : gmap string Node;
  edges : gmap string string;
  branches : gmap string (Router * gmap string string);
  entry_point : option string
}.

Definition new : StateGraph :=
  {| nodes := ∅; edges := ∅; branches := ∅; entry_point := None |}.

Definition add_node (node : string) (action : Node) (w : StateGraph) :=
  {| nodes := <[node := action]> (nodes w); edges := edges w;
     branches := branches w; entry_point := entry_point w |}.

Definition set_entry_point (key : string) (w : StateGraph) :=
  {| nodes := nodes w; edges := edges w; branches := branches w;
     entry_point := Some key |}.

Definition add_edge (start_key end_key : string) (w : StateGraph) :=
  {| nodes := nodes w; edges := <[start_key := end_key]> (edges w);
     branches := branches w; entry_point := entry_point w |}.

Definition add_conditional_edges (source : string) (path : Router)
    (path_map : list (string * string)) (w : StateGraph) :=
  {| nodes := nodes w; edges := edges w;
     branches := <[source := (path, list_to_map path_map)]> (branches w);
     entry_point := entry_point w |}.

Inductive Status :=
| Finished                  (* the terminal marker was reached *)
| Defect (reason : string)  (* a configuration defect stopped the run *)
| LimitReached.             (* the step budget ran out first *)

(** A run: how it stopped, the state it stopped with, and the stages it
    invoked in order, each with the state after its update was merged. *)
Record Run := {
  status : Status;
  final_state : AgentState;
  trace : list (string * AgentState)
}.

Definition stop (st : Status) (s : AgentState)
    (tr : list (string * AgentState)) : Run :=
  {| status := st; final_state := s; trace := tr |}.

Definition after (current : string) (s : AgentState) (r : Run) : Run :=
  {| status := status r; final_state := final_state r;
     trace := (current, s) :: trace r |}.

(** The successor of a stage: its unconditional edge, or the target its
    router's key is registered for. *)
Definition successor (g : StateGraph) (current : string) (s : AgentState)
  : option string :=
  match edges g !! current with
  | Some target => Some target
  | None =>
      match branches g !! current with
      | Some (path, path_map) => path_map !! path s
      | None => None
      end
  end.

(** Modelled from the spec: what the engine merges for a stage (section
    4.5): the update the stage returned, or a generic error if a fault
    escaped the stage. *)
Definition update_of (o : Outcome AgentState) : AgentState :=
  match o with
  | Returns u => u
  | Raises _ => with_error_message "Unhandled stage exception." empty
  end.

(** Modelled from the spec: the execution engine (section 4.5), which is
    the graph library's: invoke the current stage on the running state,
    merge its update, resolve the successor through the unconditional edge
    or the router, stop at the terminal marker, otherwise repeat.  [limit]
    bounds the number of stage invocations so that the loop is a
    structural recursion; [t] counts the invocations already made. *)
Fixpoint run (g : StateGraph) (limit t : nat) (current : string)
    (s : AgentState) : Run :=
  match limit with
  | O => stop LimitReached s []
  | S limit' =>
      match nodes g !! current with
      | None => stop (Defect "unknown stage") s []
      | Some action =>
          let s' := merge s (update_of (action t s)) in
          match successor g current s' with
          | None => stop (Defect "no successor") s' [(current, s')]
          | Some target =>
              if String.eqb target END
              then stop Finished s' [(current, s')]
              else after current s' (run g limit' (S t) target s')
          end
      end
  end.

Definition invoke (g : StateGraph) (limit : nat) (initial_state : AgentState)
  : Run :=
  match entry_point g with
  | Some entry => run g limit 0 entry initial_state
  | None => stop (Defect "no entry point") initial_state []
  end.

(** How often a stage was invoked in a run. *)
Definition invocations (node : string) (r : Run) : nat :=
  length (filter (fun e => e.1 = node) (trace r)).

End graph.
Export graph.

(** ** [graph/orchestrator.py] *)

Module orchestrator.

(** What the orchestrator is constructed with, and what its stages reach
    on their own (the settings service, the prompt templates), each as of
    the [t]-th stage invocation of a run where it may answer differently
    from one call to the next. *)
Record GraphOrchestrator := {
  llm : nat -> ChatModel;
  rag_chain : nat -> RetrievalChain;
  settings_service : nat -> SettingsCall;
  templates : PromptTemplates;
  tool_call : nat -> ToolCall;
  tool_registry : ToolRegistry
}.

Section Routing.

Variable self : GraphOrchestrator.

Definition _route_after_triage (state : AgentState) : string :=
  let triage_result := triage_result state in
  if truthy (error_message state) || negb (truthy triage_result)
  then "end"
  else
    match triage_result with
    | Some triage_result =>
        if String.eqb (priority triage_result) "high" then "continue"
        else if negb (should_respond triage_result) then "end"
        else "continue"
    | None => "end"
    end.

Definition _route_after_extraction (state : AgentState) : string :=
  match triage_result state with
  | Some triage_result =>
      if String.eqb (priority triage_result) "high"
         && negb (should_respond triage_result)
      then "end"
      else "learn"
  | None => "learn"
  end.

Definition _route_action (state : AgentState) : string :=
  let intent := intent state in
  let triage_result := triage_result state in
  if truthy (error_message state) || negb (truthy intent)
     || negb (truthy triage_result)
  then "end"
  else
    match intent, triage_result with
    | Some intent, Some triage_result =>
        if hasattr (tool_registry self) (tool_name intent)
        then "tool_and_respond"
        else if bool_decide (category triage_result
                             ∈ ["job_application"; "customer_support"])
        then "rag_and_respond"
        else "respond"
    | _, _ => "end"
    end.

Definition _route_for_revision (state : AgentState) : string :=
  let revision_count := default 0 (revision_count state) in
  let requires_review := default false (requires_review state) in
  if requires_review || (config.MAX_REVISIONS <=? revision_count)
  then "end"
  else "revise".

Definition _build_graph : StateGraph :=
  let triage_node t state := triage_email state (llm self t) in
  let extract_node t state := extract_data state (llm self t) in
  let learning_node t state :=
    find_learning_opportunities state (llm self t) in
  let intent_node t state :=
    select_intent_and_tool state (templates self) (llm self t)
      (tool_registry self) in
  let rag_node t state :=
    retrieve_from_knowledge_base state (rag_chain self t) in
  let tool_node t state :=
    execute_tool state (settings_service self t) (tool_call self t)
      (tool_registry self) in
  let response_node t state :=
    generate_response state (settings_service self t) (templates self)
      (llm self t) in
  let critique_node t state := critique_and_refine state (llm self t) in
  let workflow := new in
  let workflow := add_node "triage" triage_node workflow in
  let workflow := add_node "extract_data" extract_node workflow in
  let workflow :=
    add_node "find_learning_opportunities" learning_node workflow in
  let workflow := add_node "select_intent" intent_node workflow in
  let workflow := add_node "rag" rag_node workflow in
  let workflow := add_node "execute_tool" tool_node workflow in
  let workflow := add_node "generate_response" response_node workflow in
  let workflow := add_node "critique_and_refine" critique_node workflow in
  let workflow := set_entry_point "triage" workflow in
  let workflow :=
    add_conditional_edges "triage" _route_after_triage
      [("continue", "extract_data"); ("end", END)] workflow in
  let workflow :=
    add_conditional_edges "extract_data" _route_after_extraction
      [("learn", "find_learning_opportunities"); ("end", END)]
      workflow in
  let workflow :=
    add_edge "find_learning_opportunities" "select_intent" workflow in
  let workflow :=
    add_conditional_edges "select_intent" _route_action
      [ ("rag_and_respond", "rag");
        ("tool_and_respond", "execute_tool");
        ("respond", "generate_response");
        ("end", END) ] workflow in
  let workflow := add_edge "rag" "generate_response" workflow in
  let workflow := add_edge "execute_tool" "generate_response" workflow in
  let workflow :=
    add_edge "generate_response" "critique_and_refine" workflow in
  let workflow :=
    add_conditional_edges "critique_and_refine" _route_for_revision
      [("revise", "generate_response"); ("end", END)] workflow in
  workflow.

(** [self.app.invoke(initial_state)] *)
Definition invoke (limit : nat) (initial_state : AgentState) : Run :=
  graph.invoke _build_graph limit initial_state.

End Routing.

End orchestrator.
Export orchestrator.

(** ** Scenarios *)

Module scenarios.

Definition an_email : EmailDetails :=
  {| message_id := "m1"; thread_id := "t1";
     sender_email := "ann@example.org"; subject := "Invoice";
     full_content := "From: Ann. Subject: Invoice. Please confirm.";
     original_message_id_header := "<m1@example.org>";
     attachments := [] |}.

(** The initial state as the driver builds it. *)
Definition initial_state : AgentState :=
  with_email_details an_email
    (with_conversation_history "" (with_revision_count 0 empty)).

Definition medium_reply : TriageResult :=
  {| category := "billing"; priority := "medium"; should_respond := true;
     reasoning := "A customer asks for a confirmation." |}.

Definition a_summary : ExtractedData :=
  {| summary := "Ann asks to confirm the invoice.";
     has_attachments := false |}.

(** A registry as [ToolRegistry(google_api_service, knowledge_base, llm)]
    builds it, on an instance with the given [object] attributes. *)
Definition registry (object_attrs : gmap string Attribute) : ToolRegistry :=
  __init__ {| object_attributes := object_attrs; __dict__ := ∅ |}
    a_object a_object a_object.

(** A chat model that classifies, summarises and picks the given tool
    name, and whose draft and critique answers are given. *)
Definition chat (tool : string) (draft : Outcome (option string))
    (critique : Outcome (option Critique)) : ChatModel :=
  {| invoke_TriageResult := fun _ => Returns (Some medium_reply);
     invoke_ExtractedData := fun _ => Returns (Some a_summary);
     invoke_LearnableInfo := fun _ => Returns None;
     invoke_Intent := fun _ =>
       Returns (Some {| tool_name := tool; tool_query := None |});
     invoke_Critique := fun _ => critique;
     invoke_message := fun _ => draft |}.

Definition rejects (fb : string) : Outcome (option Critique) :=
  Returns (Some {| is_acceptable := false; feedback := fb |}).

Definition no_settings : Settings :=
  {| default_email_signature := None; drive_folder_name := None |}.

(** Every pasted text gives a template. *)
Definition any_text : PromptTemplates :=
  {| select_intent_prompt := fun _ => Returns ();
     generate_response_prompt := fun _ => Returns () |}.

Definition orchestrator_with (model : nat -> ChatModel)
  : GraphOrchestrator :=
  {| llm := model;
     rag_chain := fun _ _ => Returns "No matching facts.";
     settings_service := fun _ => Returns no_settings;
     templates := any_text;
     tool_call := fun _ _ _ => Returns (output_str "done");
     tool_registry := registry ∅ |}.

(** Scenario D: every draft succeeds and the critic always rejects. *)
Definition always_rejected : GraphOrchestrator :=
  orchestrator_with
    (fun _ => chat "respond" (Returns (Some "Dear Ann, confirmed."))
                (rejects "Too terse.")).

(** The first draft succeeds, every later call of the drafting model
    raises, and the critic always rejects. *)
Definition draft_breaks : GraphOrchestrator :=
  orchestrator_with
    (fun t => chat "respond"
                (if (t <=? 4)%nat then Returns (Some "Dear Ann, confirmed.")
                 else Raises "503 Service Unavailable")
                (rejects "Too terse.")).

(** A state in the critique loop: a draft exists and an earlier critique
    left feedback. *)
Definition revising_state : AgentState :=
  with_critique_feedback "Too terse."
    (with_requires_review false
       (with_draft_reply "Dear Ann, confirmed."
          (with_revision_count 1
             (with_extracted_data a_summary initial_state)))).

(** A state right after a failed extraction: the error is set, the triage
    result asks for a reply. *)
Definition failed_extraction : AgentState :=
  with_error_message "Data extraction failed: 503 Service Unavailable"
    (with_triage_result medium_reply initial_state).

(** A state in the critique loop in which the last drafting call failed. *)
Definition failed_draft : AgentState :=
  with_error_message "Response generation failed: 503 Service Unavailable"
    revising_state.

(** The state the critique loop settles in once the drafting model breaks:
    the first draft is kept, the count stays at 1, the last critique
    rejected, and the error of the failed drafting call is set. *)
Definition stuck_state : AgentState :=
  with_intent {| tool_name := "respond"; tool_query := None |}
    (with_triage_result medium_reply failed_draft).

(** A state in which the selected intent names a method of the registry. *)
Definition method_named : AgentState :=
  with_intent {| tool_name := "get_all_tools"; tool_query := None |}
    (with_extracted_data a_summary
       (with_triage_result medium_reply initial_state)).

(** An orchestrator given another tool registry. *)
Definition with_registry (r : ToolRegistry) (self : GraphOrchestrator)
  : GraphOrchestrator :=
  {| llm := llm self; rag_chain := rag_chain self;
     settings_service := settings_service self;
     templates := templates self; tool_call := tool_call self;
     tool_registry := r |}.

End scenarios.

(** ** Vocabulary of the properties *)

Module properties.

(** The standing failure signal: [error_message] holds a non-empty string. *)
Definition error_set (s : AgentState) : Prop :=
  truthy (error_message s) = true.

(** An update under which a standing error stays standing: it does not
    mention [error_message], or sets it to a non-empty string. *)
Definition keeps_error (u : AgentState) : Prop :=
  error_message u = None \/ truthy (error_message u) = true.

(** The states of a run in order: the initial one, then the one after each
    stage invocation. *)
Definition states (s0 : AgentState) (r : Run) : list AgentState :=
  s0 :: map snd (trace r).

(** Along a list of states, an error that is set stays set. *)
Definition error_sticks (l : list AgentState) : Prop :=
  forall (i j : nat) (si sj : AgentState),
    (i <= j)%nat -> l !! i = Some si -> l !! j = Some sj ->
    error_set si -> error_set sj.

(** A run with some stage invocations put in front of it. *)
Definition prepend (pre : list (string * AgentState)) (r : Run) : Run :=
  {| status := status r; final_state := final_state r;
     trace := pre ++ trace r |}.

(** The stages invoked in a run, in order. *)
Definition stages (r : Run) : list string := map fst (trace r).

(** [state.get("revision_count", 0)] *)
Definition revision_of (s : AgentState) : Z := default 0 (revision_count s).

(** The critique feedback counts as cleared when the state holds none, an
    empty one, or the placeholder string the critique stage writes when it
    accepts a draft. *)
Definition feedback_cleared (s : AgentState) : Prop :=
  truthy (critique_feedback s) = false \/ critique_feedback s = Some "None".

(** The two outcomes of a critique, for the update [u] it returned on the
    state [s]: approval with the feedback cleared, or rejection with the
    feedback populated. *)
Definition approval_or_rejection (s u : AgentState) : Prop :=
  (requires_review u = Some true /\ feedback_cleared (merge s u))
  \/ (requires_review u = Some false
      /\ exists f, critique_feedback u = Some f /\ truthy f = true).

(** What the critic is asked about a draft. *)
Definition critique_prompt (s : AgentState) (data : ExtractedData)
    (draft : string) : Prompt :=
  [ ("summary", summary data);
    ("tool_output", output_or_else (tool_output s) "No tool was used.");
    ("draft", draft) ].

(** An update that mentions no key but [error_message]. *)
Definition only_error (u : AgentState) : Prop :=
  exists m, truthy m = true /\ u = with_error_message m empty.

(** A relation between the state before and after holds at every stage
    invocation of a trace that starts in state [s] at time [t]. *)
Fixpoint steps (R : nat -> string -> AgentState -> AgentState -> Prop)
    (t : nat) (s : AgentState) (tr : list (string * AgentState)) : Prop :=
  match tr with
  | [] => True
  | (node, s') :: tr' => R t node s s' /\ steps R (S t) s' tr'
  end.

(** How often the drafting stage occurs in a piece of a trace, and the state
    that piece ends in. *)
Definition drafts (tr : list (string * AgentState)) : nat :=
  length (filter (fun e => e.1 = "generate_response") tr).

Definition state_after (s0 : AgentState) (tr : list (string * AgentState))
  : AgentState :=
  default s0 (snd <$> last tr).

(** The signature the drafting stage takes from the settings. *)
Definition signature_of (settings : Settings) : string :=
  default "Sincerely,
M Bharadwaj" (default_email_signature settings).

(** What the drafting model is asked. *)
Definition draft_prompt (s : AgentState) (d : ExtractedData)
    (signature : string) : Prompt :=
  [ ("signature", signature);
    ("summary", summary d);
    ("history", or_else (conversation_history s) "N/A");
    ("tool_output", output_or_else (tool_output s) "No tool was used.");
    ("critique_feedback", or_else (critique_feedback s) "N/A") ].

(** A drafting call succeeds: the state holds the extracted data, the
    settings service is constructed, the template is built with the
    signature, and the model answers the drafting prompt with a message. *)
Definition draft_succeeds (s : AgentState) (settings_service : SettingsCall)
    (templates : PromptTemplates) (llm : ChatModel) : Prop :=
  exists d settings c,
    extracted_data s = Some d
    /\ settings_service = Returns settings
    /\ generate_response_prompt templates (signature_of settings)
       = Returns ()
    /\ invoke_message llm (draft_prompt s d (signature_of settings))
       = Returns (Some c).

(** The drafting stage is left by the exception [e]: the state holds the
    extracted data, and constructing the settings service or building the
    template raises [e]. *)
Definition draft_raises (s : AgentState) (settings_service : SettingsCall)
    (templates : PromptTemplates) (e : string) : Prop :=
  extracted_data s <> None
  /\ (settings_service = Raises e
      \/ exists settings,
           settings_service = Returns settings
           /\ generate_response_prompt templates (signature_of settings)
              = Raises e).

(** Whenever the drafting stage runs, its settings service is constructed
    and its template is built. *)
Definition drafting_set_up (self : GraphOrchestrator) : Prop :=
  forall t, exists settings,
    settings_service self t = Returns settings
    /\ generate_response_prompt (templates self) (signature_of settings)
       = Returns ().

(** The stages past the action router. *)
Definition past_action_router (node : string) : Prop :=
  node = "rag" \/ node = "execute_tool" \/ node = "generate_response"
  \/ node = "critique_and_refine".

(** Every critique in a trace left [requires_review] false. *)
Definition critique_rejected (tr : list (string * AgentState)) : Prop :=
  Forall (fun e => e.1 = "critique_and_refine"
                   -> requires_review e.2 = Some false) tr.

End properties.
Export properties.

(** ** Vocabulary of the properties of whole runs *)

Module runs.

(** The four stages every run opens with, in the order of the graph. *)
Definition opening : list string :=
  [ "triage"; "extract_data"; "find_learning_opportunities";
    "select_intent" ].

(** A list of stages that alternates between drafting and critique,
    starting with drafting when [draft_next] holds. *)
Fixpoint alternating (draft_next : bool) (l : list string) : bool :=
  match l with
  | [] => true
  | node :: l' =>
      String.eqb node
        (if draft_next then "generate_response" else "critique_and_refine")
      && alternating (negb draft_next) l'
  end.

(** The states a run goes through before the action router decides, as the
    stages at times 0 to 3 leave them. *)
Definition after_triage (self : GraphOrchestrator) (s0 : AgentState) :=
  merge s0 (update_of (triage_email s0 (llm self 0))).

Definition after_extraction (self : GraphOrchestrator) (s0 : AgentState) :=
  merge (after_triage self s0)
    (update_of (extract_data (after_triage self s0) (llm self 1))).

Definition after_learning (self : GraphOrchestrator) (s0 : AgentState) :=
  merge (after_extraction self s0)
    (update_of (find_learning_opportunities (after_extraction self s0)
                  (llm self 2))).

Definition after_intent (self : GraphOrchestrator) (s0 : AgentState) :=
  merge (after_learning self s0)
    (update_of (select_intent_and_tool (after_learning self s0)
                  (templates self) (llm self 3) (tool_registry self))).

End runs.
Export runs.

(** ** Variations of a run *)

Module variations.

(** The orchestrator constructed with another retrieval chain, everything
    else as it was. *)
Definition with_rag_chain (chain : nat -> RetrievalChain)
    (self : GraphOrchestrator) : GraphOrchestrator :=
  {| llm := llm self; rag_chain := chain;
     settings_service := settings_service self;
     templates := templates self; tool_call := tool_call self;
     tool_registry := tool_registry self |}.

(** The state with its [rag_context] key removed. *)
Definition without_rag_context (s : AgentState) : AgentState :=
  {| email_details := email_details s;
     conversation_history := conversation_history s;
     triage_result := triage_result s; extracted_data := extracted_data s;
     intent := intent s; rag_context := None;
     tool_output := tool_output s; draft_reply := draft_reply s;
     learnable_fact := learnable_fact s;
     critique_feedback := critique_feedback s;
     revision_count := revision_count s;
     requires_review := requires_review s;
     error_message := error_message s |}.

(** Two runs that stopped the same way, after the same stages, with the
    same states at every step apart from [rag_context]. *)
Definition same_apart_from_rag_context (r r' : Run) : Prop :=
  status r = status r'
  /\ map (fun e => (e.1, without_rag_context e.2)) (trace r)
     = map (fun e => (e.1, without_rag_context e.2)) (trace r')
  /\ without_rag_context (final_state r)
     = without_rag_context (final_state r').

End variations.
Export variations.

(** ** [utils/email_parser.py] *)

Module email_parser.

(** The [body] of a message part of the Gmail API. *)
Record Body := {
  data : option string;
  attachmentId : option string
}.

(** [{}] *)
Definition no_body : Body := {| data := None; attachmentId := None |}.

(** A message part of the Gmail API ([payload] and the elements of
    [parts]): the keys the parser reads, each of which may be absent. *)
#[warnings="-register-all"]
Inductive Payload :=
| Part (filename mimeType : option string) (body : option Body)
    (parts : list Payload) (headers : list (string * string)).

(** Induction on a payload, with the property at hand for all its parts. *)
Fixpoint Payload_parts_ind (P : Payload -> Prop)
    (step : forall filename mimeType body parts headers,
        Forall P parts -> P (Part filename mimeType body parts headers))
    (payload : Payload) : P payload :=
  match payload with
  | Part filename mimeType body parts headers =>
      step filename mimeType body parts headers
        ((fix all (l : list Payload) : Forall P l :=
            match l with
            | [] => @List.Forall_nil _ P
            | part :: l' =>
                @List.Forall_cons _ P part l'
                  (Payload_parts_ind P step part) (all l')
            end) parts)
  end.

(** [part.get("filename")] and the like; [parts] is a list that may be
    absent, which reads as the empty one. *)
Definition get_filename (p : Payload) : option string :=
  let 'Part filename _ _ _ _ := p in filename.
Definition get_mimeType (p : Payload) : option string :=
  let 'Part _ mimeType _ _ _ := p in mimeType.
Definition get_body (p : Payload) : Body :=
  let 'Part _ _ body _ _ := p in default no_body body.
Definition get_parts (p : Payload) : list Payload :=
  let 'Part _ _ _ parts _ := p in parts.
Definition get_headers (p : Payload) : list (string * string) :=
  let 'Part _ _ _ _ headers := p in headers.

(** An attachment as the parser reports it. *)
Record Attachment := {
  id : string;
  filename : string;
  mimeType : option string
}.

(** An attachment with a non-empty id and a non-empty file name. *)
Definition identified (a : Attachment) : Prop :=
  truthy (id a) = true /\ truthy (filename a) = true.

(** The local variables of the loop over the parts. *)
Record Locals := {
  html_body : string;
  plain_body : string;
  attachments : list Attachment
}.

(** [html_body if html_body else plain_body, attachments] *)
Definition returned (l : Locals) : string * list Attachment :=
  (if truthy (html_body l) then html_body l else plain_body l,
   attachments l).

(** [needle in s] on strings. *)
Definition contains (needle s : string) : bool :=
  match String.index 0 needle s with
  | Some _ => true
  | None => false
  end.

(** [for x in l: body], with the local variables passed along; an exception
    leaves the loop. *)
Fixpoint for_each {A S : Type} (body : A -> S -> Outcome S) (l : list A)
    (locals : S) : Outcome S :=
  match l with
  | [] => mret locals
  | x :: l' => locals' ← body x locals; for_each body l' locals'
  end.

Section Parser.

(** [base64.urlsafe_b64decode(data).decode("utf-8", errors="replace")],
    which raises on data that is not base64. *)
Variable urlsafe_b64decode : string -> Outcome string.

(** The body of the loop over the parts.  [nested] is what the parser
    answers for the part itself; only the last branch looks at it. *)
Definition parse_part (nested : Outcome (string * list Attachment))
    (part : Payload) (l : Locals) : Outcome Locals :=
  let filename := get_filename part in
  let mime_type := get_mimeType part in
  let body_data := get_body part in
  if truthy filename then
    let attachment_id := attachmentId body_data in
    if truthy attachment_id
    then mret {| html_body := html_body l; plain_body := plain_body l;
                 attachments :=
                   attachments l
                   ++ [ {| id := default "" attachment_id;
                           filename := default "" filename;
                           mimeType := mime_type |} ] |}
    else mret l
  else if bool_decide (mime_type = Some "text/html") then
    let data := default "" (data body_data) in
    if truthy data
    then decoded ← urlsafe_b64decode data;
         mret {| html_body := decoded; plain_body := plain_body l;
                 attachments := attachments l |}
    else mret l
  else if bool_decide (mime_type = Some "text/plain") then
    let data := default "" (data body_data) in
    if truthy data
    then decoded ← urlsafe_b64decode data;
         mret {| html_body := html_body l; plain_body := decoded;
                 attachments := attachments l |}
    else mret l
  else
    match get_parts part with
    | _ :: _ =>
        '(nested_body, nested_attachments) ← nested;
        let l' :=
          if truthy nested_body
             && negb (truthy (html_body l) || truthy (plain_body l))
          then
            if contains "<html>" nested_body
            then {| html_body := nested_body; plain_body := plain_body l;
                    attachments := attachments l |}
            else {| html_body := html_body l; plain_body := nested_body;
                    attachments := attachments l |}
          else l in
        mret {| html_body := html_body l'; plain_body := plain_body l';
                attachments := attachments l' ++ nested_attachments |}
    | [] => mret l
    end.

(** A payload without parts: its own body, if it is text. *)
Definition parse_leaf (payload : Payload) : Outcome (string * list Attachment) :=
  let mime_type := get_mimeType payload in
  let body_data := default "" (data (get_body payload)) in
  l ← (if truthy body_data
       then decoded_data ← urlsafe_b64decode body_data;
            if bool_decide (mime_type = Some "text/html")
            then mret {| html_body := decoded_data; plain_body := "";
                         attachments := [] |}
            else if bool_decide (mime_type = Some "text/plain")
            then mret {| html_body := ""; plain_body := decoded_data;
                         attachments := [] |}
            else mret {| html_body := ""; plain_body := "";
                         attachments := [] |}
       else mret {| html_body := ""; plain_body := ""; attachments := [] |});
  mret (returned l).

Fixpoint _recursive_payload_parser (payload : Payload)
  : Outcome (string * list Attachment) :=
  match payload with
  | Part _ _ _ [] _ => parse_leaf payload
  | Part _ _ _ parts _ =>
      l ← for_each
            (fun part => parse_part (_recursive_payload_parser part) part)
            parts
            {| html_body := ""; plain_body := ""; attachments := [] |};
      mret (returned l)
  end.

End Parser.

End email_parser.

(** ** [services/settings_service.py] *)

Module settings_service.

(** What a settings dict or the user's document holds under a key; the
    document is written by [save_settings] from a JSON request body. *)
#[warnings="-register-all"]
Inductive Value :=
| VNone
| VBool (b : bool)
| VInt (n : Z)
| VFloat (repr : string)
| VStr (s : string)
| VList (l : list Value)
| VMap (m : gmap string Value).

Section Service.

(** [d.update(l)] for a list [l], which takes each element for a pair of a
    key and a value: the dict it leaves, and the exception if an element is
    no such pair. *)
Variable update_from_pairs : gmap string Value -> list Value -> gmap string Value * Outcome unit.

(** [d.update(other)]: the dict as the call leaves it, and whether the
    call raised. *)
Definition update (d : gmap string Value) (other : Value) : gmap string Value * Outcome unit :=
  match other with
  | VMap m => (m ∪ d, Returns ())
  | VList l => update_from_pairs d l
  | VStr "" => (d, Returns ())
  | VStr _ =>
      (d, Raises
            "dictionary update sequence element #0 has length 1; 2 is required")
  | VNone => (d, Raises "'NoneType' object is not iterable")
  | VBool _ => (d, Raises "'bool' object is not iterable")
  | VInt _ => (d, Raises "'int' object is not iterable")
  | VFloat _ => (d, Raises "'float' object is not iterable")
  end.

(** The service instance.  [default_settings] is one dict object whose
    "notification_triggers" entry is a second dict object; every dict the
    service hands out refers to that same second object, so the two are
    kept apart: the other entries, and the triggers object. *)
Record SettingsService := {
  default_settings : gmap string Value;
  notification_triggers : gmap string Value
}.

Definition set_notification_triggers (d : gmap string Value) (self : SettingsService)
  : SettingsService :=
  {| default_settings := default_settings self;
     notification_triggers := d |}.

(** [get_settings].  [document] is what fetching the user's document
    gives: an exception, no document, or its [to_dict()].  The result is
    the service as the call leaves it and the entries of the returned dict
    other than "notification_triggers", which is the service's triggers
    object on every path. *)
Definition get_settings (document : Outcome (option (gmap string Value)))
    (self : SettingsService) : SettingsService * gmap string Value :=
  match document with
  | Raises _ => (self, default_settings self)
  | Returns None => (self, default_settings self)
  | Returns (Some user_settings) =>
      let effective_settings := default_settings self in
      match user_settings !! "notification_triggers" with
      | Some triggers =>
          let '(updated, outcome) :=
            update (notification_triggers self) triggers in
          let self := set_notification_triggers updated self in
          match outcome with
          | Raises _ => (self, default_settings self)
          | Returns _ =>
              let user_settings :=
                delete "notification_triggers" user_settings in
              (self, user_settings ∪ effective_settings)
          end
      | None => (self, user_settings ∪ effective_settings)
      end
  end.

(** [reset_to_defaults].  [exists] and [delete] are what looking the
    document up and deleting it do. *)
Definition reset_to_defaults (exists_ : Outcome bool)
    (delete : Outcome unit) (self : SettingsService) : Outcome (gmap string Value) :=
  e ← exists_;
  (if e : bool then delete else mret ()) ≫= fun _ =>
  mret (default_settings self).

(** A dict the service returned as a reader sees it afterwards: its
    entries, with the triggers object as it is by then. *)
Definition seen (self : SettingsService) (returned : gmap string Value) : gmap string Value :=
  <["notification_triggers" := VMap (notification_triggers self)]> returned.

(** The settings a call of [get_settings] gives its caller. *)
Definition effective (call : SettingsService * gmap string Value) : gmap string Value :=
  seen call.1 call.2.

End Service.

End settings_service.

Module settings_scenarios.

Import settings_service.

(** A service with two defaults and two triggers. *)
Definition a_service : SettingsService :=
  {| default_settings :=
       {[ "max_revisions" := VInt 2; "start_on_launch" := VBool false ]};
     notification_triggers :=
       {[ "new_draft" := VBool true; "new_learning" := VBool false ]} |}.

(** A user who wants to hear of new learning proposals. *)
Definition wanted_triggers : gmap string Value :=
  {[ "new_learning" := VBool true ]}.

Definition a_document : gmap string Value :=
  {[ "max_revisions" := VInt 3;
     "notification_triggers" := VMap wanted_triggers ]}.

(** Lists are not taken for updates here. *)
Definition no_pairs (d : gmap string Value) (l : list Value)
  : gmap string Value * Outcome unit :=
  (d, Raises "cannot convert dictionary update sequence element").

End settings_scenarios.

(** ** Proof steps that recur *)

(** A stage that returned, with an update that keeps a standing error. *)
Ltac returned :=
  simpl; eexists; split; [reflexivity | unfold keeps_error; simpl; auto].

(** Case analysis over everything a stage branches on. *)
Ltac stage_cases :=
  unfold triage_email, extract_data, find_learning_opportunities,
    extract_learnable_info, select_intent_and_tool,
    retrieve_from_knowledge_base, execute_tool, critique_and_refine,
    generate_response, try_except, mbind, outcome_bind, mret, outcome_ret;
  repeat (case_match; simplify_eq/=); try reflexivity.

(** Decide the branches a run takes on a closed state by evaluation. *)
Ltac settle_route :=
  repeat match goal with
         | |- context [if ?c then _ else _] =>
             let v := eval vm_compute in c in
             replace c with v by (vm_compute; reflexivity);
             cbv iota
         end.

(** A run's list of stages when the first one is not the stage looked for,
    and when the run stopped before reaching it. *)
Ltac passes H :=
  unfold stages, after in H; cbn [trace map fst] in H;
  apply elem_of_cons in H as [H|H]; [discriminate|].

Ltac stops_short H :=
  unfold stages in H; cbn [run stop trace map fst] in H;
  repeat (apply elem_of_cons in H as [H|H]; [discriminate|]);
  apply elem_of_nil in H; contradiction.

(** * Properties *)

(** ** Truth values and merging *)

Lemma get_merge (s u : AgentState) (k : Key) :
  get k (merge s u) = overwrite (get k s) (get k u).
Proof.
  destruct k; simpl;
    match goal with |- context [overwrite ?a ?b] => destruct b; reflexivity end.
Qed.

(** ** The routers *)

Section Routers.

Variable self : GraphOrchestrator.

Lemma route_after_triage_error (s : AgentState) :
  truthy (error_message s) = true -> _route_after_triage s = "end".
Proof. intros H. unfold _route_after_triage. rewrite H. reflexivity. Qed.

Lemma route_action_error (s : AgentState) :
  truthy (error_message s) = true -> _route_action self s = "end".
Proof. intros H. unfold _route_action. rewrite H. reflexivity. Qed.

Lemma route_for_revision_end (s : AgentState) :
  _route_for_revision s = "end"
  <-> default false (requires_review s) = true
      \/ config.MAX_REVISIONS <= default 0 (revision_count s).
Proof.
  unfold _route_for_revision.
  destruct (default false (requires_review s)); simpl.
  - split; auto.
  - destruct (Z.leb_spec config.MAX_REVISIONS (default 0 (revision_count s))).
    + split; auto.
    + split; [discriminate | intros [? | ?]; [discriminate | lia]].
Qed.

Lemma route_for_revision_revise (s : AgentState) :
  _route_for_revision s = "revise"
  <-> default false (requires_review s) = false
      /\ default 0 (revision_count s) < config.MAX_REVISIONS.
Proof.
  unfold _route_for_revision.
  destruct (default false (requires_review s)); simpl.
  - split; [discriminate | intros [? _]; discriminate].
  - destruct (Z.leb_spec config.MAX_REVISIONS (default 0 (revision_count s))).
    + split; [discriminate | intros [_ ?]; lia].
    + split; auto.
Qed.

End Routers.

(** C10: with no triage result in the state, whether or not an error is set,
    the after-extraction router answers "learn"; it answers "end" exactly
    when a triage result is present whose priority is "high" and whose
    [should_respond] is false. *)
Theorem route_after_extraction_spec :
  (forall s : AgentState,
      triage_result s = None -> _route_after_extraction s = "learn")
  /\ (forall s : AgentState,
         _route_after_extraction s = "end"
         <-> exists t, triage_result s = Some t
                       /\ priority t = "high" /\ should_respond t = false).
Proof.
  split.
  - intros s H. unfold _route_after_extraction. rewrite H. reflexivity.
  - intros s. unfold _route_after_extraction.
    destruct (triage_result s) as [t|].
    + destruct (String.eqb_spec (priority t) "high") as [Hp|Hp];
        destruct (should_respond t) eqn:Hr; simpl.
      * split; [discriminate | intros (t' & Ht & _ & Hf)].
        injection Ht as <-. congruence.
      * split; [intros _; exists t; auto | reflexivity].
      * split; [discriminate | intros (t' & Ht & Hq & _)].
        injection Ht as <-. contradiction.
      * split; [discriminate | intros (t' & Ht & Hq & _)].
        injection Ht as <-. contradiction.
    + split; [discriminate | intros (t & Ht & _); discriminate].
Qed.

Lemma route_after_extraction_spec_witness :
  _route_after_extraction
    (with_error_message "Data extraction failed: timeout" empty) = "learn".
Proof.
  apply (proj1 route_after_extraction_spec). reflexivity.
Defined.

(** ** The engine *)

Section Engine.

Variable g : StateGraph.

Lemma run_S (limit t : nat) (current : string) (s : AgentState) :
  run g (S limit) t current s =
  match nodes g !! current with
  | None => stop (Defect "unknown stage") s []
  | Some action =>
      let s' := merge s (update_of (action t s)) in
      match successor g current s' with
      | None => stop (Defect "no successor") s' [(current, s')]
      | Some target =>
          if String.eqb target END
          then stop Finished s' [(current, s')]
          else after current s' (run g limit (S t) target s')
      end
  end.
Proof. reflexivity. Qed.

(** A run that stopped for another reason than the step budget does not
    change when the budget grows. *)
Lemma run_mono (n m t : nat) (current : string) (s : AgentState) :
  (n <= m)%nat ->
  status (run g n t current s) <> LimitReached ->
  run g m t current s = run g n t current s.
Proof.
  revert m t current s.
  induction n as [|n IH]; intros m t current s Hle Hst.
  - simpl in Hst. contradiction.
  - destruct m as [|m]; [lia|].
    rewrite !run_S in *.
    destruct (nodes g !! current) as [action|]; [|reflexivity].
    cbv zeta in *.
    destruct (successor g current _) as [target|]; [|reflexivity].
    destruct (String.eqb target END); [reflexivity|].
    unfold after in *. simpl in Hst.
    rewrite (IH m); [reflexivity | lia | exact Hst].
Qed.

(** The last state of a run is its final state. *)
Lemma final_state_last (limit t : nat) (current : string) (s : AgentState) :
  last (states s (run g limit t current s))
  = Some (final_state (run g limit t current s)).
Proof.
  revert t current s.
  induction limit as [|limit IH]; intros t current s.
  - reflexivity.
  - rewrite run_S.
    destruct (nodes g !! current) as [action|]; [|reflexivity].
    cbv zeta.
    destruct (successor g current _) as [target|]; [|reflexivity].
    destruct (String.eqb target END); [reflexivity|].
    unfold states, after. simpl trace. simpl final_state.
    specialize (IH (S t) target (merge s (update_of (action t s)))).
    unfold states in IH. rewrite map_cons. simpl snd.
    rewrite last_cons. rewrite IH. reflexivity.
Qed.

(** If no stage of the graph clears the error, no run does. *)
Lemma run_error_sticks :
  (forall name action t s,
      nodes g !! name = Some action -> keeps_error (update_of (action t s))) ->
  forall limit t current s,
    error_sticks (states s (run g limit t current s)).
Proof.
  intros Hnodes.
  assert (Hstep : forall s u, keeps_error u -> error_set s ->
                              error_set (merge s u)).
  { intros s u [Hu|Hu] Hs; unfold error_set in *; simpl.
    - rewrite Hu. exact Hs.
    - destruct (error_message u); [exact Hu | discriminate]. }
  assert (Hall : forall limit t current s,
             error_set s ->
             Forall error_set (states s (run g limit t current s))).
  { induction limit as [|limit IH]; intros t current s Hs.
    - repeat constructor. exact Hs.
    - rewrite run_S.
      destruct (nodes g !! current) as [action|] eqn:Hn;
        [|repeat constructor; exact Hs].
      cbv zeta.
      pose proof (Hstep _ _ (Hnodes _ _ t s Hn) Hs) as Hs'.
      destruct (successor g current _) as [target|];
        [|repeat constructor; assumption].
      destruct (String.eqb target END);
        [repeat constructor; assumption|].
      constructor; [exact Hs|].
      apply (IH (S t) target _ Hs'). }
  induction limit as [|limit IH]; intros t current s i j si sj Hle Hi Hj Hsi.
  - destruct i, j; simpl in *; try discriminate; try lia. congruence.
  - destruct i as [|i].
    + injection Hi as <-.
      pose proof (Hall (S limit) t current s Hsi) as HF.
      rewrite Forall_lookup in HF. exact (HF _ _ Hj).
    + destruct j as [|j]; [lia|].
      revert Hi Hj. rewrite run_S.
      destruct (nodes g !! current) as [action|] eqn:Hn;
        [|simpl; intros; discriminate].
      cbv zeta.
      destruct (successor g current _) as [target|].
      * destruct (String.eqb target END).
        -- simpl. destruct i, j; simpl; intros; try discriminate; try lia.
           congruence.
        -- unfold states, after. simpl trace. rewrite map_cons. simpl snd.
           intros Hi Hj.
           apply (IH (S t) target (merge s (update_of (action t s)))
                    i j si sj); [lia | exact Hi | exact Hj | exact Hsi].
      * simpl. destruct i, j; simpl; intros; try discriminate; try lia.
        congruence.
Qed.

(** A relation that every stage invocation establishes, given an invariant
    of the stage about to run, holds along every run. *)
Lemma run_steps (I : string -> AgentState -> Prop)
    (R : nat -> string -> AgentState -> AgentState -> Prop) :
  (forall current s t action,
      I current s -> nodes g !! current = Some action ->
      R t current s (merge s (update_of (action t s)))
      /\ forall target,
          successor g current (merge s (update_of (action t s))) = Some target ->
          String.eqb target END = false ->
          I target (merge s (update_of (action t s)))) ->
  forall limit t current s,
    I current s -> steps R t s (trace (run g limit t current s)).
Proof.
  intros Hstep.
  induction limit as [|limit IH]; intros t current s HI; [exact Logic.I|].
  rewrite run_S.
  destruct (nodes g !! current) as [action|] eqn:Hn; [|exact Logic.I].
  cbv zeta.
  destruct (Hstep current s t action HI Hn) as [HR Hnext].
  destruct (successor g current _) as [target|] eqn:Hs;
    [|simpl; auto].
  destruct (String.eqb target END) eqn:He; [simpl; auto|].
  simpl. split; [exact HR|].
  apply IH. apply Hnext; [reflexivity | exact He].
Qed.

Lemma steps_app R (t : nat) (s : AgentState)
    (pre post : list (string * AgentState)) :
  steps R t s (pre ++ post) -> steps R t s pre.
Proof.
  revert t s. induction pre as [|[node s'] pre IH]; intros t s H;
    [exact Logic.I|].
  simpl in *. destruct H as [HR H]. split; [exact HR | eauto].
Qed.

End Engine.

(** ** The stages *)

Section Stages.

Variables (state : AgentState) (llm : ChatModel).

Lemma triage_email_returns :
  exists u, triage_email state llm = Returns u /\ keeps_error u.
Proof.
  unfold triage_email. destruct (email_details state) as [email|]; [|returned].
  destruct (invoke_TriageResult llm _) as [[r|]|e]; returned.
Qed.

Lemma extract_data_returns :
  exists u, extract_data state llm = Returns u /\ keeps_error u.
Proof.
  unfold extract_data. destruct (email_details state) as [email|]; [|returned].
  destruct (invoke_ExtractedData llm _) as [[r|]|e]; returned.
Qed.

Lemma extract_learnable_info_returns (email_content : string) :
  exists r, extract_learnable_info llm email_content = Returns r.
Proof.
  unfold extract_learnable_info.
  destruct (invoke_LearnableInfo llm _) as [[r|]|e]; simpl; eauto.
Qed.

Lemma find_learning_opportunities_returns :
  exists u, find_learning_opportunities state llm = Returns u
            /\ (u = empty
                \/ exists f, truthy f = true /\ u = with_learnable_fact f empty).
Proof.
  unfold find_learning_opportunities.
  destruct (email_details state) as [email|];
    [|exists empty; split; [reflexivity | left; reflexivity]].
  destruct (extract_learnable_info_returns (full_content email)) as [r ->].
  simpl. destruct r as [info|];
    [|exists empty; split; [reflexivity | left; reflexivity]].
  destruct (is_significant info); simpl;
    [|exists empty; split; [reflexivity | left; reflexivity]].
  destruct (fact info) as [f|]; simpl;
    [|exists empty; split; [reflexivity | left; reflexivity]].
  change (truthy (Some f)) with (truthy f).
  destruct (truthy f) eqn:Hf.
  - exists (with_learnable_fact f empty). split; [reflexivity|].
    right. exists f. split; [exact Hf | reflexivity].
  - exists empty; split; [reflexivity | left; reflexivity].
Qed.

(** The template of the intent prompt is built outside the [try]: the
    stage returns an update or raises, and either way what the engine
    merges keeps a standing error. *)
Lemma select_intent_and_tool_keeps_error (templates : PromptTemplates)
    (tool_registry : ToolRegistry) :
  keeps_error
    (update_of (select_intent_and_tool state templates llm tool_registry)).
Proof.
  unfold select_intent_and_tool.
  destruct (email_details state) as [email|]; [|right; reflexivity].
  destruct (extracted_data state) as [data|]; [|right; reflexivity].
  cbv zeta.
  destruct (select_intent_prompt templates _) as [[]|e];
    [|right; reflexivity].
  cbn [mbind outcome_bind].
  destruct (invoke_Intent llm _) as [[r|]|e];
    first [left; reflexivity | right; reflexivity].
Qed.

Lemma retrieve_from_knowledge_base_returns (rag_chain : RetrievalChain) :
  exists u, retrieve_from_knowledge_base state rag_chain = Returns u
            /\ keeps_error u.
Proof.
  unfold retrieve_from_knowledge_base.
  destruct (extracted_data state) as [data|]; [|returned].
  destruct (rag_chain _) as [a|e]; returned.
Qed.

Lemma execute_tool_returns (settings_service : SettingsCall)
    (invoke : ToolCall) (tool_registry : ToolRegistry) :
  exists u,
    execute_tool state settings_service invoke tool_registry = Returns u
    /\ keeps_error u.
Proof.
  unfold execute_tool.
  destruct (intent state) as [i|]; [|returned].
  destruct (email_details state) as [email|]; [|returned].
  destruct (negb _); [returned|].
  destruct settings_service as [settings|e]; [|returned].
  cbn [mbind outcome_bind].
  destruct (invoke _ _) as [out|e]; returned.
Qed.

(** The drafting stage constructs the settings service and builds its
    template outside the [try]: it returns an update or raises, and either
    way what the engine merges keeps a standing error. *)
Lemma generate_response_keeps_error (settings_service : SettingsCall)
    (templates : PromptTemplates) :
  keeps_error
    (update_of (generate_response state settings_service templates llm)).
Proof.
  unfold generate_response.
  destruct (extracted_data state) as [data|]; [|right; reflexivity].
  destruct settings_service as [settings|e]; [|right; reflexivity].
  cbn [mbind outcome_bind].
  destruct (generate_response_prompt templates _) as [[]|e];
    [|right; reflexivity].
  cbn [mbind outcome_bind].
  destruct (invoke_message llm _) as [[r|]|e];
    first [left; reflexivity | right; reflexivity].
Qed.

Lemma critique_and_refine_returns :
  exists u, critique_and_refine state llm = Returns u /\ keeps_error u.
Proof.
  unfold critique_and_refine.
  destruct (extracted_data state) as [data|]; [|returned].
  destruct (negb _); [returned|].
  destruct (invoke_Critique llm _) as [[r|]|e];
    [simpl; destruct (is_acceptable r)| |]; returned.
Qed.

End Stages.

(** A stage that returns an update which keeps a standing error. *)
Lemma returned_keeps_error (o : Outcome AgentState) :
  (exists u, o = Returns u /\ keeps_error u) -> keeps_error (update_of o).
Proof. intros (u & -> & Hu). exact Hu. Qed.

(** What the engine merges for a stage registered in the graph, whether
    the stage returned an update or raised, leaves a standing error
    standing. *)
Lemma graph_nodes_keep_error (self : GraphOrchestrator) (name : string)
    (action : Node) (t : nat) (s : AgentState) :
  nodes (_build_graph self) !! name = Some action ->
  keeps_error (update_of (action t s)).
Proof.
  unfold _build_graph.
  cbv [nodes add_node add_edge add_conditional_edges set_entry_point new].
  intros H.
  repeat (apply lookup_insert_Some in H as [[_ <-] | [_ H]];
          [ first [ apply returned_keeps_error, triage_email_returns
                  | apply returned_keeps_error, extract_data_returns
                  | apply select_intent_and_tool_keeps_error
                  | apply returned_keeps_error,
                      retrieve_from_knowledge_base_returns
                  | apply returned_keeps_error, execute_tool_returns
                  | apply generate_response_keeps_error
                  | apply returned_keeps_error, critique_and_refine_returns
                  | idtac ] | ]).
  - destruct (find_learning_opportunities_returns s (llm self t))
      as (u & Hu & Hcase).
    rewrite Hu.
    destruct Hcase as [-> | (f & _ & ->)]; left; reflexivity.
  - rewrite lookup_empty in H. discriminate.
Qed.

(** C7: nothing a stage does clears or empties [error_message]: the
    update the engine merges for a stage, which is the update the stage
    returned or the generic error if the stage raised, either does not
    mention [error_message] or sets it to a non-empty string.  So along
    every run of the graph, whatever the collaborators do and however long
    it runs, an error that is set in some state is set in every later state,
    the final one included. *)
Theorem error_message_never_cleared (self : GraphOrchestrator) :
  (forall name action t s,
      nodes (_build_graph self) !! name = Some action ->
      keeps_error (update_of (action t s)))
  /\ (forall limit s0, error_sticks (states s0 (invoke self limit s0)))
  /\ (forall limit s0,
         last (states s0 (invoke self limit s0))
         = Some (final_state (invoke self limit s0))).
Proof.
  split; [|split].
  - intros name action t s. apply graph_nodes_keep_error.
  - intros limit s0. unfold invoke, graph.invoke.
    change (entry_point (_build_graph self)) with (Some "triage").
    apply run_error_sticks.
    intros name action t s H.
    exact (graph_nodes_keep_error self name action t s H).
  - intros limit s0. unfold invoke, graph.invoke.
    change (entry_point (_build_graph self)) with (Some "triage").
    apply final_state_last.
Qed.

Lemma error_message_never_cleared_witness :
  error_set
    (final_state (invoke scenarios.draft_breaks 25 scenarios.initial_state)).
Proof.
  apply (proj1 (proj2 (error_message_never_cleared scenarios.draft_breaks))
           25%nat scenarios.initial_state 7%nat 25%nat
           scenarios.stuck_state).
  - lia.
  - vm_compute. reflexivity.
  - vm_compute. reflexivity.
  - reflexivity.
Defined.

(** C8: fact discovery never fails the run.  Whatever the state and whatever
    the model does (an exception, [None], any result), the helper
    [extract_learnable_info] returns, and [find_learning_opportunities]
    returns either the empty update or an update that sets [learnable_fact]
    (to a non-empty string) and nothing else; it never sets
    [error_message]. *)
Theorem find_learning_opportunities_never_fails
    (state : AgentState) (llm : ChatModel) :
  (forall content, exists r, extract_learnable_info llm content = Returns r)
  /\ exists u,
      find_learning_opportunities state llm = Returns u
      /\ (u = empty
          \/ exists f, truthy f = true /\ u = with_learnable_fact f empty)
      /\ error_message u = None.
Proof.
  split.
  - intros content. apply extract_learnable_info_returns.
  - destruct (find_learning_opportunities_returns state llm)
      as (u & Hu & Hcase).
    exists u. split; [exact Hu|]. split; [exact Hcase|].
    destruct Hcase as [-> | (f & _ & ->)]; reflexivity.
Qed.

(** ** The critique stage *)

(** C9, as the code has it: what the critique stage returns, case by case.
    With no extracted data or no draft in the state it returns
    [{requires_review: true}] alone, without asking the critic; so it does
    when the critic's call raises or gives no result; in these cases the
    critique feedback in the state stays as it was.  When the critic
    accepts the draft it returns [requires_review] true and overwrites the
    feedback with the literal string "None".  When the critic rejects the
    draft it returns [requires_review] false and the critic's feedback as
    it is, which may be the empty string. *)
Theorem critique_and_refine_outcomes (state : AgentState) (llm : ChatModel) :
  (extracted_data state = None \/ truthy (draft_reply state) = false ->
   critique_and_refine state llm = Returns (with_requires_review true empty))
  /\ forall data draft,
       extracted_data state = Some data ->
       draft_reply state = Some draft ->
       truthy draft = true ->
       (invoke_Critique llm (critique_prompt state data draft) = Returns None
        \/ (exists e,
              invoke_Critique llm (critique_prompt state data draft)
              = Raises e) ->
        critique_and_refine state llm
        = Returns (with_requires_review true empty))
       /\ (forall c,
             invoke_Critique llm (critique_prompt state data draft)
             = Returns (Some c) ->
             is_acceptable c = true ->
             critique_and_refine state llm
             = Returns (with_critique_feedback "None"
                          (with_requires_review true empty)))
       /\ (forall c,
             invoke_Critique llm (critique_prompt state data draft)
             = Returns (Some c) ->
             is_acceptable c = false ->
             critique_and_refine state llm
             = Returns (with_critique_feedback (feedback c)
                          (with_requires_review false empty))).
Proof.
  split.
  - intros [H|H]; unfold critique_and_refine; rewrite H;
      [reflexivity | destruct (extracted_data state); reflexivity].
  - intros data draft Hd Hr Ht.
    assert (E : critique_and_refine state llm
                = try_except
                    (critique ← invoke_Critique llm
                                  (critique_prompt state data draft);
                     match critique with
                     | None => mret (with_requires_review true empty)
                     | Some critique =>
                         if is_acceptable critique
                         then mret (with_critique_feedback "None"
                                      (with_requires_review true empty))
                         else mret (with_critique_feedback
                                      (feedback critique)
                                      (with_requires_review false empty))
                     end)
                    (fun e => mret (with_requires_review true empty))).
    { unfold critique_and_refine, critique_prompt. rewrite Hd, Hr.
      change (truthy (Some draft)) with (truthy draft). rewrite Ht.
      reflexivity. }
    rewrite E. split; [|split].
    + intros [H | [e H]]; rewrite H; reflexivity.
    + intros c H Hc. rewrite H. cbn [mbind outcome_bind]. rewrite Hc.
      reflexivity.
    + intros c H Hc. rewrite H. cbn [mbind outcome_bind]. rewrite Hc.
      reflexivity.
Qed.

(** C9 fails as stated, twice.  When the critic's call raises while the state
    still holds the feedback of an earlier rejection, the stage approves and
    the feedback stays; and when the critic rejects with an empty feedback,
    the stage rejects with nothing populated. *)
Lemma critique_not_approval_or_rejection :
  (exists u,
      critique_and_refine scenarios.revising_state
        (scenarios.chat "respond" (Returns None) (Raises "timeout"))
      = Returns u
      /\ ~ approval_or_rejection scenarios.revising_state u)
  /\ (exists u,
         critique_and_refine scenarios.revising_state
           (scenarios.chat "respond" (Returns None) (scenarios.rejects ""))
         = Returns u
         /\ ~ approval_or_rejection scenarios.revising_state u).
Proof.
  split; eexists; (split; [reflexivity|]).
  - intros [[_ [H|H]] | [H _]]; simpl in H; discriminate.
  - intros [[H _] | [_ (f & Hf & Ht)]]; simpl in *; [discriminate|].
    injection Hf as <-. discriminate.
Qed.

(** ** The graph the orchestrator builds *)

Section Graph.

Variable self : GraphOrchestrator.

Lemma graph_entry : entry_point (_build_graph self) = Some "triage".
Proof. reflexivity. Qed.

(** The stages registered in the graph, by name. *)
Lemma graph_nodes (name : string) (action : Node) :
  nodes (_build_graph self) !! name = Some action ->
  (name = "triage"
   /\ action = fun t state => triage_email state (llm self t))
  \/ (name = "extract_data"
      /\ action = fun t state => extract_data state (llm self t))
  \/ (name = "find_learning_opportunities"
      /\ action = fun t state => find_learning_opportunities state (llm self t))
  \/ (name = "select_intent"
      /\ action = fun t state =>
           select_intent_and_tool state (templates self) (llm self t) (tool_registry self))
  \/ (name = "rag"
      /\ action = fun t state =>
           retrieve_from_knowledge_base state (rag_chain self t))
  \/ (name = "execute_tool"
      /\ action = fun t state =>
           execute_tool state (settings_service self t) (tool_call self t)
             (tool_registry self))
  \/ (name = "generate_response"
      /\ action = fun t state =>
           generate_response state (settings_service self t) (templates self) (llm self t))
  \/ (name = "critique_and_refine"
      /\ action = fun t state => critique_and_refine state (llm self t)).
Proof.
  unfold _build_graph.
  cbv [nodes add_node add_edge add_conditional_edges set_entry_point new].
  intros H.
  repeat (apply lookup_insert_Some in H as [[<- <-] | [_ H]];
          [tauto|]).
  rewrite lookup_empty in H. discriminate.
Qed.

Lemma successor_triage (s : AgentState) :
  successor (_build_graph self) "triage" s
  = Some (if String.eqb (_route_after_triage s) "continue"
          then "extract_data" else END).
Proof.
  unfold successor.
  change (edges (_build_graph self) !! "triage") with (@None string).
  change (branches (_build_graph self) !! "triage")
    with (Some (_route_after_triage,
                list_to_map (M := gmap string string)
                  [("continue", "extract_data"); ("end", END)])).
  cbv beta iota. unfold _route_after_triage. cbv zeta.
  destruct (truthy (error_message s) || negb (truthy (triage_result s)));
    [reflexivity|].
  destruct (triage_result s) as [r|]; [|reflexivity].
  destruct (String.eqb (priority r) "high"); [reflexivity|].
  destruct (negb (should_respond r)); reflexivity.
Qed.

Lemma successor_extract_data (s : AgentState) :
  successor (_build_graph self) "extract_data" s
  = Some (if String.eqb (_route_after_extraction s) "learn"
          then "find_learning_opportunities" else END).
Proof.
  unfold successor.
  change (edges (_build_graph self) !! "extract_data") with (@None string).
  change (branches (_build_graph self) !! "extract_data")
    with (Some (_route_after_extraction,
                list_to_map (M := gmap string string)
                  [("learn", "find_learning_opportunities"); ("end", END)])).
  cbv beta iota. unfold _route_after_extraction.
  destruct (triage_result s) as [r|]; [|reflexivity].
  destruct (String.eqb (priority r) "high" && negb (should_respond r));
    reflexivity.
Qed.

Lemma successor_find_learning_opportunities (s : AgentState) :
  successor (_build_graph self) "find_learning_opportunities" s
  = Some "select_intent".
Proof. reflexivity. Qed.

Lemma successor_select_intent (s : AgentState) :
  successor (_build_graph self) "select_intent" s
  = Some (let key := _route_action self s in
          if String.eqb key "rag_and_respond" then "rag"
          else if String.eqb key "tool_and_respond" then "execute_tool"
          else if String.eqb key "respond" then "generate_response"
          else END).
Proof.
  unfold successor.
  change (edges (_build_graph self) !! "select_intent") with (@None string).
  change (branches (_build_graph self) !! "select_intent")
    with (Some (_route_action self,
                list_to_map (M := gmap string string)
                  [ ("rag_and_respond", "rag");
                    ("tool_and_respond", "execute_tool");
                    ("respond", "generate_response");
                    ("end", END) ])).
  cbv beta iota zeta. unfold _route_action. cbv zeta.
  destruct (truthy (error_message s) || negb (truthy (intent s))
            || negb (truthy (triage_result s))); [reflexivity|].
  destruct (intent s) as [i|]; [|reflexivity].
  destruct (triage_result s) as [r|]; [|reflexivity].
  destruct (hasattr (tool_registry self) (tool_name i)); [reflexivity|].
  destruct (bool_decide _); reflexivity.
Qed.

Lemma successor_rag (s : AgentState) :
  successor (_build_graph self) "rag" s = Some "generate_response".
Proof. reflexivity. Qed.

Lemma successor_execute_tool (s : AgentState) :
  successor (_build_graph self) "execute_tool" s = Some "generate_response".
Proof. reflexivity. Qed.

Lemma successor_generate_response (s : AgentState) :
  successor (_build_graph self) "generate_response" s
  = Some "critique_and_refine".
Proof. reflexivity. Qed.

Lemma successor_critique_and_refine (s : AgentState) :
  successor (_build_graph self) "critique_and_refine" s
  = Some (if String.eqb (_route_for_revision s) "revise"
          then "generate_response" else END).
Proof.
  unfold successor.
  change (edges (_build_graph self) !! "critique_and_refine")
    with (@None string).
  change (branches (_build_graph self) !! "critique_and_refine")
    with (Some (_route_for_revision,
                list_to_map (M := gmap string string)
                  [("revise", "generate_response"); ("end", END)])).
  cbv beta iota. unfold _route_for_revision. cbv zeta.
  destruct (default false (requires_review s)
            || (config.MAX_REVISIONS <=? default 0 (revision_count s)));
    reflexivity.
Qed.

End Graph.

(** ** The revision counter *)

Lemma extracted_data_stays (s u : AgentState) :
  extracted_data s <> None -> extracted_data (merge s u) <> None.
Proof. simpl. destruct (extracted_data u); [discriminate | auto]. Qed.

Lemma revision_of_merge (s u : AgentState) :
  revision_of (merge s u)
  = match revision_count u with
    | Some n => n
    | None => revision_of s
    end.
Proof. unfold revision_of. simpl. destruct (revision_count u); reflexivity. Qed.

(** Only the drafting stage mentions [revision_count]. *)
Lemma other_stages_leave_revision_count (self : GraphOrchestrator)
    (name : string) (action : Node) (t : nat) (s : AgentState) :
  nodes (_build_graph self) !! name = Some action ->
  name <> "generate_response" ->
  revision_count (update_of (action t s)) = None.
Proof.
  intros H Hne.
  destruct (graph_nodes self name action H)
    as [[-> ->]|[[-> ->]|[[-> ->]|[[-> ->]|[[-> ->]|[[-> ->]|[[-> ->]|[-> ->]]]]]]]];
    try contradiction; stage_cases.
Qed.

(** What the drafting stage does, by whether the drafting call
    succeeds. *)
Lemma generate_response_success (s : AgentState)
    (settings_service : SettingsCall) (templates : PromptTemplates)
    (llm : ChatModel) :
  draft_succeeds s settings_service templates llm ->
  exists c,
    generate_response s settings_service templates llm
    = Returns (with_draft_reply c
                 (with_revision_count (revision_of s + 1) empty)).
Proof.
  intros (d & settings & c & Hd & -> & Ht & Hc). exists c.
  unfold generate_response. rewrite Hd. cbn [mbind outcome_bind].
  fold (signature_of settings). rewrite Ht. cbn [mbind outcome_bind].
  fold (draft_prompt s d (signature_of settings)). rewrite Hc. reflexivity.
Qed.

Lemma generate_response_failure (s : AgentState)
    (settings_service : SettingsCall) (templates : PromptTemplates)
    (llm : ChatModel) :
  ~ draft_succeeds s settings_service templates llm ->
  (exists u,
      generate_response s settings_service templates llm = Returns u
      /\ only_error u)
  \/ (exists e,
        generate_response s settings_service templates llm = Raises e
        /\ draft_raises s settings_service templates e).
Proof.
  intros Hno. unfold generate_response.
  destruct (extracted_data s) as [d|] eqn:Hd.
  - destruct settings_service as [settings|e].
    + cbn [mbind outcome_bind]. fold (signature_of settings).
      destruct (generate_response_prompt templates (signature_of settings))
        as [[]|e] eqn:Ht.
      * cbn [mbind outcome_bind].
        fold (draft_prompt s d (signature_of settings)).
        destruct (invoke_message llm _) as [[c|]|e] eqn:Hc; simpl.
        -- exfalso. apply Hno. exists d, settings, c. auto.
        -- left. eexists; split; [reflexivity|].
           eexists; split; [|reflexivity]. reflexivity.
        -- left. eexists; split; [reflexivity|].
           eexists; split; [|reflexivity]. reflexivity.
      * right. exists e. split; [reflexivity|].
        split; [rewrite Hd; discriminate|]. right. exists settings. auto.
    + right. exists e. split; [reflexivity|].
      split; [rewrite Hd; discriminate|]. left. reflexivity.
  - left. eexists; split; [reflexivity|]. eexists; split; [|reflexivity].
    reflexivity.
Qed.

Lemma drafts_app (pre post : list (string * AgentState)) :
  drafts (pre ++ post) = (drafts pre + drafts post)%nat.
Proof. unfold drafts. rewrite filter_app, length_app. reflexivity. Qed.

Section CountingDrafts.

Variable self : GraphOrchestrator.

(** The drafting stage is set up every time, and the drafting model
    answers every call with a message. *)
Hypothesis set_up : drafting_set_up self.
Hypothesis drafting_answers :
  forall t p, exists c, invoke_message (llm self t) p = Returns (Some c).

(** One stage invocation: the counter moves by one at the drafting stage and
    not at all elsewhere, and past the action router the state holds the
    extracted data. *)
Lemma graph_step_counts (current : string) (s : AgentState) (t : nat)
    (action : Node) :
  (past_action_router current -> extracted_data s <> None) ->
  nodes (_build_graph self) !! current = Some action ->
  revision_of (merge s (update_of (action t s)))
  = revision_of s
    + (if String.eqb current "generate_response" then 1 else 0)
  /\ forall target,
      successor (_build_graph self) current (merge s (update_of (action t s)))
      = Some target ->
      String.eqb target END = false ->
      past_action_router target ->
      extracted_data (merge s (update_of (action t s))) <> None.
Proof.
  intros HI Hn. split.
  - destruct (String.eqb_spec current "generate_response") as [->|Hne].
    + change (nodes (_build_graph self) !! "generate_response")
        with (Some (fun t state =>
                      generate_response state (settings_service self t)
                        (templates self) (llm self t)))
        in Hn.
      injection Hn as <-.
      assert (Hd : extracted_data s <> None)
        by (apply HI; right; right; left; reflexivity).
      destruct (extracted_data s) as [d|] eqn:Hds; [|contradiction].
      destruct (generate_response_success s (settings_service self t)
                  (templates self) (llm self t))
        as [c' ->].
      { destruct (set_up t) as (settings & Hs & Ht).
        destruct (drafting_answers t
                    (draft_prompt s d (signature_of settings))) as [c Hc].
        exists d, settings, c. auto. }
      rewrite revision_of_merge. reflexivity.
    + rewrite revision_of_merge.
      rewrite (other_stages_leave_revision_count self current action t s Hn Hne).
      lia.
  - intros target Hs He Hp.
    destruct (extracted_data s) as [d|] eqn:Hd.
    { apply extracted_data_stays. rewrite Hd. discriminate. }
    unfold past_action_router in HI.
    destruct (graph_nodes self current action Hn)
      as [[-> ->]|[[-> ->]|[[-> ->]|[[-> ->]|[[-> ->]|[[-> ->]|[[-> ->]|[-> ->]]]]]]]];
      try (exfalso; apply HI; [tauto | reflexivity]).
    + rewrite successor_triage in Hs. injection Hs as <-.
      destruct (String.eqb _ "continue"); [|discriminate].
      destruct Hp as [Hp|[Hp|[Hp|Hp]]]; discriminate.
    + rewrite successor_extract_data in Hs. injection Hs as <-.
      destruct (String.eqb _ "learn"); [|discriminate].
      destruct Hp as [Hp|[Hp|[Hp|Hp]]]; discriminate.
    + rewrite successor_find_learning_opportunities in Hs. injection Hs as <-.
      destruct Hp as [Hp|[Hp|[Hp|Hp]]]; discriminate.
    + exfalso. rewrite successor_select_intent in Hs. injection Hs as <-.
      revert He. cbv zeta. unfold select_intent_and_tool. rewrite Hd.
      destruct (email_details s);
        (rewrite route_action_error; [discriminate | reflexivity]).
Qed.

(** Along every run, after any number of stage invocations the counter has
    grown by the number of drafting invocations among them. *)
Lemma revision_counts_drafts (limit : nat) (s0 : AgentState)
    (pre post : list (string * AgentState)) :
  trace (invoke self limit s0) = (pre ++ post)%list ->
  revision_of (state_after s0 pre) = revision_of s0 + Z.of_nat (drafts pre).
Proof.
  intros Htrace.
  pose (R := fun (t : nat) (node : string) (s s' : AgentState) =>
               revision_of s' = revision_of s
                 + (if String.eqb node "generate_response" then 1 else 0)).
  assert (Hsteps : steps R 0 s0 pre).
  { apply steps_app with (post := post). rewrite <- Htrace.
    unfold invoke, graph.invoke. rewrite graph_entry.
    apply run_steps
      with (I := fun current s =>
                   past_action_router current -> extracted_data s <> None).
    - intros current s t action HI Hn.
      destruct (graph_step_counts current s t action HI Hn) as [HR Hnext].
      split; [exact HR | exact Hnext].
    - intros [Hp|[Hp|[Hp|Hp]]]; discriminate. }
  clear Htrace. revert Hsteps. generalize 0%nat as t. revert s0.
  induction pre as [|[node s1] pre IH]; intros s0 t Hsteps.
  - unfold state_after, drafts. simpl. lia.
  - simpl in Hsteps. destruct Hsteps as [HR Hsteps].
    specialize (IH s1 (S t) Hsteps). unfold R in HR.
    change ((node, s1) :: pre) with ([(node, s1)] ++ pre)%list.
    rewrite drafts_app.
    assert (Hafter : state_after s0 ([(node, s1)] ++ pre)%list
                     = state_after s1 pre).
    { unfold state_after. simpl. destruct pre as [|e pre']; [reflexivity|].
      rewrite last_cons. destruct (last (e :: pre')) eqn:Hl; [reflexivity|].
      apply last_None in Hl. discriminate. }
    rewrite Hafter, IH, HR.
    unfold drafts at 2. simpl.
    destruct (String.eqb_spec node "generate_response") as [->|Hne].
    + rewrite filter_cons_True by reflexivity. simpl. lia.
    + rewrite filter_cons_False by (simpl; exact Hne). simpl. lia.
Qed.

End CountingDrafts.




(** ** Runs of the graph, stage by stage *)

Section Running.

Variable self : GraphOrchestrator.

Lemma node_triage :
  nodes (_build_graph self) !! "triage"
  = Some (fun t state => triage_email state (llm self t)).
Proof. reflexivity. Qed.

Lemma node_extract_data :
  nodes (_build_graph self) !! "extract_data"
  = Some (fun t state => extract_data state (llm self t)).
Proof. reflexivity. Qed.

Lemma node_find_learning_opportunities :
  nodes (_build_graph self) !! "find_learning_opportunities"
  = Some (fun t state => find_learning_opportunities state (llm self t)).
Proof. reflexivity. Qed.

Lemma node_select_intent :
  nodes (_build_graph self) !! "select_intent"
  = Some (fun t state =>
           select_intent_and_tool state (templates self) (llm self t) (tool_registry self)).
Proof. reflexivity. Qed.

Lemma node_rag :
  nodes (_build_graph self) !! "rag"
  = Some (fun t state => retrieve_from_knowledge_base state (rag_chain self t)).
Proof. reflexivity. Qed.

Lemma node_execute_tool :
  nodes (_build_graph self) !! "execute_tool"
  = Some (fun t state =>
           execute_tool state (settings_service self t) (tool_call self t)
             (tool_registry self)).
Proof. reflexivity. Qed.

Lemma node_generate_response :
  nodes (_build_graph self) !! "generate_response"
  = Some (fun t state =>
            generate_response state (settings_service self t) (templates self) (llm self t)).
Proof. reflexivity. Qed.

Lemma node_critique_and_refine :
  nodes (_build_graph self) !! "critique_and_refine"
  = Some (fun t state => critique_and_refine state (llm self t)).
Proof. reflexivity. Qed.

Lemma run_triage (limit t : nat) (s : AgentState) :
  run (_build_graph self) (S limit) t "triage" s
  = let s' := merge s (update_of (triage_email s (llm self t))) in
    if String.eqb (_route_after_triage s') "continue"
    then after "triage" s'
           (run (_build_graph self) limit (S t) "extract_data" s')
    else stop Finished s' [("triage", s')].
Proof.
  rewrite run_S.
  rewrite node_triage.
  cbv beta iota zeta. rewrite successor_triage.
  destruct (String.eqb (_route_after_triage _) "continue"); reflexivity.
Qed.

Lemma run_extract_data (limit t : nat) (s : AgentState) :
  run (_build_graph self) (S limit) t "extract_data" s
  = let s' := merge s (update_of (extract_data s (llm self t))) in
    if String.eqb (_route_after_extraction s') "learn"
    then after "extract_data" s'
           (run (_build_graph self) limit (S t)
              "find_learning_opportunities" s')
    else stop Finished s' [("extract_data", s')].
Proof.
  rewrite run_S.
  rewrite node_extract_data.
  cbv beta iota zeta. rewrite successor_extract_data.
  destruct (String.eqb (_route_after_extraction _) "learn"); reflexivity.
Qed.

Lemma run_find_learning_opportunities (limit t : nat) (s : AgentState) :
  run (_build_graph self) (S limit) t "find_learning_opportunities" s
  = let s' :=
      merge s (update_of (find_learning_opportunities s (llm self t))) in
    after "find_learning_opportunities" s'
      (run (_build_graph self) limit (S t) "select_intent" s').
Proof.
  rewrite run_S, node_find_learning_opportunities. cbv beta iota zeta.
  rewrite successor_find_learning_opportunities. reflexivity.
Qed.

Lemma run_select_intent (limit t : nat) (s : AgentState) :
  run (_build_graph self) (S limit) t "select_intent" s
  = let s' :=
      merge s (update_of (select_intent_and_tool s (templates self) (llm self t)
                            (tool_registry self))) in
    let key := _route_action self s' in
    if String.eqb key "rag_and_respond"
    then after "select_intent" s'
           (run (_build_graph self) limit (S t) "rag" s')
    else if String.eqb key "tool_and_respond"
    then after "select_intent" s'
           (run (_build_graph self) limit (S t) "execute_tool" s')
    else if String.eqb key "respond"
    then after "select_intent" s'
           (run (_build_graph self) limit (S t) "generate_response" s')
    else stop Finished s' [("select_intent", s')].
Proof.
  rewrite run_S.
  rewrite node_select_intent.
  cbv beta iota zeta. rewrite successor_select_intent. cbv zeta.
  destruct (String.eqb (_route_action self _) "rag_and_respond");
    [reflexivity|].
  destruct (String.eqb (_route_action self _) "tool_and_respond");
    [reflexivity|].
  destruct (String.eqb (_route_action self _) "respond"); reflexivity.
Qed.

Lemma run_rag (limit t : nat) (s : AgentState) :
  run (_build_graph self) (S limit) t "rag" s
  = let s' :=
      merge s (update_of (retrieve_from_knowledge_base s (rag_chain self t)))
    in
    after "rag" s'
      (run (_build_graph self) limit (S t) "generate_response" s').
Proof.
  rewrite run_S, node_rag. cbv beta iota zeta.
  rewrite successor_rag. reflexivity.
Qed.

Lemma run_execute_tool (limit t : nat) (s : AgentState) :
  run (_build_graph self) (S limit) t "execute_tool" s
  = let s' :=
      merge s (update_of (execute_tool s (settings_service self t) (tool_call self t)
                            (tool_registry self))) in
    after "execute_tool" s'
      (run (_build_graph self) limit (S t) "generate_response" s').
Proof.
  rewrite run_S, node_execute_tool. cbv beta iota zeta.
  rewrite successor_execute_tool. reflexivity.
Qed.

Lemma run_generate_response (limit t : nat) (s : AgentState) :
  run (_build_graph self) (S limit) t "generate_response" s
  = let s' :=
      merge s (update_of (generate_response s (settings_service self t)
                            (templates self) (llm self t))) in
    after "generate_response" s'
      (run (_build_graph self) limit (S t) "critique_and_refine" s').
Proof.
  rewrite run_S, node_generate_response. cbv beta iota zeta.
  rewrite successor_generate_response. reflexivity.
Qed.

Lemma run_critique_and_refine (limit t : nat) (s : AgentState) :
  run (_build_graph self) (S limit) t "critique_and_refine" s
  = let s' := merge s (update_of (critique_and_refine s (llm self t))) in
    if String.eqb (_route_for_revision s') "revise"
    then after "critique_and_refine" s'
           (run (_build_graph self) limit (S t) "generate_response" s')
    else stop Finished s' [("critique_and_refine", s')].
Proof.
  rewrite run_S.
  rewrite node_critique_and_refine.
  cbv beta iota zeta. rewrite successor_critique_and_refine.
  destruct (String.eqb (_route_for_revision _) "revise"); reflexivity.
Qed.

End Running.

(** ** The critique loop when every draft is rejected *)

Lemma status_prepend (pre : list (string * AgentState)) (r : Run) :
  status (prepend pre r) = status r.
Proof. reflexivity. Qed.

Lemma final_state_prepend (pre : list (string * AgentState)) (r : Run) :
  final_state (prepend pre r) = final_state r.
Proof. reflexivity. Qed.

Lemma trace_prepend (pre : list (string * AgentState)) (r : Run) :
  trace (prepend pre r) = (pre ++ trace r)%list.
Proof. reflexivity. Qed.

Lemma invocations_stages (node : string) (r : Run) :
  invocations node r
  = length (filter (fun n => n = node) (stages r)).
Proof.
  unfold invocations, stages.
  induction (trace r) as [|e tr IH]; [reflexivity|].
  rewrite map_cons.
  destruct (decide (e.1 = node)) as [He|He].
  - rewrite !filter_cons_True by exact He. simpl. rewrite IH. reflexivity.
  - rewrite !filter_cons_False by exact He. exact IH.
Qed.

Lemma status_after (current : string) (s : AgentState) (r : Run) :
  status (after current s r) = status r.
Proof. reflexivity. Qed.

Lemma invocations_after_same (node : string) (s : AgentState) (r : Run) :
  invocations node (after node s r) = S (invocations node r).
Proof.
  unfold invocations, after. cbn [trace].
  rewrite filter_cons_True by reflexivity. reflexivity.
Qed.

Lemma invocations_after_other (node current : string) (s : AgentState)
    (r : Run) :
  current <> node ->
  invocations node (after current s r) = invocations node r.
Proof.
  intros Hne. unfold invocations, after. cbn [trace].
  rewrite filter_cons_False by exact Hne. reflexivity.
Qed.

Lemma invocations_prepend (node : string) (pre : list (string * AgentState))
    (r : Run) :
  invocations node (prepend pre r)
  = (length (filter (fun e => e.1 = node) pre) + invocations node r)%nat.
Proof.
  unfold invocations, prepend. simpl trace.
  rewrite filter_app, length_app. reflexivity.
Qed.

Section Rejected.

Variable self : GraphOrchestrator.

(** The drafting stage is set up every time, every drafting call answers
    with a non-empty draft, and the critic rejects every draft. *)
Hypothesis set_up : drafting_set_up self.
Hypothesis drafting_answers :
  forall t p, exists c,
    invoke_message (llm self t) p = Returns (Some c) /\ truthy c = true.
Hypothesis critic_rejects :
  forall t p, exists c,
    invoke_Critique (llm self t) p = Returns (Some c)
    /\ is_acceptable c = false.

Lemma rejected_draft_state (s : AgentState) (t : nat) (d : ExtractedData) :
  extracted_data s = Some d ->
  exists c,
    truthy c = true
    /\ merge s (update_of (generate_response s (settings_service self t)
                             (templates self) (llm self t)))
       = merge s (with_draft_reply c
                    (with_revision_count (revision_of s + 1) empty)).
Proof.
  intros Hd.
  destruct (set_up t) as (settings & Hs & Ht).
  destruct (drafting_answers t (draft_prompt s d (signature_of settings)))
    as (c & Hc & Htc).
  destruct (generate_response_success s (settings_service self t)
              (templates self) (llm self t)) as [c' Hc'].
  { exists d, settings, c. auto. }
  assert (c' = c) as ->.
  { revert Hc'. unfold generate_response. rewrite Hd, Hs.
    cbn [mbind outcome_bind]. fold (signature_of settings). rewrite Ht.
    cbn [mbind outcome_bind].
    fold (draft_prompt s d (signature_of settings)). rewrite Hc.
    intros [= <-]. reflexivity. }
  rewrite Hc'. exists c. split; [exact Htc | reflexivity].
Qed.

Lemma rejected_critique_state (s : AgentState) (t : nat) (d : ExtractedData)
    (c : string) :
  extracted_data s = Some d -> draft_reply s = Some c -> truthy c = true ->
  exists fb,
    merge s (update_of (critique_and_refine s (llm self t)))
    = merge s (with_critique_feedback fb (with_requires_review false empty)).
Proof.
  intros Hd Hc Htc. unfold critique_and_refine. rewrite Hd, Hc.
  change (truthy (Some c)) with (truthy c). rewrite Htc. simpl negb.
  cbv iota.
  destruct (critic_rejects t
              [ ("summary", summary d);
                ("tool_output",
                 output_or_else (tool_output s) "No tool was used.");
                ("draft", default "" (Some c)) ])
    as (cr & Hcr & Hacc).
  rewrite Hcr. simpl. rewrite Hacc. exists (feedback cr). reflexivity.
Qed.

(** From the drafting stage with the count at 0: draft, rejection, revised
    draft, rejection, and the cap ends the run. *)
Lemma rejected_loop (s : AgentState) (t : nat) :
  extracted_data s <> None -> revision_of s = 0 ->
  status (run (_build_graph self) 4 t "generate_response" s) = Finished
  /\ stages (run (_build_graph self) 4 t "generate_response" s)
     = [ "generate_response"; "critique_and_refine";
         "generate_response"; "critique_and_refine" ]
  /\ requires_review
       (final_state (run (_build_graph self) 4 t "generate_response" s))
     = Some false
  /\ revision_count
       (final_state (run (_build_graph self) 4 t "generate_response" s))
     = Some 2
  /\ critique_rejected
       (trace (run (_build_graph self) 4 t "generate_response" s)).
Proof.
  intros Hd Hrev.
  destruct (extracted_data s) as [d|] eqn:Hds; [clear Hd | contradiction].
  rewrite run_generate_response. cbv zeta.
  destruct (rejected_draft_state s t d Hds) as (c1 & Hc1 & ->).
  rewrite Hrev.
  set (s1 := merge s _).
  assert (Hd1 : extracted_data s1 = Some d) by (subst s1; simpl; exact Hds).
  assert (Hr1 : draft_reply s1 = Some c1) by reflexivity.
  assert (Hn1 : revision_count s1 = Some 1) by reflexivity.
  clearbody s1.
  rewrite run_critique_and_refine. cbv zeta.
  destruct (rejected_critique_state s1 (S t) d c1 Hd1 Hr1 Hc1) as (fb1 & ->).
  set (s2 := merge s1 _).
  assert (Hd2 : extracted_data s2 = Some d) by (subst s2; simpl; exact Hd1).
  assert (Hn2 : revision_count s2 = Some 1) by (subst s2; simpl; exact Hn1).
  assert (Hq2 : requires_review s2 = Some false) by reflexivity.
  clearbody s2.
  assert (Hroute2 : _route_for_revision s2 = "revise").
  { unfold _route_for_revision. rewrite Hn2, Hq2. reflexivity. }
  rewrite Hroute2. simpl String.eqb. cbv iota.
  rewrite run_generate_response. cbv zeta.
  destruct (rejected_draft_state s2 (S (S t)) d Hd2) as (c2 & Hc2 & ->).
  unfold revision_of. rewrite Hn2. simpl default.
  set (s3 := merge s2 _).
  assert (Hd3 : extracted_data s3 = Some d) by (subst s3; simpl; exact Hd2).
  assert (Hr3 : draft_reply s3 = Some c2) by reflexivity.
  assert (Hn3 : revision_count s3 = Some 2) by reflexivity.
  clearbody s3.
  rewrite run_critique_and_refine. cbv zeta.
  destruct (rejected_critique_state s3 (S (S (S t))) d c2 Hd3 Hr3 Hc2)
    as (fb2 & ->).
  set (s4 := merge s3 _).
  assert (Hn4 : revision_count s4 = Some 2) by (subst s4; simpl; exact Hn3).
  assert (Hq4 : requires_review s4 = Some false) by reflexivity.
  clearbody s4.
  assert (Hroute4 : _route_for_revision s4 = "end").
  { unfold _route_for_revision. rewrite Hn4, Hq4. reflexivity. }
  rewrite Hroute4. simpl String.eqb. cbv iota.
  split; [reflexivity|]. split; [reflexivity|].
  split; [exact Hq4|]. split; [exact Hn4|].
  unfold critique_rejected, after, stop. simpl trace.
  repeat constructor; simpl; intros; first [assumption | discriminate].
Qed.

End Rejected.

(** ** Reaching the drafting stage *)

Lemma revision_count_untouched (s u : AgentState) :
  revision_count u = None -> revision_count (merge s u) = revision_count s.
Proof. intros H. simpl. rewrite H. reflexivity. Qed.

Section Reaching.

Variable self : GraphOrchestrator.

(** Without the extracted data, intent selection fails and the action router
    ends the run. *)
Lemma action_router_needs_extraction (s : AgentState) (t : nat) :
  extracted_data s = None ->
  _route_action self
    (merge s (update_of (select_intent_and_tool s (templates self) (llm self t)
                           (tool_registry self))))
  = "end".
Proof.
  intros Hd. unfold select_intent_and_tool. rewrite Hd.
  destruct (email_details s); apply route_action_error; reflexivity.
Qed.

(** A run that reaches the drafting stage gets there in four or five stage
    invocations, none of them a draft, with the extracted data in the state
    and the revision count as it was initially. *)
Lemma reach_generate_response (limit : nat) (s0 : AgentState) :
  "generate_response" ∈ stages (invoke self limit s0) ->
  exists pre t s,
    (length pre <= 5)%nat
    /\ drafts pre = 0%nat
    /\ critique_rejected pre
    /\ (forall limit',
           invoke self (length pre + limit') s0
           = prepend pre
               (run (_build_graph self) limit' t "generate_response" s))
    /\ extracted_data s <> None
    /\ revision_count s = revision_count s0.
Proof.
  unfold invoke, graph.invoke. rewrite graph_entry. intros Hreach.
  destruct limit as [|l1]; [stops_short Hreach|].
  rewrite run_triage in Hreach. cbv zeta in Hreach.
  remember (merge s0 (update_of (triage_email s0 (llm self 0)))) as s1 eqn:E1.
  destruct (String.eqb (_route_after_triage s1) "continue") eqn:Hr1;
    [|stops_short Hreach].
  passes Hreach.
  destruct l1 as [|l2]; [stops_short Hreach|].
  rewrite run_extract_data in Hreach. cbv zeta in Hreach.
  remember (merge s1 (update_of (extract_data s1 (llm self 1)))) as s2 eqn:E2.
  destruct (String.eqb (_route_after_extraction s2) "learn") eqn:Hr2;
    [|stops_short Hreach].
  passes Hreach.
  destruct l2 as [|l3]; [stops_short Hreach|].
  rewrite run_find_learning_opportunities in Hreach. cbv zeta in Hreach.
  remember (merge s2 (update_of (find_learning_opportunities s2 (llm self 2))))
    as s3 eqn:E3.
  passes Hreach.
  destruct l3 as [|l4]; [stops_short Hreach|].
  rewrite run_select_intent in Hreach. cbv zeta in Hreach.
  remember (merge s3 (update_of (select_intent_and_tool s3 (templates self) (llm self 3)
                                   (tool_registry self)))) as s4 eqn:E4.
  assert (Hn1 : revision_count s1 = revision_count s0).
  { subst s1. apply revision_count_untouched.
    apply (other_stages_leave_revision_count self "triage" _ 0 s0
             (node_triage self)). discriminate. }
  assert (Hn2 : revision_count s2 = revision_count s0).
  { rewrite <- Hn1. subst s2. apply revision_count_untouched.
    apply (other_stages_leave_revision_count self "extract_data" _ 1 s1
             (node_extract_data self)). discriminate. }
  assert (Hn3 : revision_count s3 = revision_count s0).
  { rewrite <- Hn2. subst s3. apply revision_count_untouched.
    apply (other_stages_leave_revision_count self
             "find_learning_opportunities" _ 2 s2
             (node_find_learning_opportunities self)). discriminate. }
  assert (Hn4 : revision_count s4 = revision_count s0).
  { rewrite <- Hn3. subst s4. apply revision_count_untouched.
    apply (other_stages_leave_revision_count self "select_intent" _ 3 s3
             (node_select_intent self)). discriminate. }
  assert (Hd4 : _route_action self s4 <> "end" -> extracted_data s4 <> None).
  { intros Hne. destruct (extracted_data s3) eqn:Hd3.
    - subst s4. apply extracted_data_stays. rewrite Hd3. discriminate.
    - exfalso. apply Hne. subst s4.
      apply action_router_needs_extraction. exact Hd3. }
  assert (Hprefix : forall limit',
             run (_build_graph self) (S (S (S (S limit')))) 0 "triage" s0
             = prepend [ ("triage", s1); ("extract_data", s2);
                         ("find_learning_opportunities", s3) ]
                 (run (_build_graph self) (S limit') 3 "select_intent" s3)).
  { intros limit'.
    rewrite run_triage. cbv zeta. rewrite <- E1, Hr1.
    rewrite run_extract_data. cbv zeta. rewrite <- E2, Hr2.
    rewrite run_find_learning_opportunities. cbv zeta. rewrite <- E3.
    reflexivity. }
  destruct (String.eqb (_route_action self s4) "rag_and_respond") eqn:Hk1.
  { exists [ ("triage", s1); ("extract_data", s2);
             ("find_learning_opportunities", s3); ("select_intent", s4);
             ("rag",
              merge s4 (update_of (retrieve_from_knowledge_base s4
                                     (rag_chain self 4)))) ],
      5%nat,
      (merge s4 (update_of (retrieve_from_knowledge_base s4
                              (rag_chain self 4)))).
    split; [simpl; lia|]. split; [reflexivity|].
    split; [repeat constructor; simpl; discriminate|]. split; [|split].
    - intros limit'.
      change (length _ + limit')%nat with (S (S (S (S (S limit'))))).
      rewrite Hprefix, run_select_intent. cbv zeta. rewrite <- E4, Hk1.
      rewrite run_rag. reflexivity.
    - apply extracted_data_stays. apply Hd4.
      apply String.eqb_eq in Hk1. rewrite Hk1. discriminate.
    - rewrite <- Hn4. apply revision_count_untouched.
      apply (other_stages_leave_revision_count self "rag" _ 4 s4
               (node_rag self)). discriminate. }
  destruct (String.eqb (_route_action self s4) "tool_and_respond") eqn:Hk2.
  { exists [ ("triage", s1); ("extract_data", s2);
             ("find_learning_opportunities", s3); ("select_intent", s4);
             ("execute_tool",
              merge s4 (update_of (execute_tool s4 (settings_service self 4)
                                     (tool_call self 4)
                                     (tool_registry self)))) ],
      5%nat,
      (merge s4 (update_of (execute_tool s4 (settings_service self 4)
                              (tool_call self 4) (tool_registry self)))).
    split; [simpl; lia|]. split; [reflexivity|].
    split; [repeat constructor; simpl; discriminate|]. split; [|split].
    - intros limit'.
      change (length _ + limit')%nat with (S (S (S (S (S limit'))))).
      rewrite Hprefix, run_select_intent. cbv zeta. rewrite <- E4, Hk1, Hk2.
      rewrite run_execute_tool. reflexivity.
    - apply extracted_data_stays. apply Hd4.
      apply String.eqb_eq in Hk2. rewrite Hk2. discriminate.
    - rewrite <- Hn4. apply revision_count_untouched.
      apply (other_stages_leave_revision_count self "execute_tool" _ 4 s4
               (node_execute_tool self)). discriminate. }
  destruct (String.eqb (_route_action self s4) "respond") eqn:Hk3;
    [|stops_short Hreach].
  exists [ ("triage", s1); ("extract_data", s2);
           ("find_learning_opportunities", s3); ("select_intent", s4) ],
    4%nat, s4.
  split; [simpl; lia|]. split; [reflexivity|].
  split; [repeat constructor; simpl; discriminate|]. split; [|split].
  - intros limit'.
    change (length _ + limit')%nat with (S (S (S (S limit')))).
    rewrite Hprefix, run_select_intent. cbv zeta.
    rewrite <- E4, Hk1, Hk2, Hk3. reflexivity.
  - apply Hd4. apply String.eqb_eq in Hk3. rewrite Hk3. discriminate.
  - exact Hn4.
Qed.

End Reaching.




(** ** The critique loop when the drafting model breaks *)

Section Stuck.

Import scenarios.

Lemma stuck_draft (t : nat) :
  (5 <= t)%nat ->
  merge stuck_state
    (update_of (generate_response stuck_state (settings_service draft_breaks t)
                  (templates draft_breaks) (llm draft_breaks t)))
  = stuck_state.
Proof.
  intros Ht. unfold draft_breaks, orchestrator_with. cbn [llm].
  replace (t <=? 4)%nat with false by (symmetry; apply Nat.leb_gt; lia).
  vm_compute. reflexivity.
Qed.

Lemma stuck_critique (t : nat) :
  merge stuck_state
    (update_of (critique_and_refine stuck_state (llm draft_breaks t)))
  = stuck_state.
Proof. vm_compute. reflexivity. Qed.

Lemma stuck_route : _route_for_revision stuck_state = "revise".
Proof. vm_compute. reflexivity. Qed.

(** From the stuck state the loop never leaves: whatever the budget, the run
    uses it up, drafting at every other step. *)
Lemma stuck_loop (n t : nat) :
  (5 <= t)%nat ->
  status (run (_build_graph draft_breaks) n t "generate_response" stuck_state)
  = LimitReached
  /\ status (run (_build_graph draft_breaks) n t "critique_and_refine"
               stuck_state)
     = LimitReached
  /\ invocations "generate_response"
       (run (_build_graph draft_breaks) n t "generate_response" stuck_state)
     = Nat.div2 (S n)
  /\ invocations "generate_response"
       (run (_build_graph draft_breaks) n t "critique_and_refine" stuck_state)
     = Nat.div2 n.
Proof.
  revert t. induction n as [|n IH]; intros t Ht.
  - repeat split; reflexivity.
  - destruct (IH (S t) ltac:(lia)) as (Hg & Hc & Hng & Hnc).
    split; [|split; [|split]].
    + rewrite run_generate_response. cbv zeta. rewrite (stuck_draft t Ht).
      rewrite status_after. exact Hc.
    + rewrite run_critique_and_refine. cbv zeta.
      rewrite stuck_critique, stuck_route.
      change (String.eqb "revise" "revise") with true. cbv iota.
      rewrite status_after. exact Hg.
    + rewrite run_generate_response. cbv zeta. rewrite (stuck_draft t Ht).
      rewrite invocations_after_same, Hnc. reflexivity.
    + rewrite run_critique_and_refine. cbv zeta.
      rewrite stuck_critique, stuck_route.
      change (String.eqb "revise" "revise") with true. cbv iota.
      rewrite invocations_after_other by discriminate. exact Hng.
Qed.

End Stuck.

(** The first seven stage invocations of the run in which the drafting
    model breaks after its first answer: two of them are drafts, and they
    lead into the stuck state at the critique stage. *)
Lemma stuck_prefix (n : nat) :
  status (invoke scenarios.draft_breaks (7 + n) scenarios.initial_state)
  = status (run (_build_graph scenarios.draft_breaks) n 7
              "critique_and_refine" scenarios.stuck_state)
  /\ invocations "generate_response"
       (invoke scenarios.draft_breaks (7 + n) scenarios.initial_state)
     = S (S (invocations "generate_response"
               (run (_build_graph scenarios.draft_breaks) n 7
                  "critique_and_refine" scenarios.stuck_state))).
Proof.
  unfold invoke, graph.invoke. rewrite graph_entry.
  change (7 + n)%nat with (S (S (S (S (S (S (S n))))))).
  rewrite run_triage. cbv zeta. settle_route.
  rewrite run_extract_data. cbv zeta. settle_route.
  rewrite run_find_learning_opportunities. cbv zeta.
  rewrite run_select_intent. cbv zeta. settle_route.
  rewrite run_generate_response. cbv zeta.
  rewrite run_critique_and_refine. cbv zeta. settle_route.
  rewrite run_generate_response. cbv zeta.
  match goal with
  | |- context [run _ n 7 "critique_and_refine" ?st] =>
      replace st with scenarios.stuck_state by (vm_compute; reflexivity)
  end.
  split.
  - rewrite !status_after. reflexivity.
  - repeat first [ rewrite invocations_after_same
                 | rewrite invocations_after_other by discriminate ].
    reflexivity.
Qed.

(** C1 at its failing input: the first draft succeeds, every later drafting
    call raises, and the critic keeps rejecting the draft that is left.  No
    budget of stage invocations is enough for the run to reach the terminal
    marker, and a budget of [4 + 2 k] invocations sees the drafting stage
    invoked [k] times: 11 times within 25 invocations, against
    [MAX_REVISIONS + 1 = 3]. *)
Theorem failed_drafts_loop_without_bound :
  (forall limit,
      status (invoke scenarios.draft_breaks limit scenarios.initial_state)
      = LimitReached)
  /\ (forall k,
         invocations "generate_response"
           (invoke scenarios.draft_breaks (4 + 2 * k) scenarios.initial_state)
         = k)
  /\ config.MAX_REVISIONS + 1
     < Z.of_nat
         (invocations "generate_response"
            (invoke scenarios.draft_breaks 25 scenarios.initial_state)).
Proof.
  split; [|split].
  - intros limit.
    do 7 (destruct limit as [|limit]; [vm_compute; reflexivity|]).
    change (S (S (S (S (S (S (S limit))))))) with (7 + limit)%nat.
    rewrite (proj1 (stuck_prefix limit)).
    apply (stuck_loop limit 7). lia.
  - intros k.
    destruct k as [|[|k]]; [vm_compute; reflexivity..|].
    replace (4 + 2 * S (S k))%nat with (7 + S (2 * k))%nat by lia.
    rewrite (proj2 (stuck_prefix (S (2 * k)))).
    destruct (stuck_loop (S (2 * k)) 7 ltac:(lia)) as (_ & _ & _ & ->).
    rewrite Nat.div2_succ_double. reflexivity.
  - vm_compute. reflexivity.
Qed.

(** ** Routing on a failed state *)

(** C2 at its failing inputs.  The after-triage and the action router do
    answer "end" on every state whose error is set; the after-extraction
    router answers "learn" on the state left by a failed extraction, and the
    revision router answers "revise" on the state left by a failed drafting
    call, although the error is set in both. *)
Theorem routers_that_ignore_the_error :
  (forall self s,
      error_set s ->
      _route_after_triage s = "end" /\ _route_action self s = "end")
  /\ error_set scenarios.failed_extraction
  /\ _route_after_extraction scenarios.failed_extraction = "learn"
  /\ error_set scenarios.failed_draft
  /\ _route_for_revision scenarios.failed_draft = "revise".
Proof.
  split; [|repeat split].
  intros self s Hs. split.
  - apply route_after_triage_error. exact Hs.
  - apply route_action_error. exact Hs.
Qed.

(** ** Routing to a tool *)

(** C4 at its failing input.  Every tool the registry enumerates is an
    attribute of it, but so are the names the class itself defines: for an
    intent that names the method "get_all_tools", on a state with no error,
    a triage category outside the retrieval categories and whatever the
    collaborators are, the action router answers "tool_and_respond" although
    no enumerated tool has that name. *)
Theorem route_action_takes_a_method_for_a_tool
    (self : GraphOrchestrator) (object_attrs : gmap string Attribute) :
  Forall (fun tool => hasattr (scenarios.registry object_attrs) (name tool)
                      = true)
    (get_all_tools (scenarios.registry object_attrs))
  /\ error_message scenarios.method_named = None
  /\ (tool_name <$> intent scenarios.method_named) = Some "get_all_tools"
  /\ ("get_all_tools"
       ∉ map name (get_all_tools (scenarios.registry object_attrs)))
  /\ (category <$> triage_result scenarios.method_named) = Some "billing"
  /\ _route_action
       (scenarios.with_registry (scenarios.registry object_attrs) self)
       scenarios.method_named
     = "tool_and_respond".
Proof.
  split; [|split; [|split; [|split; [|split]]]].
  - vm_compute. repeat constructor.
  - reflexivity.
  - reflexivity.
  - vm_compute. intros H.
    repeat (apply elem_of_cons in H as [H|H]; [discriminate|]).
    apply elem_of_nil in H. exact H.
  - reflexivity.
  - vm_compute. reflexivity.
Qed.

(** ** Merging *)

(** C6: merging a partial update overwrites exactly the fields the update
    mentions and keeps every other field; a later merge wins over an earlier
    one.  In particular, merging an update that holds only [a] into a state
    that holds [b] gives a state with both, and merging a second update that
    holds only [a] afterwards replaces [a] and leaves [b]. *)
Theorem merge_is_fieldwise_overwrite :
  (forall s u k,
      get k (merge s u)
      = match get k u with
        | Some v => Some v
        | None => get k s
        end)
  /\ (forall s u1 u2 k v,
         get k u2 = Some v -> get k (merge (merge s u1) u2) = Some v)
  /\ (forall a b s u1 u2 v1 v2 w,
         get b s = Some w ->
         get a u1 = Some v1 -> get b u1 = None ->
         get a u2 = Some v2 -> get b u2 = None ->
         get a (merge s u1) = Some v1
         /\ get b (merge s u1) = Some w
         /\ get a (merge (merge s u1) u2) = Some v2
         /\ get b (merge (merge s u1) u2) = Some w).
Proof.
  assert (H1 : forall s u k,
             get k (merge s u)
             = match get k u with
               | Some v => Some v
               | None => get k s
               end).
  { intros s u k. rewrite get_merge. reflexivity. }
  split; [exact H1|]. split.
  - intros s u1 u2 k v Hv. rewrite H1, Hv. reflexivity.
  - intros a b s u1 u2 v1 v2 w Hb Ha1 Hb1 Ha2 Hb2.
    rewrite !H1, Ha1, Hb1, Ha2, Hb2. auto.
Qed.

Lemma merge_is_fieldwise_overwrite_witness :
  get k_revision_count
    (merge (with_rag_context "2" empty) (with_revision_count 1 empty))
  = Some (VInt 1)
  /\ get k_rag_context
       (merge (with_rag_context "2" empty) (with_revision_count 1 empty))
     = Some (VStr "2")
  /\ get k_revision_count
       (merge (merge (with_rag_context "2" empty)
                 (with_revision_count 1 empty))
          (with_revision_count 2 empty))
     = Some (VInt 2)
  /\ get k_rag_context
       (merge (merge (with_rag_context "2" empty)
                 (with_revision_count 1 empty))
          (with_revision_count 2 empty))
     = Some (VStr "2").
Proof.
  apply (proj2 (proj2 merge_is_fieldwise_overwrite)
           k_revision_count k_rag_context); reflexivity.
Defined.

(** * Further properties of the graph *)

(** ** The opening of a run *)

Lemma stages_of_after (current : string) (s : AgentState) (r : Run) :
  stages (after current s r) = current :: stages r.
Proof. reflexivity. Qed.

Lemma stages_of_prepend (pre : list (string * AgentState)) (r : Run) :
  stages (prepend pre r) = (map fst pre ++ stages r)%list.
Proof. unfold stages. rewrite trace_prepend. apply map_app. Qed.

Section Opening.

Variable self : GraphOrchestrator.

(** A run with a budget of at least four: it ends after triage, or after
    extraction, or comes to the action router with the states the first
    three stages left. *)
Lemma run_to_action_router (s0 : AgentState) (l : nat) :
  invoke self (S (S (S (S l)))) s0
  = if negb (String.eqb (_route_after_triage (after_triage self s0))
               "continue")
    then stop Finished (after_triage self s0)
           [("triage", after_triage self s0)]
    else if negb (String.eqb
                    (_route_after_extraction (after_extraction self s0))
                    "learn")
    then prepend [("triage", after_triage self s0)]
           (stop Finished (after_extraction self s0)
              [("extract_data", after_extraction self s0)])
    else prepend [ ("triage", after_triage self s0);
                   ("extract_data", after_extraction self s0);
                   ("find_learning_opportunities", after_learning self s0) ]
           (run (_build_graph self) (S l) 3 "select_intent"
              (after_learning self s0)).
Proof.
  unfold invoke, graph.invoke. rewrite graph_entry.
  rewrite run_triage. cbv zeta. fold (after_triage self s0).
  destruct (String.eqb (_route_after_triage (after_triage self s0))
              "continue"); [|reflexivity].
  rewrite run_extract_data. cbv zeta. fold (after_extraction self s0).
  destruct (String.eqb (_route_after_extraction (after_extraction self s0))
              "learn"); [|reflexivity].
  rewrite run_find_learning_opportunities. cbv zeta.
  fold (after_learning self s0). reflexivity.
Qed.

(** With a smaller budget the run is cut short inside the opening. *)
Lemma run_cut_short (s0 : AgentState) (limit : nat) :
  (limit < 4)%nat ->
  exists n, stages (invoke self limit s0) = take n opening.
Proof.
  intros Hlt. unfold invoke, graph.invoke. rewrite graph_entry.
  destruct limit as [|l1]; [exists 0%nat; reflexivity|].
  rewrite run_triage. cbv zeta.
  destruct (String.eqb (_route_after_triage _) "continue");
    [|exists 1%nat; reflexivity].
  rewrite stages_of_after.
  destruct l1 as [|l2]; [exists 1%nat; reflexivity|].
  rewrite run_extract_data. cbv zeta.
  destruct (String.eqb (_route_after_extraction _) "learn");
    [|exists 2%nat; reflexivity].
  rewrite stages_of_after.
  destruct l2 as [|l3]; [exists 2%nat; reflexivity|].
  rewrite run_find_learning_opportunities. cbv zeta.
  rewrite stages_of_after.
  destruct l3 as [|l4]; [exists 3%nat; reflexivity | lia].
Qed.

(** Drafting and critique alternate, however the loop is entered and
    however long it runs. *)
Lemma loop_alternates (n t : nat) (s : AgentState) :
  alternating true
    (stages (run (_build_graph self) n t "generate_response" s)) = true
  /\ alternating false
       (stages (run (_build_graph self) n t "critique_and_refine" s)) = true.
Proof.
  revert t s. induction n as [|n IH]; intros t s; [split; reflexivity|].
  split.
  - rewrite run_generate_response. cbv zeta. rewrite stages_of_after.
    cbn [alternating]. rewrite String.eqb_refl. apply IH.
  - rewrite run_critique_and_refine. cbv zeta.
    destruct (String.eqb (_route_for_revision _) "revise");
      [|reflexivity].
    rewrite stages_of_after. cbn [alternating]. rewrite String.eqb_refl.
    apply IH.
Qed.

End Opening.

(** ** The order of the stages in a run *)

Lemma alternating_members (b : bool) (l : list string) (x : string) :
  alternating b l = true -> x ∈ l ->
  x = "generate_response" \/ x = "critique_and_refine".
Proof.
  revert b. induction l as [|y l IH]; intros b Halt Hx.
  - apply elem_of_nil in Hx. contradiction.
  - cbn [alternating] in Halt. apply andb_true_iff in Halt as [Hy Hl].
    apply elem_of_cons in Hx as [->|Hx]; [|exact (IH _ Hl Hx)].
    apply String.eqb_eq in Hy. destruct b; [left | right]; exact Hy.
Qed.

Lemma opening_members (n : nat) (x : string) :
  x ∈ take n opening ->
  x = "triage" \/ x = "extract_data" \/ x = "find_learning_opportunities"
  \/ x = "select_intent".
Proof.
  intros Hx. apply elem_of_take in Hx as (i & Hx & _).
  unfold opening in Hx.
  do 4 (destruct i as [|i]; [injection Hx as <-; tauto|]).
  discriminate.
Qed.

(** The stages of a run are the opening cut short, or the whole opening,
    then at most one of retrieval and tool execution, then drafting and
    critique in alternation. *)
Lemma run_stages_shape (self : GraphOrchestrator) (limit : nat)
    (s0 : AgentState) :
  (exists n, stages (invoke self limit s0) = take n opening)
  \/ (exists mid loop,
         (mid = [] \/ mid = ["rag"] \/ mid = ["execute_tool"])
         /\ alternating true loop = true
         /\ stages (invoke self limit s0) = (opening ++ mid ++ loop)%list).
Proof.
  destruct (lt_dec limit 4) as [Hlt|Hge];
    [left; apply run_cut_short; exact Hlt|].
  do 4 (destruct limit as [|limit]; [lia|]). clear Hge.
  rewrite run_to_action_router.
  destruct (negb _); [left; exists 1%nat; reflexivity|].
  destruct (negb _); [left; exists 2%nat; reflexivity|].
  rewrite stages_of_prepend. cbn [map fst].
  rewrite run_select_intent. cbv zeta. fold (after_intent self s0).
  destruct (String.eqb (_route_action self _) "rag_and_respond").
  { rewrite stages_of_after. right.
    destruct limit as [|limit].
    - exists [], []. split; [left; reflexivity | split; reflexivity].
    - rewrite run_rag. cbv zeta. rewrite stages_of_after.
      eexists ["rag"], _. split; [right; left; reflexivity|].
      split; [apply loop_alternates | reflexivity]. }
  destruct (String.eqb (_route_action self _) "tool_and_respond").
  { rewrite stages_of_after. right.
    destruct limit as [|limit].
    - exists [], []. split; [left; reflexivity | split; reflexivity].
    - rewrite run_execute_tool. cbv zeta. rewrite stages_of_after.
      eexists ["execute_tool"], _. split; [right; right; reflexivity|].
      split; [apply loop_alternates | reflexivity]. }
  destruct (String.eqb (_route_action self _) "respond").
  - rewrite stages_of_after. right.
    eexists [], _. split; [left; reflexivity|].
    split; [apply loop_alternates | reflexivity].
  - right. exists [], []. split; [left; reflexivity | split; reflexivity].
Qed.

Lemma filter_absent (x : string) (l : list string) :
  x ∉ l -> filter (fun n => n = x) l = [].
Proof.
  induction l as [|y l IH]; intros Hx; [reflexivity|].
  apply not_elem_of_cons in Hx as [Hne Hx].
  rewrite filter_cons_False by (intros ->; contradiction).
  exact (IH Hx).
Qed.

Lemma count_in_NoDup (x : string) (l : list string) :
  NoDup l -> (length (filter (fun n => n = x) l) <= 1)%nat.
Proof.
  induction 1 as [|y l Hy Hl IH]; [simpl; lia|].
  destruct (decide (y = x)) as [->|Hne].
  - rewrite filter_cons_True by reflexivity.
    rewrite (filter_absent x l Hy). simpl. lia.
  - rewrite filter_cons_False by exact Hne. exact IH.
Qed.

Lemma opening_NoDup (mid : list string) :
  mid = [] \/ mid = ["rag"] \/ mid = ["execute_tool"] ->
  NoDup (opening ++ mid)%list.
Proof.
  intros [-> | [-> | ->]]; unfold opening; cbn [app];
    repeat (apply NoDup_cons; split;
            [intros H;
             repeat (apply elem_of_cons in H as [H|H]; [discriminate|]);
             apply elem_of_nil in H; exact H|]);
    apply NoDup_nil; exact I.
Qed.

(** The stages of every run, whatever the collaborators do and whatever the
    budget, come in the order of the graph: the opening (triage, extraction,
    fact discovery, intent selection), possibly cut short, then at most one
    of retrieval and tool execution, then drafting and critique in
    alternation.  In particular no run invokes both retrieval and tool
    execution, and no run invokes a stage of the opening, retrieval or tool
    execution twice. *)
Theorem run_follows_the_graph (self : GraphOrchestrator) (limit : nat)
    (s0 : AgentState) :
  ((exists n, stages (invoke self limit s0) = take n opening)
   \/ (exists mid loop,
          (mid = [] \/ mid = ["rag"] \/ mid = ["execute_tool"])
          /\ alternating true loop = true
          /\ stages (invoke self limit s0) = (opening ++ mid ++ loop)%list))
  /\ ~ ("rag" ∈ stages (invoke self limit s0)
        /\ "execute_tool" ∈ stages (invoke self limit s0))
  /\ Forall (fun node => (invocations node (invoke self limit s0) <= 1)%nat)
       (opening ++ ["rag"; "execute_tool"])%list.
Proof.
  pose proof (run_stages_shape self limit s0) as Hshape.
  split; [exact Hshape|]. split.
  - intros [Hrag Htool].
    destruct Hshape as [[n Hn] | (mid & loop & Hmid & Halt & Hl)].
    + rewrite Hn in Hrag. apply opening_members in Hrag.
      destruct Hrag as [H|[H|[H|H]]]; discriminate.
    + rewrite Hl in Hrag, Htool.
      assert (Hin : forall x, x = "rag" \/ x = "execute_tool" ->
                              x ∈ (opening ++ mid ++ loop)%list -> mid = [x]).
      { intros x Hx Hin.
        apply elem_of_app in Hin as [Hin|Hin].
        - apply (opening_members 4) in Hin.
          destruct Hx as [-> | ->];
            destruct Hin as [H|[H|[H|H]]]; discriminate.
        - apply elem_of_app in Hin as [Hin|Hin].
          + destruct Hmid as [-> | [-> | ->]].
            * apply elem_of_nil in Hin. contradiction.
            * apply list_elem_of_singleton in Hin. subst. reflexivity.
            * apply list_elem_of_singleton in Hin. subst. reflexivity.
          + apply (alternating_members _ _ _ Halt) in Hin.
            destruct Hx as [-> | ->]; destruct Hin; discriminate. }
      pose proof (Hin "rag" (or_introl eq_refl) Hrag) as H1.
      pose proof (Hin "execute_tool" (or_intror eq_refl) Htool) as H2.
      rewrite H1 in H2. discriminate.
  - apply Forall_forall. intros node Hnode. rewrite invocations_stages.
    destruct Hshape as [[n Hn] | (mid & loop & Hmid & Halt & Hl)].
    + rewrite Hn. apply count_in_NoDup.
      apply (sublist_NoDup _ opening); [|apply sublist_take].
      rewrite <- (app_nil_r opening). apply opening_NoDup. tauto.
    + rewrite Hl, app_assoc, filter_app, length_app.
      rewrite (filter_absent node loop).
      * cbn [length]. rewrite Nat.add_0_r.
        apply count_in_NoDup, opening_NoDup, Hmid.
      * intros Hin. apply (alternating_members _ _ _ Halt) in Hin.
        unfold opening in Hnode. cbn [app] in Hnode.
        repeat (apply elem_of_cons in Hnode as [->|Hnode];
                [destruct Hin; discriminate|]).
        apply elem_of_nil in Hnode. exact Hnode.
Qed.

(** ** Entering the critique loop *)

(** The stages before the loop mention none of the fields the loop works
    on. *)
Lemma loop_fields_left_alone (self : GraphOrchestrator) (name : string)
    (action : Node) (t : nat) (s : AgentState) :
  nodes (_build_graph self) !! name = Some action ->
  name <> "generate_response" -> name <> "critique_and_refine" ->
  draft_reply (merge s (update_of (action t s))) = draft_reply s
  /\ requires_review (merge s (update_of (action t s))) = requires_review s
  /\ critique_feedback (merge s (update_of (action t s)))
     = critique_feedback s
  /\ revision_count (merge s (update_of (action t s))) = revision_count s.
Proof.
  intros H Hg Hc.
  assert (Hu : draft_reply (update_of (action t s)) = None
               /\ requires_review (update_of (action t s)) = None
               /\ critique_feedback (update_of (action t s)) = None
               /\ revision_count (update_of (action t s)) = None).
  { destruct (graph_nodes self name action H)
      as [[-> ->]|[[-> ->]|[[-> ->]|[[-> ->]|[[-> ->]|[[-> ->]|[[-> ->]|[-> ->]]]]]]]];
      try contradiction; stage_cases; auto. }
  destruct Hu as (H1 & H2 & H3 & H4). simpl.
  rewrite H1, H2, H3, H4. auto.
Qed.

Section Entering.

Variable self : GraphOrchestrator.

(** A run in which the drafting stage occurs comes to it through the whole
    opening and at most one of retrieval and tool execution, with no error
    set when the action router decided, with the extracted data in the
    state, and with the fields of the loop as they were initially. *)
Lemma enter_loop (limit : nat) (s0 : AgentState) :
  "generate_response" ∈ stages (invoke self limit s0) ->
  exists pre t s,
    (length pre <= 5)%nat
    /\ drafts pre = 0%nat
    /\ (forall limit',
           invoke self (length pre + limit') s0
           = prepend pre
               (run (_build_graph self) limit' t "generate_response" s))
    /\ truthy (error_message (after_intent self s0)) = false
    /\ extracted_data s <> None
    /\ draft_reply s = draft_reply s0
    /\ requires_review s = requires_review s0
    /\ critique_feedback s = critique_feedback s0
    /\ revision_count s = revision_count s0.
Proof.
  intros Hreach.
  destruct (lt_dec limit 4) as [Hlt|Hge].
  { destruct (run_cut_short self s0 limit Hlt) as [n Hn].
    rewrite Hn in Hreach. apply opening_members in Hreach.
    destruct Hreach as [H|[H|[H|H]]]; discriminate. }
  do 4 (destruct limit as [|limit]; [lia|]). clear Hge.
  rewrite run_to_action_router in Hreach.
  destruct (negb (String.eqb (_route_after_triage (after_triage self s0))
                    "continue")) eqn:H1; [stops_short Hreach|].
  destruct (negb (String.eqb
                    (_route_after_extraction (after_extraction self s0))
                    "learn")) eqn:H2.
  { rewrite stages_of_prepend in Hreach. cbn [map fst app] in Hreach.
    stops_short Hreach. }
  rewrite run_select_intent in Hreach. cbv zeta in Hreach.
  fold (after_intent self s0) in Hreach.
  assert (Hprefix : forall limit',
             invoke self (S (S (S (S limit')))) s0
             = prepend [ ("triage", after_triage self s0);
                         ("extract_data", after_extraction self s0);
                         ("find_learning_opportunities",
                          after_learning self s0) ]
                 (run (_build_graph self) (S limit') 3 "select_intent"
                    (after_learning self s0))).
  { intros limit'. rewrite run_to_action_router, H1, H2. reflexivity. }
  pose proof (loop_fields_left_alone self "triage" _ 0 s0
                (node_triage self) ltac:(discriminate) ltac:(discriminate))
    as F1. cbv beta in F1. fold (after_triage self s0) in F1.
  pose proof (loop_fields_left_alone self "extract_data" _ 1
                (after_triage self s0) (node_extract_data self)
                ltac:(discriminate) ltac:(discriminate))
    as F2. cbv beta in F2. fold (after_extraction self s0) in F2.
  pose proof (loop_fields_left_alone self "find_learning_opportunities" _ 2
                (after_extraction self s0)
                (node_find_learning_opportunities self)
                ltac:(discriminate) ltac:(discriminate))
    as F3. cbv beta in F3. fold (after_learning self s0) in F3.
  pose proof (loop_fields_left_alone self "select_intent" _ 3
                (after_learning self s0) (node_select_intent self)
                ltac:(discriminate) ltac:(discriminate))
    as F4. cbv beta in F4. fold (after_intent self s0) in F4.
  assert (F : draft_reply (after_intent self s0) = draft_reply s0
              /\ requires_review (after_intent self s0) = requires_review s0
              /\ critique_feedback (after_intent self s0)
                 = critique_feedback s0
              /\ revision_count (after_intent self s0) = revision_count s0).
  { destruct F1 as (A1 & B1 & C1 & D1), F2 as (A2 & B2 & C2 & D2),
      F3 as (A3 & B3 & C3 & D3), F4 as (A4 & B4 & C4 & D4).
    repeat split; congruence. }
  clear F1 F2 F3 F4.
  assert (Hok : _route_action self (after_intent self s0) <> "end" ->
                truthy (error_message (after_intent self s0)) = false
                /\ extracted_data (after_intent self s0) <> None).
  { intros Hne. split.
    - destruct (truthy (error_message (after_intent self s0))) eqn:He;
        [|reflexivity].
      exfalso. apply Hne. apply route_action_error. exact He.
    - destruct (extracted_data (after_learning self s0)) eqn:Hd.
      + unfold after_intent. apply extracted_data_stays. rewrite Hd.
        discriminate.
      + exfalso. apply Hne. unfold after_intent.
        apply action_router_needs_extraction. exact Hd. }
  destruct (String.eqb (_route_action self (after_intent self s0))
              "rag_and_respond") eqn:Hk1.
  { destruct Hok as [He Hd];
      [apply String.eqb_eq in Hk1; rewrite Hk1; discriminate|].
    pose proof (loop_fields_left_alone self "rag" _ 4
                  (after_intent self s0) (node_rag self)
                  ltac:(discriminate) ltac:(discriminate)) as F5.
    cbv beta in F5.
    exists [ ("triage", after_triage self s0);
             ("extract_data", after_extraction self s0);
             ("find_learning_opportunities", after_learning self s0);
             ("select_intent", after_intent self s0);
             ("rag",
              merge (after_intent self s0)
                (update_of (retrieve_from_knowledge_base
                              (after_intent self s0) (rag_chain self 4)))) ],
      5%nat,
      (merge (after_intent self s0)
         (update_of (retrieve_from_knowledge_base (after_intent self s0)
                       (rag_chain self 4)))).
    split; [simpl; lia|]. split; [reflexivity|]. split.
    { intros limit'.
      change (length _ + limit')%nat with (S (S (S (S (S limit'))))).
      rewrite Hprefix, run_select_intent. cbv zeta.
      fold (after_intent self s0). rewrite Hk1, run_rag. reflexivity. }
    split; [exact He|]. split; [apply extracted_data_stays; exact Hd|].
    destruct F as (A & B & C & D), F5 as (A5 & B5 & C5 & D5).
    repeat split; congruence. }
  destruct (String.eqb (_route_action self (after_intent self s0))
              "tool_and_respond") eqn:Hk2.
  { destruct Hok as [He Hd];
      [apply String.eqb_eq in Hk2; rewrite Hk2; discriminate|].
    pose proof (loop_fields_left_alone self "execute_tool" _ 4
                  (after_intent self s0) (node_execute_tool self)
                  ltac:(discriminate) ltac:(discriminate)) as F5.
    cbv beta in F5.
    exists [ ("triage", after_triage self s0);
             ("extract_data", after_extraction self s0);
             ("find_learning_opportunities", after_learning self s0);
             ("select_intent", after_intent self s0);
             ("execute_tool",
              merge (after_intent self s0)
                (update_of (execute_tool (after_intent self s0)
                              (settings_service self 4) (tool_call self 4)
                              (tool_registry self)))) ],
      5%nat,
      (merge (after_intent self s0)
         (update_of (execute_tool (after_intent self s0) (settings_service self 4)
                       (tool_call self 4) (tool_registry self)))).
    split; [simpl; lia|]. split; [reflexivity|]. split.
    { intros limit'.
      change (length _ + limit')%nat with (S (S (S (S (S limit'))))).
      rewrite Hprefix, run_select_intent. cbv zeta.
      fold (after_intent self s0). rewrite Hk1, Hk2, run_execute_tool.
      reflexivity. }
    split; [exact He|]. split; [apply extracted_data_stays; exact Hd|].
    destruct F as (A & B & C & D), F5 as (A5 & B5 & C5 & D5).
    repeat split; congruence. }
  destruct (String.eqb (_route_action self (after_intent self s0))
              "respond") eqn:Hk3.
  2: { rewrite stages_of_prepend in Hreach. cbn [map fst app] in Hreach.
       stops_short Hreach. }
  destruct Hok as [He Hd];
    [apply String.eqb_eq in Hk3; rewrite Hk3; discriminate|].
  exists [ ("triage", after_triage self s0);
           ("extract_data", after_extraction self s0);
           ("find_learning_opportunities", after_learning self s0);
           ("select_intent", after_intent self s0) ],
    4%nat, (after_intent self s0).
  split; [simpl; lia|]. split; [reflexivity|]. split.
  { intros limit'.
    change (length _ + limit')%nat with (S (S (S (S limit')))).
    rewrite Hprefix, run_select_intent. cbv zeta.
    fold (after_intent self s0). rewrite Hk1, Hk2, Hk3. reflexivity. }
  split; [exact He|]. split; [exact Hd|]. exact F.
Qed.

(** Within six stage invocations a run has ended without drafting, or has
    come to the drafting stage. *)
Lemma finishes_or_drafts (s0 : AgentState) :
  (status (invoke self 6 s0) = Finished
   /\ invocations "generate_response" (invoke self 6 s0) = 0%nat)
  \/ "generate_response" ∈ stages (invoke self 6 s0).
Proof.
  rewrite run_to_action_router.
  destruct (negb _); [left; split; reflexivity|].
  destruct (negb _); [left; split; reflexivity|].
  rewrite run_select_intent. cbv zeta.
  destruct (String.eqb (_route_action self _) "rag_and_respond").
  { right. rewrite run_rag. cbv zeta. rewrite run_generate_response.
    rewrite stages_of_prepend, !stages_of_after. cbn [map fst app].
    repeat (apply elem_of_cons; first [left; reflexivity | right]). }
  destruct (String.eqb (_route_action self _) "tool_and_respond").
  { right. rewrite run_execute_tool. cbv zeta. rewrite run_generate_response.
    rewrite stages_of_prepend, !stages_of_after. cbn [map fst app].
    repeat (apply elem_of_cons; first [left; reflexivity | right]). }
  destruct (String.eqb (_route_action self _) "respond").
  - right. rewrite run_generate_response.
    rewrite stages_of_prepend, !stages_of_after. cbn [map fst app].
    repeat (apply elem_of_cons; first [left; reflexivity | right]).
  - left. split; reflexivity.
Qed.

End Entering.

(** ** Termination when the drafting model answers *)

Lemma invoke_mono (self : GraphOrchestrator) (n m : nat) (s0 : AgentState) :
  (n <= m)%nat ->
  status (invoke self n s0) <> LimitReached ->
  invoke self m s0 = invoke self n s0.
Proof.
  unfold invoke, graph.invoke. rewrite graph_entry. apply run_mono.
Qed.

Section Bounded.

Variable self : GraphOrchestrator.

Hypothesis set_up : drafting_set_up self.
Hypothesis drafting_answers :
  forall t p, exists c, invoke_message (llm self t) p = Returns (Some c).

Lemma answered_draft_state (s : AgentState) (t : nat) :
  extracted_data s <> None ->
  exists c,
    merge s (update_of (generate_response s (settings_service self t)
                          (templates self) (llm self t)))
    = merge s (with_draft_reply c
                 (with_revision_count (revision_of s + 1) empty)).
Proof.
  intros Hd.
  destruct (extracted_data s) as [d|] eqn:Hds; [|contradiction].
  destruct (set_up t) as (settings & Hs & Ht).
  destruct (drafting_answers t (draft_prompt s d (signature_of settings)))
    as [c Hc].
  destruct (generate_response_success s (settings_service self t)
              (templates self) (llm self t)) as [c' ->].
  { exists d, settings, c. auto. }
  exists c'. reflexivity.
Qed.

Lemma critique_leaves_revision_count (s : AgentState) (t : nat) :
  revision_count
    (merge s (update_of (critique_and_refine s (llm self t))))
  = revision_count s.
Proof.
  apply revision_count_untouched.
  apply (other_stages_leave_revision_count self "critique_and_refine" _ t s
           (node_critique_and_refine self)).
  discriminate.
Qed.

(** From the drafting stage with a count that is not negative, the loop
    ends within four stage invocations, two of them drafts at most. *)
Lemma bounded_loop (s : AgentState) (t : nat) :
  extracted_data s <> None -> 0 <= revision_of s ->
  status (run (_build_graph self) 4 t "generate_response" s) = Finished
  /\ (invocations "generate_response"
        (run (_build_graph self) 4 t "generate_response" s) <= 2)%nat.
Proof.
  intros Hd Hrev.
  rewrite run_generate_response. cbv zeta.
  destruct (answered_draft_state s t Hd) as (c1 & ->).
  set (s1 := merge s _).
  assert (Hd1 : extracted_data s1 <> None)
    by (subst s1; apply extracted_data_stays; exact Hd).
  assert (Hn1 : revision_count s1 = Some (revision_of s + 1)) by reflexivity.
  clearbody s1.
  rewrite run_critique_and_refine. cbv zeta.
  pose proof (critique_leaves_revision_count s1 (S t)) as Hn2.
  assert (Hd2 : extracted_data
                  (merge s1 (update_of (critique_and_refine s1
                                          (llm self (S t))))) <> None)
    by (apply extracted_data_stays; exact Hd1).
  set (s2 := merge s1 _) in *. clearbody s2.
  rewrite Hn1 in Hn2.
  destruct (String.eqb (_route_for_revision s2) "revise") eqn:Hr.
  2: { split; [reflexivity|].
       rewrite invocations_after_same. apply le_n_S. apply Nat.le_0_l. }
  apply String.eqb_eq, route_for_revision_revise in Hr.
  destruct Hr as [_ Hr]. rewrite Hn2 in Hr. simpl default in Hr.
  rewrite run_generate_response. cbv zeta.
  destruct (answered_draft_state s2 (S (S t)) Hd2) as (c2 & ->).
  set (s3 := merge s2 _).
  assert (Hn3 : revision_count s3 = Some (revision_of s2 + 1)) by reflexivity.
  clearbody s3.
  rewrite run_critique_and_refine. cbv zeta.
  pose proof (critique_leaves_revision_count s3 (S (S (S t)))) as Hn4.
  set (s4 := merge s3 _) in *. clearbody s4.
  assert (Hend : _route_for_revision s4 = "end").
  { apply route_for_revision_end. right.
    rewrite Hn4, Hn3. unfold revision_of at 1. rewrite Hn2.
    simpl default. unfold config.MAX_REVISIONS. lia. }
  rewrite Hend. change (String.eqb "end" "revise") with false. cbv iota.
  split; [reflexivity|].
  rewrite invocations_after_same, invocations_after_other by discriminate.
  rewrite invocations_after_same. apply le_n_S, le_n_S, Nat.le_0_l.
Qed.

End Bounded.



(** ** Runs that end in the opening *)

Lemma route_after_triage_continue (s : AgentState) :
  _route_after_triage s = "continue"
  <-> truthy (error_message s) = false
      /\ exists t, triage_result s = Some t
                   /\ (priority t = "high" \/ should_respond t = true).
Proof.
  unfold _route_after_triage. cbv zeta.
  destruct (truthy (error_message s)); simpl.
  { split; [discriminate | intros [H _]; discriminate]. }
  destruct (triage_result s) as [t|]; simpl.
  2: { split; [discriminate | intros [_ (t & H & _)]; discriminate]. }
  destruct (String.eqb_spec (priority t) "high") as [Hp|Hp].
  { split; [intros _; split; [reflexivity | exists t; auto] | reflexivity]. }
  destruct (should_respond t) eqn:Hr; simpl.
  - split; [intros _; split; [reflexivity | exists t; auto] | reflexivity].
  - split; [discriminate|].
    intros [_ (t' & Ht & [H|H])]; injection Ht as <-; congruence.
Qed.

Lemma merge_keeps_error (s u : AgentState) :
  keeps_error u -> error_set s -> error_set (merge s u).
Proof.
  intros [Hu|Hu] Hs; unfold error_set in *; simpl.
  - rewrite Hu. exact Hs.
  - destruct (error_message u); [exact Hu | discriminate].
Qed.

Lemma stage_keeps_error (self : GraphOrchestrator) (name : string)
    (action : Node) (t : nat) (s : AgentState) :
  nodes (_build_graph self) !! name = Some action ->
  error_set s -> error_set (merge s (update_of (action t s))).
Proof.
  intros Hn Hs.
  apply merge_keeps_error; [|exact Hs].
  exact (graph_nodes_keep_error self name action t s Hn).
Qed.

(** The run consists of the triage stage alone exactly when triage leaves an
    error set or no triage result, or a result whose priority is not "high"
    and that asks for no response; the state triage left is then the final
    state. *)
Theorem run_stops_after_triage (self : GraphOrchestrator) (s0 : AgentState)
    (limit : nat) :
  (1 <= limit)%nat ->
  invoke self limit s0
  = stop Finished (after_triage self s0) [("triage", after_triage self s0)]
  <-> (error_set (after_triage self s0)
       \/ triage_result (after_triage self s0) = None
       \/ exists t, triage_result (after_triage self s0) = Some t
                    /\ priority t <> "high" /\ should_respond t = false).
Proof.
  intros Hlimit. destruct limit as [|l]; [lia|]. clear Hlimit.
  unfold invoke, graph.invoke. rewrite graph_entry, run_triage. cbv zeta.
  fold (after_triage self s0).
  pose proof (route_after_triage_continue (after_triage self s0)) as Hroute.
  destruct (String.eqb_spec (_route_after_triage (after_triage self s0))
              "continue") as [Hc|Hc].
  - apply Hroute in Hc as [He (t & Ht & Hor)].
    split.
    + intros Heq. exfalso.
      assert (Hst : status (run (_build_graph self) l 1 "extract_data"
                              (after_triage self s0)) = Finished)
        by exact (f_equal status Heq).
      assert (Htr : stages (run (_build_graph self) l 1 "extract_data"
                              (after_triage self s0)) = []).
      { apply (f_equal stages) in Heq. rewrite stages_of_after in Heq.
        injection Heq as Heq. exact Heq. }
      destruct l as [|l]; [discriminate|].
      rewrite run_extract_data in Htr. cbv zeta in Htr.
      destruct (String.eqb _ "learn") in Htr; discriminate.
    + unfold error_set. rewrite He, Ht.
      intros [H | [H | (t' & Ht' & Hp & Hr)]]; [discriminate..|].
      injection Ht' as <-. destruct Hor; congruence.
  - split; [|reflexivity]. intros _.
    destruct (truthy (error_message (after_triage self s0))) eqn:He;
      [left; exact He|].
    destruct (triage_result (after_triage self s0)) as [t|] eqn:Ht;
      [|right; left; reflexivity].
    right. right. exists t. split; [reflexivity|].
    split.
    + intros Hp. apply Hc, Hroute. split; [reflexivity|]. exists t. auto.
    + destruct (should_respond t) eqn:Hr; [|reflexivity].
      exfalso. apply Hc, Hroute. split; [reflexivity|]. exists t. auto.
Qed.

Lemma run_stops_after_triage_witness :
  invoke
    (scenarios.orchestrator_with
       (fun _ => scenarios.chat "respond" (Raises "unused")
                   (Raises "unused")))
    25
    (with_error_message "left over" scenarios.initial_state)
  = stop Finished
      (after_triage
         (scenarios.orchestrator_with
            (fun _ => scenarios.chat "respond" (Raises "unused")
                        (Raises "unused")))
         (with_error_message "left over" scenarios.initial_state))
      [("triage",
        after_triage
          (scenarios.orchestrator_with
             (fun _ => scenarios.chat "respond" (Raises "unused")
                         (Raises "unused")))
          (with_error_message "left over" scenarios.initial_state))].
Proof.
  apply run_stops_after_triage; [lia|].
  left. reflexivity.
Defined.

(** Extraction does not mention the triage result. *)
Lemma extraction_leaves_triage_result (s : AgentState) (llm : ChatModel) :
  triage_result (merge s (update_of (extract_data s llm))) = triage_result s.
Proof.
  assert (H : triage_result (update_of (extract_data s llm)) = None)
    by stage_cases.
  simpl. rewrite H. reflexivity.
Qed.

(** A high priority email that needs no response: whatever extraction does,
    the run consists of triage and extraction and ends there. *)
Theorem high_priority_without_response_stops_after_extraction
    (self : GraphOrchestrator) (s0 : AgentState) (limit : nat)
    (t : TriageResult) :
  (2 <= limit)%nat ->
  truthy (error_message (after_triage self s0)) = false ->
  triage_result (after_triage self s0) = Some t ->
  priority t = "high" -> should_respond t = false ->
  invoke self limit s0
  = prepend [("triage", after_triage self s0)]
      (stop Finished (after_extraction self s0)
         [("extract_data", after_extraction self s0)])
  /\ stages (invoke self limit s0) = ["triage"; "extract_data"]
  /\ intent (final_state (invoke self limit s0)) = intent s0.
Proof.
  intros Hlimit He Ht Hp Hr.
  do 2 (destruct limit as [|limit]; [lia|]). clear Hlimit.
  assert (H1 : _route_after_triage (after_triage self s0) = "continue").
  { apply route_after_triage_continue. split; [exact He|]. exists t. auto. }
  assert (H2 : _route_after_extraction (after_extraction self s0) = "end").
  { unfold _route_after_extraction, after_extraction.
    rewrite extraction_leaves_triage_result, Ht, Hp, Hr. reflexivity. }
  assert (Hrun : invoke self (S (S limit)) s0
                 = prepend [("triage", after_triage self s0)]
                     (stop Finished (after_extraction self s0)
                        [("extract_data", after_extraction self s0)])).
  { unfold invoke, graph.invoke. rewrite graph_entry, run_triage. cbv zeta.
    fold (after_triage self s0). rewrite H1.
    change (String.eqb "continue" "continue") with true. cbv iota.
    rewrite run_extract_data. cbv zeta. fold (after_extraction self s0).
    rewrite H2. reflexivity. }
  rewrite Hrun. split; [reflexivity|]. split; [reflexivity|].
  rewrite final_state_prepend. cbn [final_state stop].
  unfold after_extraction, after_triage.
  assert (Hi : forall s llm,
             intent (merge s (update_of (extract_data s llm))) = intent s
             /\ intent (merge s (update_of (triage_email s llm))) = intent s).
  { intros s llm.
    assert (Ha : intent (update_of (extract_data s llm)) = None)
      by stage_cases.
    assert (Hb : intent (update_of (triage_email s llm)) = None)
      by stage_cases.
    simpl. rewrite Ha, Hb. auto. }
  rewrite (proj1 (Hi _ _)), (proj2 (Hi _ _)). reflexivity.
Qed.

Lemma high_priority_without_response_stops_after_extraction_witness :
  stages
    (invoke
       (scenarios.orchestrator_with
          (fun _ =>
             {| invoke_TriageResult := fun _ =>
                  Returns (Some {| category := "security";
                                   priority := "high";
                                   should_respond := false;
                                   reasoning := "An alert." |});
                invoke_ExtractedData := fun _ => Raises "timeout";
                invoke_LearnableInfo := fun _ => Returns None;
                invoke_Intent := fun _ => Returns None;
                invoke_Critique := fun _ => Returns None;
                invoke_message := fun _ => Returns None |}))
       25 scenarios.initial_state)
  = ["triage"; "extract_data"].
Proof.
  refine (proj1 (proj2
    (high_priority_without_response_stops_after_extraction _ _ 25
       {| category := "security"; priority := "high";
          should_respond := false; reasoning := "An alert." |}
       _ _ _ _ _))); [lia | reflexivity..].
Defined.

(** Once an error is set at any point of the opening, in the initial state
    or by triage, extraction or intent selection, the run stays inside the
    opening: retrieval, tool execution, drafting and critique are never
    invoked. *)
Theorem failure_in_the_opening_ends_the_run
    (self : GraphOrchestrator) (s0 : AgentState) (limit : nat) :
  error_set s0 \/ error_set (after_triage self s0)
  \/ error_set (after_extraction self s0)
  \/ error_set (after_learning self s0)
  \/ error_set (after_intent self s0) ->
  (exists n, stages (invoke self limit s0) = take n opening)
  /\ Forall (fun node => node ∉ stages (invoke self limit s0))
       ["rag"; "execute_tool"; "generate_response"; "critique_and_refine"].
Proof.
  intros Herr.
  assert (H4 : error_set (after_intent self s0)).
  { pose proof (stage_keeps_error self "triage" _ 0 s0 (node_triage self))
      as K1.
    pose proof (stage_keeps_error self "extract_data" _ 1
                  (after_triage self s0) (node_extract_data self)) as K2.
    pose proof (stage_keeps_error self "find_learning_opportunities" _ 2
                  (after_extraction self s0)
                  (node_find_learning_opportunities self)) as K3.
    pose proof (stage_keeps_error self "select_intent" _ 3
                  (after_learning self s0) (node_select_intent self)) as K4.
    cbv beta in K1, K2, K3, K4.
    fold (after_triage self s0) in K1.
    fold (after_extraction self s0) in K2.
    fold (after_learning self s0) in K3.
    fold (after_intent self s0) in K4.
    destruct Herr as [H|[H|[H|[H|H]]]]; auto. }
  assert (Hshape : exists n, stages (invoke self limit s0) = take n opening).
  { destruct (lt_dec limit 4) as [Hlt|Hge];
      [apply run_cut_short; exact Hlt|].
    do 4 (destruct limit as [|limit]; [lia|]). clear Hge.
    rewrite run_to_action_router.
    destruct (negb _); [exists 1%nat; reflexivity|].
    destruct (negb _); [exists 2%nat; reflexivity|].
    rewrite run_select_intent. cbv zeta. fold (after_intent self s0).
    rewrite (route_action_error self _ H4).
    exists 4%nat. reflexivity. }
  split; [exact Hshape|].
  destruct Hshape as [n Hn]. rewrite Hn.
  repeat (apply Forall_cons; split;
          [intros Hin; apply opening_members in Hin;
           destruct Hin as [H|[H|[H|H]]]; discriminate|]).
  apply Forall_nil. exact I.
Qed.

Lemma failure_in_the_opening_ends_the_run_witness :
  (exists n,
      stages (invoke scenarios.draft_breaks 25 scenarios.failed_extraction)
      = take n opening)
  /\ Forall (fun node =>
               node ∉ stages (invoke scenarios.draft_breaks 25
                                scenarios.failed_extraction))
       ["rag"; "execute_tool"; "generate_response"; "critique_and_refine"].
Proof.
  apply failure_in_the_opening_ends_the_run.
  left. reflexivity.
Defined.

(** ** One pass through the critique loop *)

Section OnePass.

Variable self : GraphOrchestrator.

(** The critic accepts a draft that is there. *)
Lemma accepted_critique_state (s : AgentState) (t : nat) :
  (forall p, exists c,
      invoke_Critique (llm self t) p = Returns (Some c)
      /\ is_acceptable c = true) ->
  extracted_data s <> None -> truthy (draft_reply s) = true ->
  merge s (update_of (critique_and_refine s (llm self t)))
  = merge s (with_critique_feedback "None" (with_requires_review true empty)).
Proof.
  intros Hcritic Hd Hr. unfold critique_and_refine.
  destruct (extracted_data s) as [d|]; [|contradiction].
  rewrite Hr. simpl negb. cbv iota.
  match goal with
  | |- context [invoke_Critique _ ?p] =>
      destruct (Hcritic p) as (c & Hc & Hacc)
  end.
  rewrite Hc. simpl. rewrite Hacc. reflexivity.
Qed.

(** With no draft in the state the critique approves without asking the
    critic. *)
Lemma critique_without_draft (s : AgentState) (llm : ChatModel) :
  truthy (draft_reply s) = false ->
  critique_and_refine s llm = Returns (with_requires_review true empty).
Proof.
  intros Hr. unfold critique_and_refine.
  destruct (extracted_data s); [|reflexivity].
  rewrite Hr. reflexivity.
Qed.

(** A drafting call that does not answer leaves an error and nothing else. *)
Lemma unanswered_draft_state (s : AgentState) (t : nat) :
  (forall p,
      invoke_message (llm self t) p = Returns None
      \/ exists e, invoke_message (llm self t) p = Raises e) ->
  exists m,
    truthy m = true
    /\ merge s (update_of (generate_response s (settings_service self t)
                             (templates self) (llm self t)))
       = merge s (with_error_message m empty).
Proof.
  intros Hfail. unfold generate_response.
  destruct (extracted_data s) as [d|].
  - destruct (settings_service self t) as [settings|e];
      [|simpl; eexists; (split; [|reflexivity]); reflexivity].
    cbn [mbind outcome_bind].
    destruct (generate_response_prompt (templates self) _) as [[]|e];
      [|simpl; eexists; (split; [|reflexivity]); reflexivity].
    cbn [mbind outcome_bind].
    match goal with
    | |- context [invoke_message _ ?p] =>
        destruct (Hfail p) as [Hp | [e Hp]]
    end; rewrite Hp; simpl; eexists; (split; [|reflexivity]); reflexivity.
  - simpl. eexists; (split; [|reflexivity]); reflexivity.
Qed.

End OnePass.



(** When no draft is in the state and the drafting model does not answer, a
    run that reaches the drafting stage drafts once and ends: the critique
    approves by default without a draft, so the final state has the error
    set, [requires_review] true, no draft, and the revision count as it
    was. *)
Theorem unanswered_first_draft_ends_the_run
    (self : GraphOrchestrator) (s0 : AgentState) :
  truthy (draft_reply s0) = false ->
  (forall t p,
      invoke_message (llm self t) p = Returns None
      \/ exists e, invoke_message (llm self t) p = Raises e) ->
  (exists limit, "generate_response" ∈ stages (invoke self limit s0)) ->
  exists r,
    (forall limit, (7 <= limit)%nat -> invoke self limit s0 = r)
    /\ status r = Finished
    /\ invocations "generate_response" r = 1%nat
    /\ error_set (final_state r)
    /\ requires_review (final_state r) = Some true
    /\ draft_reply (final_state r) = draft_reply s0
    /\ revision_count (final_state r) = revision_count s0.
Proof.
  intros Hnodraft Hfail [limit0 Hreach].
  destruct (enter_loop self limit0 s0 Hreach)
    as (pre & t & s & Hlen & Hnone & Hrun & _ & Hd & Hr & _ & _ & Hn).
  assert (Hloop :
            status (run (_build_graph self) 2 t "generate_response" s)
            = Finished
            /\ invocations "generate_response"
                 (run (_build_graph self) 2 t "generate_response" s) = 1%nat
            /\ error_set
                 (final_state
                    (run (_build_graph self) 2 t "generate_response" s))
            /\ requires_review
                 (final_state
                    (run (_build_graph self) 2 t "generate_response" s))
               = Some true
            /\ draft_reply
                 (final_state
                    (run (_build_graph self) 2 t "generate_response" s))
               = draft_reply s
            /\ revision_count
                 (final_state
                    (run (_build_graph self) 2 t "generate_response" s))
               = revision_count s).
  { rewrite run_generate_response. cbv zeta.
    destruct (unanswered_draft_state self s t (Hfail t)) as (m & Hm & ->).
    set (s1 := merge s _).
    assert (He1 : error_message s1 = Some m) by reflexivity.
    assert (Hr1 : draft_reply s1 = draft_reply s) by reflexivity.
    assert (Hn1 : revision_count s1 = revision_count s) by reflexivity.
    clearbody s1.
    rewrite run_critique_and_refine. cbv zeta.
    rewrite critique_without_draft by (rewrite Hr1, Hr; exact Hnodraft).
    cbn [update_of].
    set (s2 := merge s1 _).
    assert (Hq2 : requires_review s2 = Some true) by reflexivity.
    assert (He2 : error_message s2 = Some m) by (subst s2; simpl; exact He1).
    assert (Hr2 : draft_reply s2 = draft_reply s)
      by (subst s2; simpl; exact Hr1).
    assert (Hn2 : revision_count s2 = revision_count s)
      by (subst s2; simpl; exact Hn1).
    clearbody s2.
    assert (Hend : _route_for_revision s2 = "end").
    { apply route_for_revision_end. left. rewrite Hq2. reflexivity. }
    rewrite Hend. change (String.eqb "end" "revise") with false. cbv iota.
    split; [reflexivity|]. split.
    { rewrite invocations_after_same. reflexivity. }
    cbn [final_state after stop]. unfold error_set. rewrite He2.
    repeat split; assumption. }
  destruct Hloop as (Hst & Hcount & He & Hq & Hdr & Hrev).
  exists (prepend pre (run (_build_graph self) 2 t "generate_response" s)).
  split; [|split; [|split]].
  - intros limit Hlimit.
    replace limit with (length pre + (limit - length pre))%nat by lia.
    rewrite Hrun. f_equal. apply run_mono; [lia|].
    rewrite Hst. discriminate.
  - rewrite status_prepend. exact Hst.
  - rewrite invocations_prepend. fold (drafts pre). rewrite Hnone.
    exact Hcount.
  - rewrite final_state_prepend. rewrite <- Hr, <- Hn. auto.
Qed.

Lemma unanswered_first_draft_ends_the_run_witness :
  exists r,
    (forall limit,
        (7 <= limit)%nat ->
        invoke
          (scenarios.orchestrator_with
             (fun _ =>
                scenarios.chat "respond" (Raises "503 Service Unavailable")
                  (scenarios.rejects "Too terse.")))
          limit scenarios.initial_state = r)
    /\ status r = Finished
    /\ invocations "generate_response" r = 1%nat
    /\ error_set (final_state r)
    /\ requires_review (final_state r) = Some true
    /\ draft_reply (final_state r) = draft_reply scenarios.initial_state
    /\ revision_count (final_state r)
       = revision_count scenarios.initial_state.
Proof.
  apply unanswered_first_draft_ends_the_run.
  - reflexivity.
  - intros t p. right. eexists. reflexivity.
  - exists 7%nat. vm_compute.
    repeat (apply elem_of_cons; first [left; reflexivity | right]).
Defined.

(** * What the retrieved context is used for *)

Lemma without_rag_context_merge (s u : AgentState) :
  without_rag_context (merge s u)
  = merge (without_rag_context s) (without_rag_context u).
Proof. reflexivity. Qed.

Lemma same_after (current : string) (m m' : AgentState) (r r' : Run) :
  without_rag_context m = without_rag_context m' ->
  same_apart_from_rag_context r r' ->
  same_apart_from_rag_context (after current m r) (after current m' r').
Proof.
  intros Hm (Hst & Htr & Hfin). unfold same_apart_from_rag_context, after.
  cbn [status trace final_state map fst snd].
  rewrite Hm, Htr. auto.
Qed.

Lemma same_stop (st : Status) (current : string) (m m' : AgentState) :
  without_rag_context m = without_rag_context m' ->
  same_apart_from_rag_context (stop st m [(current, m)])
    (stop st m' [(current, m')]).
Proof.
  intros Hm. unfold same_apart_from_rag_context, stop.
  cbn [status trace final_state map fst snd].
  rewrite Hm. auto.
Qed.

(** A stage that reads nothing of [rag_context] and writes nothing to it
    keeps two states that differ only there as close as they were. *)
Lemma same_step (f : AgentState -> Outcome AgentState) (s s' : AgentState) :
  (forall x, f x = f (without_rag_context x)) ->
  without_rag_context s = without_rag_context s' ->
  without_rag_context (merge s (update_of (f s)))
  = without_rag_context (merge s' (update_of (f s'))).
Proof.
  intros Hf H. rewrite !without_rag_context_merge.
  rewrite (Hf s), (Hf s'), H. reflexivity.
Qed.

Lemma same_retrieval (chain chain' : RetrievalChain) (s s' : AgentState) :
  without_rag_context s = without_rag_context s' ->
  without_rag_context
    (merge s (update_of (retrieve_from_knowledge_base s chain)))
  = without_rag_context
      (merge s' (update_of (retrieve_from_knowledge_base s' chain'))).
Proof.
  intros H. rewrite !without_rag_context_merge, H. f_equal.
  assert (He : extracted_data s = extracted_data s').
  { change (extracted_data (without_rag_context s)
            = extracted_data (without_rag_context s')).
    rewrite H. reflexivity. }
  unfold retrieve_from_knowledge_base. rewrite He.
  destruct (extracted_data s') as [data|]; [|reflexivity].
  destruct (chain [("input", summary data)]);
    destruct (chain' [("input", summary data)]); reflexivity.
Qed.

Section Unread.

Variable self : GraphOrchestrator.
Variable chain : nat -> RetrievalChain.

Let other := with_rag_chain chain self.

Lemma unknown_stage_either_way (current : string) :
  nodes (_build_graph self) !! current = None ->
  nodes (_build_graph other) !! current = None.
Proof.
  intros Hn. destruct (nodes (_build_graph other) !! current) eqn:Hn';
    [|reflexivity].
  apply graph_nodes in Hn'.
  destruct Hn' as [[-> _]|[[-> _]|[[-> _]|[[-> _]|[[-> _]|[[-> _]|[[-> _]|[-> _]]]]]]]].
  - rewrite node_triage in Hn. discriminate.
  - rewrite node_extract_data in Hn. discriminate.
  - rewrite node_find_learning_opportunities in Hn. discriminate.
  - rewrite node_select_intent in Hn. discriminate.
  - rewrite node_rag in Hn. discriminate.
  - rewrite node_execute_tool in Hn. discriminate.
  - rewrite node_generate_response in Hn. discriminate.
  - rewrite node_critique_and_refine in Hn. discriminate.
Qed.

Lemma run_ignores_rag_context (limit : nat) :
  forall (t : nat) (current : string) (s s' : AgentState),
    without_rag_context s = without_rag_context s' ->
    same_apart_from_rag_context
      (run (_build_graph self) limit t current s)
      (run (_build_graph other) limit t current s').
Proof.
  induction limit as [|limit IH]; intros t current s s' H.
  - cbn [run]. unfold same_apart_from_rag_context, stop.
    cbn [status trace final_state map]. auto.
  - destruct (nodes (_build_graph self) !! current) as [action|] eqn:Hn.
    + apply graph_nodes in Hn.
      destruct Hn as [[-> _]|[[-> _]|[[-> _]|[[-> _]|[[-> _]|[[-> _]|[[-> _]|[-> _]]]]]]]].
      * rewrite !run_triage. cbv zeta.
        pose proof (same_step (fun x => triage_email x (llm self t)) s s'
                      (fun x => eq_refl) H) as Hm.
        change (llm other t) with (llm self t).
        set (m := merge s _) in *. set (m' := merge s' _) in *.
        replace (_route_after_triage m') with (_route_after_triage m)
          by (change (_route_after_triage (without_rag_context m)
                      = _route_after_triage (without_rag_context m'));
              rewrite Hm; reflexivity).
        destruct (String.eqb (_route_after_triage m) "continue").
        -- apply same_after; [exact Hm | apply IH, Hm].
        -- apply same_stop, Hm.
      * rewrite !run_extract_data. cbv zeta.
        pose proof (same_step (fun x => extract_data x (llm self t)) s s'
                      (fun x => eq_refl) H) as Hm.
        change (llm other t) with (llm self t).
        set (m := merge s _) in *. set (m' := merge s' _) in *.
        replace (_route_after_extraction m')
          with (_route_after_extraction m)
          by (change (_route_after_extraction (without_rag_context m)
                      = _route_after_extraction (without_rag_context m'));
              rewrite Hm; reflexivity).
        destruct (String.eqb (_route_after_extraction m) "learn").
        -- apply same_after; [exact Hm | apply IH, Hm].
        -- apply same_stop, Hm.
      * rewrite !run_find_learning_opportunities. cbv zeta.
        pose proof (same_step
                      (fun x => find_learning_opportunities x (llm self t))
                      s s' (fun x => eq_refl) H) as Hm.
        change (llm other t) with (llm self t).
        apply same_after; [exact Hm | apply IH, Hm].
      * rewrite !run_select_intent. cbv zeta.
        pose proof (same_step
                      (fun x => select_intent_and_tool x (templates self) (llm self t)
                                  (tool_registry self))
                      s s' (fun x => eq_refl) H) as Hm.
        change (llm other t) with (llm self t).
        change (tool_registry other) with (tool_registry self).
        set (m := merge s _) in *. set (m' := merge s' _) in *.
        change (_route_action other m') with (_route_action self m').
        replace (_route_action self m') with (_route_action self m)
          by (change (_route_action self (without_rag_context m)
                      = _route_action self (without_rag_context m'));
              rewrite Hm; reflexivity).
        destruct (String.eqb (_route_action self m) "rag_and_respond");
          [apply same_after; [exact Hm | apply IH, Hm]|].
        destruct (String.eqb (_route_action self m) "tool_and_respond");
          [apply same_after; [exact Hm | apply IH, Hm]|].
        destruct (String.eqb (_route_action self m) "respond");
          [apply same_after; [exact Hm | apply IH, Hm]|].
        apply same_stop, Hm.
      * rewrite !run_rag. cbv zeta.
        pose proof (same_retrieval (rag_chain self t) (rag_chain other t)
                      s s' H) as Hm.
        apply same_after; [exact Hm | apply IH, Hm].
      * rewrite !run_execute_tool. cbv zeta.
        pose proof (same_step
                      (fun x => execute_tool x (settings_service self t)
                                  (tool_call self t) (tool_registry self))
                      s s' (fun x => eq_refl) H) as Hm.
        change (settings_service other t) with (settings_service self t).
        change (tool_call other t) with (tool_call self t).
        change (tool_registry other) with (tool_registry self).
        apply same_after; [exact Hm | apply IH, Hm].
      * rewrite !run_generate_response. cbv zeta.
        pose proof (same_step
                      (fun x => generate_response x (settings_service self t)
                                  (templates self) (llm self t))
                      s s' (fun x => eq_refl) H) as Hm.
        change (settings_service other t) with (settings_service self t).
        change (llm other t) with (llm self t).
        apply same_after; [exact Hm | apply IH, Hm].
      * rewrite !run_critique_and_refine. cbv zeta.
        pose proof (same_step (fun x => critique_and_refine x (llm self t))
                      s s' (fun x => eq_refl) H) as Hm.
        change (llm other t) with (llm self t).
        set (m := merge s _) in *. set (m' := merge s' _) in *.
        replace (_route_for_revision m') with (_route_for_revision m)
          by (change (_route_for_revision (without_rag_context m)
                      = _route_for_revision (without_rag_context m'));
              rewrite Hm; reflexivity).
        destruct (String.eqb (_route_for_revision m) "revise").
        -- apply same_after; [exact Hm | apply IH, Hm].
        -- apply same_stop, Hm.
    + pose proof (unknown_stage_either_way _ Hn) as Hn'.
      cbn [run]. unfold Node in *. rewrite Hn, Hn'.
      unfold same_apart_from_rag_context, stop.
      cbn [status trace final_state map]. rewrite H. auto.
Qed.

End Unread.

(** The answer of the knowledge base reaches nothing but the [rag_context]
    key: run the same orchestrator with any other retrieval chain, and the
    run stops the same way after the same stages, with the same state after
    every stage apart from [rag_context].  No stage and no router reads the
    key, the drafting stage included. *)
Theorem retrieved_context_reaches_only_rag_context
    (self : GraphOrchestrator) (chain : nat -> RetrievalChain)
    (limit : nat) (s0 : AgentState) :
  same_apart_from_rag_context
    (invoke self limit s0)
    (invoke (with_rag_chain chain self) limit s0).
Proof.
  unfold invoke, graph.invoke. rewrite !graph_entry.
  apply run_ignores_rag_context. reflexivity.
Qed.

(** * Looking a tool up in the registry *)

Section Registry.

Variable base : ToolRegistry.
Variables google_api_service knowledge_base llm : Attribute.

Let registry := __init__ base google_api_service knowledge_base llm.

(** What [__init__] leaves in the instance dict under a name it sets. *)
Lemma init_sets_the_tools :
  __dict__ registry !! "_tools" = Some (a_list _discover_tools).
Proof.
  unfold registry, __init__, setattr, _discover_tools.
  cbn [foldl __dict__ name search_the_web check_availability
       create_calendar_event get_pending_drafts_summary
       get_high_priority_summary get_full_email_content list_attachments
       star_email delete_email search_gmail search_google_drive
       draft_a_reply send_email knowledge_tool contact_lookup
       process_attachment].
  repeat (rewrite lookup_insert_ne by discriminate).
  apply lookup_insert_eq.
Qed.

Lemma init_sets_each_tool (tool : BaseTool) :
  tool ∈ _discover_tools ->
  __dict__ registry !! name tool = Some (a_tool tool).
Proof.
  intros H. unfold _discover_tools in H.
  unfold registry, __init__, setattr, _discover_tools.
  cbn [foldl __dict__].
  repeat (apply elem_of_cons in H as [-> | H];
          [ cbn [name search_the_web check_availability
                 create_calendar_event get_pending_drafts_summary
                 get_high_priority_summary get_full_email_content
                 list_attachments star_email delete_email search_gmail
                 search_google_drive draft_a_reply send_email
                 knowledge_tool contact_lookup process_attachment];
            repeat (rewrite lookup_insert_ne by discriminate);
            apply lookup_insert_eq |]).
  apply elem_of_nil in H. destruct H.
Qed.

Lemma get_all_tools_init : get_all_tools registry = _discover_tools.
Proof. unfold get_all_tools. rewrite init_sets_the_tools. reflexivity. Qed.

End Registry.

(** The tool stage runs the tool the intent names: for a registry built by
    [__init__], an intent that names one of the tools [get_all_tools]
    enumerates is looked up to that very tool.  The stage first constructs
    the settings service, whose failure it reports as [error_message]
    without invoking the tool; otherwise the tool is invoked on the intent's
    query, and the stage returns its output as [tool_output], or the tool's
    failure as [error_message]. *)
Theorem execute_tool_runs_the_enumerated_tool
    (base : ToolRegistry) (google_api_service knowledge_base llm : Attribute)
    (state : AgentState) (settings_service : SettingsCall)
    (invoke : ToolCall) (tool : BaseTool) (selected : Intent)
    (email : EmailDetails) :
  tool ∈ get_all_tools (__init__ base google_api_service knowledge_base llm) ->
  intent state = Some selected ->
  tool_name selected = name tool ->
  email_details state = Some email ->
  execute_tool state settings_service invoke
    (__init__ base google_api_service knowledge_base llm)
  = match settings_service with
    | Returns _ =>
        match invoke (a_tool tool) (query_input (tool_query selected)) with
        | Returns output => Returns (with_tool_output output empty)
        | Raises e =>
            Returns (with_error_message
                       ("Tool execution for '" +:+ name tool
                        +:+ "' failed: " +:+ e) empty)
        end
    | Raises e =>
        Returns (with_error_message
                   ("Tool execution for '" +:+ name tool +:+ "' failed: "
                    +:+ e) empty)
    end.
Proof.
  intros Htool Hi Hname He. rewrite get_all_tools_init in Htool.
  unfold execute_tool. rewrite Hi, He. cbv zeta.
  unfold getattr. rewrite Hname, (init_sets_each_tool _ _ _ _ _ Htool).
  cbn [truthy truthy_Attribute negb].
  destruct settings_service as [settings|e]; [|reflexivity].
  cbn [mbind outcome_bind].
  replace (String.eqb (name tool) "analyze_and_save_attachments")
    with false.
  - destruct (invoke (a_tool tool) (query_input (tool_query selected)));
      reflexivity.
  - unfold _discover_tools in Htool.
    repeat (apply elem_of_cons in Htool as [-> | Htool]; [reflexivity|]).
    apply elem_of_nil in Htool. destruct Htool.
Qed.

Lemma execute_tool_runs_the_enumerated_tool_witness :
  execute_tool
    (with_intent {| tool_name := "search_gmail";
                    tool_query := Some "from:ann invoice" |}
       scenarios.initial_state)
    (Returns scenarios.no_settings)
    (fun f input =>
       match f, input with
       | a_tool t, query_input (Some q) =>
           Returns (output_object true (name t +:+ " <- " +:+ q))
       | _, _ => Raises "not a tool call"
       end)
    (__init__ {| object_attributes := ∅; __dict__ := ∅ |}
       a_object a_none a_none)
  = Returns
      (with_tool_output
         (output_object true "search_gmail <- from:ann invoice") empty).
Proof.
  apply (execute_tool_runs_the_enumerated_tool
           {| object_attributes := ∅; __dict__ := ∅ |}
           a_object a_none a_none
           (with_intent {| tool_name := "search_gmail";
                           tool_query := Some "from:ann invoice" |}
              scenarios.initial_state)
           (Returns scenarios.no_settings)
           (fun f input =>
              match f, input with
              | a_tool t, query_input (Some q) =>
                  Returns (output_object true (name t +:+ " <- " +:+ q))
              | _, _ => Raises "not a tool call"
              end)
           search_gmail
           {| tool_name := "search_gmail";
              tool_query := Some "from:ann invoice" |}
           scenarios.an_email).
  - vm_compute. repeat (apply elem_of_cons; first [left; reflexivity | right]).
  - reflexivity.
  - reflexivity.
  - reflexivity.
Defined.



(** * The fallback parser of [utils/email_parser.py] *)

Section PayloadParser.

Import email_parser.

Variable urlsafe_b64decode : string -> Outcome string.

Lemma parser_with_parts (payload : Payload) :
  get_parts payload <> [] ->
  _recursive_payload_parser urlsafe_b64decode payload
  = (l ← for_each
           (fun part =>
              parse_part urlsafe_b64decode
                (_recursive_payload_parser urlsafe_b64decode part) part)
           (get_parts payload)
           {| html_body := ""; plain_body := ""; attachments := [] |};
     mret (returned l)).
Proof.
  destruct payload as [f m b [|part parts] h]; [intros H; destruct H; reflexivity|].
  intros _. reflexivity.
Qed.

Lemma parser_without_parts (payload : Payload) :
  get_parts payload = [] ->
  _recursive_payload_parser urlsafe_b64decode payload
  = parse_leaf urlsafe_b64decode payload.
Proof.
  destruct payload as [f m b [|part parts] h]; [reflexivity|discriminate].
Qed.

Lemma for_each_app {A S : Type} (body : A -> S -> Outcome S)
    (l1 l2 : list A) (locals : S) :
  for_each body (l1 ++ l2)%list locals
  = (locals' ← for_each body l1 locals; for_each body l2 locals').
Proof.
  revert locals. induction l1 as [|x l1 IH]; intros locals; [reflexivity|].
  cbn [for_each app]. destruct (body x locals) as [locals'|e];
    [apply IH | reflexivity].
Qed.

(** What the loop keeps for every part it goes through. *)
Lemma for_each_keeps {A S : Type} (body : A -> S -> Outcome S)
    (I : S -> Prop) (l : list A) :
  Forall (fun x => forall s s', I s -> body x s = Returns s' -> I s') l ->
  forall locals locals',
    I locals -> for_each body l locals = Returns locals' -> I locals'.
Proof.
  induction 1 as [|x l Hx _ IH]; intros locals locals' HI Hr.
  - injection Hr as <-. exact HI.
  - cbn [for_each] in Hr. destruct (body x locals) as [s|e] eqn:Hb;
      [|discriminate].
    exact (IH s locals' (Hx locals s HI Hb) Hr).
Qed.

Lemma parse_part_identified (nested : Outcome (string * list Attachment))
    (part : Payload) (l l' : Locals) :
  (forall b a, nested = Returns (b, a) -> Forall identified a) ->
  Forall identified (attachments l) ->
  parse_part urlsafe_b64decode nested part l = Returns l' ->
  Forall identified (attachments l').
Proof.
  intros Hn Hl. unfold parse_part. cbv zeta.
  destruct (truthy (get_filename part)) eqn:Hf.
  { destruct (truthy (attachmentId (get_body part))) eqn:Ha;
      intros [= <-]; [|exact Hl].
    cbn [attachments]. apply Forall_app. split; [exact Hl|].
    apply Forall_cons_2; [|apply Forall_nil_2]. split; cbn [id filename].
    - destruct (attachmentId (get_body part)); [exact Ha|discriminate].
    - destruct (get_filename part); [exact Hf|discriminate]. }
  destruct (bool_decide (get_mimeType part = Some "text/html")).
  { destruct (truthy (default "" (data (get_body part))));
      [|intros [= <-]; exact Hl].
    destruct (urlsafe_b64decode _); intros [= <-]; exact Hl. }
  destruct (bool_decide (get_mimeType part = Some "text/plain")).
  { destruct (truthy (default "" (data (get_body part))));
      [|intros [= <-]; exact Hl].
    destruct (urlsafe_b64decode _); intros [= <-]; exact Hl. }
  destruct (get_parts part); [intros [= <-]; exact Hl|].
  destruct nested as [[b a]|e]; [|discriminate].
  intros [= <-]. cbn [attachments]. apply Forall_app. split.
  - destruct (truthy b && _); [destruct (contains _ _)|]; exact Hl.
  - exact (Hn b a eq_refl).
Qed.

Lemma parser_attachments_identified (payload : Payload) :
  forall body found,
    _recursive_payload_parser urlsafe_b64decode payload
    = Returns (body, found) ->
    Forall identified found.
Proof.
  induction payload as [f m b parts h IH] using Payload_parts_ind.
  intros body found Hr.
  destruct parts as [|part parts].
  - rewrite parser_without_parts in Hr by reflexivity.
    unfold parse_leaf in Hr. cbv zeta in Hr.
    destruct (truthy (default "" (data (get_body (Part f m b [] h)))));
      [destruct (urlsafe_b64decode _);
       [destruct (bool_decide (_ = Some "text/html"));
        [|destruct (bool_decide (_ = Some "text/plain"))]|]|];
      try discriminate; injection Hr as _ <-; apply Forall_nil_2.
  - rewrite parser_with_parts in Hr by discriminate.
    destruct (for_each _ _ _) as [l|e] eqn:Hloop; [|discriminate].
    injection Hr as _ <-.
    apply (for_each_keeps _ (fun l => Forall identified (attachments l))
             _) with (locals' := l) in Hloop;
      [exact Hloop | | apply Forall_nil_2].
    cbn [get_parts]. eapply Forall_impl; [exact IH|].
    intros p Hp s s' Hs Hstep.
    exact (parse_part_identified _ p s s' Hp Hs Hstep).
Qed.

Lemma for_each_cons {A S : Type} (body : A -> S -> Outcome S) (x : A)
    (l : list A) (locals : S) :
  for_each body (x :: l) locals
  = (locals' ← body x locals; for_each body l locals').
Proof. reflexivity. Qed.

Lemma parse_html_part (nested : Outcome (string * list Attachment))
    (part : Payload) (l : Locals) (d h : string) :
  truthy (get_filename part) = false ->
  get_mimeType part = Some "text/html" ->
  data (get_body part) = Some d ->
  truthy d = true ->
  urlsafe_b64decode d = Returns h ->
  parse_part urlsafe_b64decode nested part l
  = Returns {| html_body := h; plain_body := plain_body l;
               attachments := attachments l |}.
Proof.
  intros Hf Hm Hd Hdt Hdec. unfold parse_part. cbv zeta.
  rewrite Hf, Hm, Hd. change (default "" (Some d)) with d.
  rewrite bool_decide_eq_true_2, Hdt, Hdec by reflexivity. reflexivity.
Qed.

(** Once a top-level HTML part has been read, the text parts and nested
    parts that follow leave [html_body] alone. *)
Lemma later_parts_keep_html (nested : Payload -> Outcome (string * list Attachment))
    (h : string) (post : list Payload) :
  truthy h = true ->
  Forall (fun p => get_mimeType p <> Some "text/html") post ->
  forall l l',
    html_body l = h ->
    for_each (fun part => parse_part urlsafe_b64decode (nested part) part)
      post l = Returns l' ->
    html_body l' = h.
Proof.
  intros Hh Hpost.
  apply (for_each_keeps _ (fun l => html_body l = h)).
  eapply Forall_impl; [exact Hpost|].
  intros p Hp s s' Hs. unfold parse_part. cbv zeta.
  destruct (truthy (get_filename p)).
  { destruct (truthy (attachmentId (get_body p))); intros [= <-]; exact Hs. }
  rewrite (bool_decide_eq_false_2 _ Hp).
  destruct (bool_decide (get_mimeType p = Some "text/plain")).
  { destruct (truthy (default "" (data (get_body p))));
      [|intros [= <-]; exact Hs].
    destruct (urlsafe_b64decode _); intros [= <-]; exact Hs. }
  destruct (get_parts p); [intros [= <-]; exact Hs|].
  destruct (nested p) as [[b a]|e]; [|discriminate].
  intros [= <-]. rewrite Hs, Hh, andb_false_r. exact Hs.
Qed.

End PayloadParser.

(** Every attachment the fallback parser reports has an id and a file
    name: a part with a file name but no [attachmentId] in its body is
    left out, at every depth. *)
Theorem reported_attachments_are_identified
    (urlsafe_b64decode : string -> Outcome string)
    (payload : email_parser.Payload) (body : string)
    (found : list email_parser.Attachment) :
  email_parser._recursive_payload_parser urlsafe_b64decode payload
  = Returns (body, found) ->
  Forall (fun a => email_parser.id a <> ""
                   /\ email_parser.filename a <> "") found.
Proof.
  intros Hr.
  apply parser_attachments_identified in Hr.
  eapply Forall_impl; [exact Hr|].
  intros a [Hi Hf]. split; intros E; [rewrite E in Hi | rewrite E in Hf];
    discriminate.
Qed.

Lemma reported_attachments_are_identified_witness :
  Forall (fun a => email_parser.id a <> ""
                   /\ email_parser.filename a <> "")
    [ {| email_parser.id := "A1"; email_parser.filename := "a.pdf";
         email_parser.mimeType := Some "application/pdf" |} ].
Proof.
  apply (reported_attachments_are_identified (fun s => Returns s)
           (email_parser.Part None (Some "multipart/mixed") None
              [ email_parser.Part (Some "") (Some "text/plain")
                  (Some {| email_parser.data := Some "aGVsbG8=";
                           email_parser.attachmentId := None |}) [] [];
                email_parser.Part (Some "a.pdf") (Some "application/pdf")
                  (Some {| email_parser.data := None;
                           email_parser.attachmentId := Some "A1" |}) [] [];
                email_parser.Part (Some "inline.txt") (Some "text/plain")
                  (Some {| email_parser.data := Some "bm90ZQ==";
                           email_parser.attachmentId := None |}) [] [] ]
              [])
           "aGVsbG8=").
  vm_compute. reflexivity.
Defined.

(** The fallback parser prefers HTML: when the last top-level part of type
    text/html has no file name and its data decodes to a non-empty text,
    that text is the body the parser returns, whatever plain-text parts and
    nested parts come before or after it. *)
Theorem last_html_part_is_the_body
    (urlsafe_b64decode : string -> Outcome string)
    (payload part : email_parser.Payload)
    (pre post : list email_parser.Payload)
    (d h body : string) (found : list email_parser.Attachment) :
  email_parser.get_parts payload = (pre ++ part :: post)%list ->
  truthy (email_parser.get_filename part) = false ->
  email_parser.get_mimeType part = Some "text/html" ->
  email_parser.data (email_parser.get_body part) = Some d ->
  d <> "" ->
  urlsafe_b64decode d = Returns h ->
  h <> "" ->
  Forall (fun p => email_parser.get_mimeType p <> Some "text/html") post ->
  email_parser._recursive_payload_parser urlsafe_b64decode payload
  = Returns (body, found) ->
  body = h.
Proof.
  intros Hparts Hf Hm Hd Hd0 Hdec Hh0 Hpost Hr.
  assert (Hh : truthy h = true) by (destruct h; [destruct Hh0|]; reflexivity).
  assert (Hdt : truthy d = true) by (destruct d; [destruct Hd0|]; reflexivity).
  rewrite parser_with_parts in Hr
    by (rewrite Hparts; destruct pre; discriminate).
  rewrite Hparts, for_each_app in Hr.
  destruct (email_parser.for_each _ pre _) as [l1|e] eqn:Hpre;
    [|discriminate].
  cbn [mbind outcome_bind] in Hr. rewrite for_each_cons in Hr.
  rewrite (parse_html_part urlsafe_b64decode _ part l1 d h Hf Hm Hd Hdt Hdec)
    in Hr.
  cbn [mbind outcome_bind] in Hr.
  destruct (email_parser.for_each _ post _) as [l2|e] eqn:Hloop;
    [|discriminate].
  apply later_parts_keep_html with (h := h) in Hloop;
    [|exact Hh|exact Hpost|reflexivity].
  injection Hr as <- _. rewrite Hloop, Hh. reflexivity.
Qed.

Lemma last_html_part_is_the_body_witness :
  email_parser._recursive_payload_parser
    (fun s => if String.eqb s "aHRtbA==" then Returns "<p>hello</p>"
              else Returns "hello")
    (email_parser.Part None (Some "multipart/mixed") None
       [ email_parser.Part (Some "") (Some "text/html")
           (Some {| email_parser.data := Some "aHRtbA==";
                    email_parser.attachmentId := None |}) [] [];
         email_parser.Part (Some "") (Some "text/plain")
           (Some {| email_parser.data := Some "aGVsbG8=";
                    email_parser.attachmentId := None |}) [] [] ]
       [])
  = Returns ("<p>hello</p>", [])
  /\ "<p>hello</p>" = "<p>hello</p>".
Proof.
  split; [vm_compute; reflexivity|].
  apply (last_html_part_is_the_body
           (fun s => if String.eqb s "aHRtbA==" then Returns "<p>hello</p>"
                     else Returns "hello")
           (email_parser.Part None (Some "multipart/mixed") None
              [ email_parser.Part (Some "") (Some "text/html")
                  (Some {| email_parser.data := Some "aHRtbA==";
                           email_parser.attachmentId := None |}) [] [];
                email_parser.Part (Some "") (Some "text/plain")
                  (Some {| email_parser.data := Some "aGVsbG8=";
                           email_parser.attachmentId := None |}) [] [] ]
              [])
           (email_parser.Part (Some "") (Some "text/html")
              (Some {| email_parser.data := Some "aHRtbA==";
                       email_parser.attachmentId := None |}) [] [])
           []
           [ email_parser.Part (Some "") (Some "text/plain")
               (Some {| email_parser.data := Some "aGVsbG8=";
                        email_parser.attachmentId := None |}) [] [] ]
           "aHRtbA==" "<p>hello</p>" "<p>hello</p>" []).
  - reflexivity.
  - reflexivity.
  - reflexivity.
  - reflexivity.
  - discriminate.
  - reflexivity.
  - discriminate.
  - repeat constructor; discriminate.
  - vm_compute. reflexivity.
Defined.

(** * The settings service *)

(** User preferences override the defaults key by key, and the
    notification triggers trigger by trigger: with a user document whose
    "notification_triggers" entry is a map, the settings [get_settings]
    returns hold, under every other key, the document's value if it has
    one and the default otherwise, and each trigger likewise. *)
Theorem user_preferences_override_the_defaults
    (update_from_pairs :
       gmap string settings_service.Value -> list settings_service.Value ->
       gmap string settings_service.Value * Outcome unit)
    (self : settings_service.SettingsService)
    (user_settings triggers : gmap string settings_service.Value) :
  user_settings !! "notification_triggers"
  = Some (settings_service.VMap triggers) ->
  (forall key, key <> "notification_triggers" ->
     settings_service.effective
       (settings_service.get_settings update_from_pairs
          (Returns (Some user_settings)) self) !! key
     = match user_settings !! key with
       | Some v => Some v
       | None => settings_service.default_settings self !! key
       end)
  /\ exists effective_triggers,
       settings_service.effective
         (settings_service.get_settings update_from_pairs
            (Returns (Some user_settings)) self) !! "notification_triggers"
       = Some (settings_service.VMap effective_triggers)
       /\ forall trigger,
            effective_triggers !! trigger
            = match triggers !! trigger with
              | Some v => Some v
              | None =>
                  settings_service.notification_triggers self !! trigger
              end.
Proof.
  intros Hu. unfold settings_service.get_settings. rewrite Hu.
  cbn [settings_service.update].
  unfold settings_service.effective, settings_service.seen,
    settings_service.set_notification_triggers.
  cbn [fst snd settings_service.notification_triggers
       settings_service.default_settings].
  split.
  - intros key Hk.
    rewrite lookup_insert_ne by (intros E; apply Hk; symmetry; exact E).
    rewrite lookup_union, lookup_delete_ne
      by (intros E; apply Hk; symmetry; exact E).
    destruct (user_settings !! key);
      destruct (settings_service.default_settings self !! key); reflexivity.
  - exists (triggers ∪ settings_service.notification_triggers self). split.
    + apply lookup_insert_eq.
    + intros trigger. rewrite lookup_union.
      destruct (triggers !! trigger);
        destruct (settings_service.notification_triggers self !! trigger);
        reflexivity.
Qed.

Lemma user_preferences_override_the_defaults_witness :
  (forall key, key <> "notification_triggers" ->
     settings_service.effective
       (settings_service.get_settings settings_scenarios.no_pairs
          (Returns (Some settings_scenarios.a_document))
          settings_scenarios.a_service) !! key
     = match settings_scenarios.a_document !! key with
       | Some v => Some v
       | None =>
           settings_service.default_settings settings_scenarios.a_service
           !! key
       end)
  /\ exists effective_triggers,
       settings_service.effective
         (settings_service.get_settings settings_scenarios.no_pairs
            (Returns (Some settings_scenarios.a_document))
            settings_scenarios.a_service) !! "notification_triggers"
       = Some (settings_service.VMap effective_triggers)
       /\ forall trigger,
            effective_triggers !! trigger
            = match settings_scenarios.wanted_triggers !! trigger with
              | Some v => Some v
              | None =>
                  settings_service.notification_triggers
                    settings_scenarios.a_service !! trigger
              end.
Proof.
  apply (user_preferences_override_the_defaults settings_scenarios.no_pairs
           settings_scenarios.a_service settings_scenarios.a_document
           settings_scenarios.wanted_triggers).
  reflexivity.
Defined.

(** The user's triggers outlive the user's document.  [get_settings] merges
    the document's triggers into the dict object that the defaults hold, so
    that once a document with triggers has been read, a later call that
    finds no document, and [reset_to_defaults] after deleting it, still give
    the user's triggers on top of the defaults; the other defaults are as
    they were. *)
Theorem user_triggers_outlive_the_user_document
    (update_from_pairs :
       gmap string settings_service.Value -> list settings_service.Value ->
       gmap string settings_service.Value * Outcome unit)
    (self : settings_service.SettingsService)
    (user_settings triggers : gmap string settings_service.Value) :
  user_settings !! "notification_triggers"
  = Some (settings_service.VMap triggers) ->
  settings_service.effective
    (settings_service.get_settings update_from_pairs (Returns None)
       (settings_service.get_settings update_from_pairs
          (Returns (Some user_settings)) self).1)
  = <["notification_triggers" :=
        settings_service.VMap
          (triggers ∪ settings_service.notification_triggers self)]>
      (settings_service.default_settings self)
  /\ settings_service.reset_to_defaults (Returns true) (Returns ())
       (settings_service.get_settings update_from_pairs
          (Returns (Some user_settings)) self).1
     = Returns (settings_service.default_settings self)
  /\ settings_service.seen
       (settings_service.get_settings update_from_pairs
          (Returns (Some user_settings)) self).1
       (settings_service.default_settings self)
     = <["notification_triggers" :=
           settings_service.VMap
             (triggers ∪ settings_service.notification_triggers self)]>
         (settings_service.default_settings self).
Proof.
  intros Hu. unfold settings_service.get_settings at 2 3 4. rewrite Hu.
  cbn [settings_service.update fst].
  repeat split.
Qed.

Lemma user_triggers_outlive_the_user_document_witness :
  settings_service.effective
    (settings_service.get_settings settings_scenarios.no_pairs (Returns None)
       (settings_service.get_settings settings_scenarios.no_pairs
          (Returns (Some settings_scenarios.a_document))
          settings_scenarios.a_service).1)
  = <["notification_triggers" :=
        settings_service.VMap
          (settings_scenarios.wanted_triggers
           ∪ settings_service.notification_triggers
               settings_scenarios.a_service)]>
      (settings_service.default_settings settings_scenarios.a_service)
  /\ settings_service.reset_to_defaults (Returns true) (Returns ())
       (settings_service.get_settings settings_scenarios.no_pairs
          (Returns (Some settings_scenarios.a_document))
          settings_scenarios.a_service).1
     = Returns
         (settings_service.default_settings settings_scenarios.a_service)
  /\ settings_service.seen
       (settings_service.get_settings settings_scenarios.no_pairs
          (Returns (Some settings_scenarios.a_document))
          settings_scenarios.a_service).1
       (settings_service.default_settings settings_scenarios.a_service)
     = <["notification_triggers" :=
           settings_service.VMap
             (settings_scenarios.wanted_triggers
              ∪ settings_service.notification_triggers
                  settings_scenarios.a_service)]>
         (settings_service.default_settings settings_scenarios.a_service).
Proof.
  apply (user_triggers_outlive_the_user_document settings_scenarios.no_pairs
           settings_scenarios.a_service settings_scenarios.a_document
           settings_scenarios.wanted_triggers).
  reflexivity.
Defined.
